(** * FMUploadMaster-bot: access gate, upload sessions and persistence

    A shallow embedding of [FMUploadMaster-bot.py].  The relational backend
    is a record of tables, every handler is a function in a small
    state-and-exception monad over a [World] that holds the committed
    store, the in-memory session dictionaries of [FileManagerBot], the
    behaviour of the outside world (backend faults, Telegram answers) and
    the trace of effects performed so far. *)

From stdpp Require Import base gmap list strings pretty.
From Stdlib Require Import ZArith Lia Ascii.

Local Open Scope string_scope.
Local Open Scope list_scope.
Local Open Scope Z_scope.

(** ** Python values *)

(** The exception classes the program can meet.  [OperationalError],
    [IntegrityError], [InterfaceError] and [DataError] are psycopg2's
    (all of them are [Exception]s, none is a subclass of another one
    listed here); [AttributeError], [IndexError] and [ValueError] are
    Python's; [TelegramError] stands for anything raised by a call of the
    messaging library. *)
Inductive exn :=
| OperationalError
| IntegrityError
| InterfaceError
| DataError
| AttributeError
| IndexError
| ValueError
| TelegramError.

Global Instance exn_eq_dec : EqDecision exn.
Proof. solve_decision. Defined.

Inductive result (A : Type) :=
| Ok (a : A)
| Raise (e : exn).
Arguments Ok {A} a.
Arguments Raise {A} e.

(** [s[n:]] *)
Fixpoint string_drop (n : nat) (s : string) : string :=
  match n, s with
  | O, _ => s
  | S n', String _ s' => string_drop n' s'
  | S _, EmptyString => EmptyString
  end.

(** [s.startswith(p)] *)
Definition startswith (p s : string) : bool := String.prefix p s.

(** [x or d] on an optional string: [None] and [''] are both false. *)
Definition or_default (x : option string) (d : string) : string :=
  match x with
  | Some s => if decide (s = "") then d else s
  | None => d
  end.

(** [s.split('_', 1)]: the part before the first underscore and, when
    there is an underscore, the part after it. *)
Fixpoint split_once (s : string) : string * option string :=
  match s with
  | EmptyString => (EmptyString, None)
  | String c s' =>
      if decide (c = "_"%char) then (EmptyString, Some s')
      else let '(a, b) := split_once s' in (String c a, b)
  end.

Definition digit_of (c : ascii) : option Z :=
  let n := Z.of_N (Ascii.N_of_ascii c) in
  if bool_decide (48 ≤ n ≤ 57) then Some (n - 48) else None.

Fixpoint parse_digits (acc : Z) (s : string) : option Z :=
  match s with
  | EmptyString => Some acc
  | String c s' =>
      match digit_of c with
      | Some d => parse_digits (10 * acc + d) s'
      | None => None
      end
  end.

(** [int(s)] for a decimal numeral with an optional sign; surrounding
    blanks and digit separators, which Python also accepts, are not
    covered. [None] stands for [ValueError]. *)
Definition parse_int (s : string) : option Z :=
  match s with
  | EmptyString => None
  | String c s' =>
      if decide (c = "-"%char) then
        match s' with
        | EmptyString => None
        | _ => Z.opp <$> parse_digits 0 s'
        end
      else if decide (c = "+"%char) then
        match s' with
        | EmptyString => None
        | _ => parse_digits 0 s'
        end
      else parse_digits 0 s
  end.

(** ** The relational store *)

(** One record per table of [init_database]; timestamps are integers. *)
Record CategoryRow := {
  cat_id : string;
  cat_name : string;
  cat_created_by : Z;
  cat_created_at : Z
}.

Record FileRow := {
  row_serial : Z;
  row_category_id : string;
  row_file_id : string;
  row_file_name : string;
  row_file_size : Z;
  row_file_type : string;
  row_caption : option string;
  row_upload_date : Z
}.

Record ChannelRow := {
  chan_serial : Z;
  chan_channel_id : string;
  chan_channel_name : string;
  chan_invite_link : string;
  chan_created_at : Z
}.

(** Tables are kept in physical (insertion) order; the two SERIAL columns
    draw from [files_seq] and [channels_seq]. *)
Record Store := {
  categories : list CategoryRow;
  files : list FileRow;
  channels : list ChannelRow;
  files_seq : Z;
  channels_seq : Z
}.

(** The dictionary built by [extract_file_info] and read back by the
    queries. *)
Record FileInfo := {
  file_id : string;
  file_name : string;
  file_size : Z;
  file_type : string;
  caption : string
}.

Global Instance FileInfo_eq_dec : EqDecision FileInfo.
Proof. solve_decision. Defined.

(** *** ORDER BY

    [ORDER BY key ASC] is a stable insertion sort over the physical order
    of the table: rows with equal keys keep their insertion order. *)
Section OrderBy.
Context {A : Type} (key : A → Z).

Fixpoint insert_by (x : A) (l : list A) : list A :=
  match l with
  | [] => [x]
  | y :: l' =>
      if bool_decide (key x ≤ key y) then x :: l else y :: insert_by x l'
  end.

Definition order_by (l : list A) : list A := foldr insert_by [] l.

(** The list is in non-decreasing key order. *)
Fixpoint ascending (l : list A) : Prop :=
  match l with
  | [] => True
  | x :: l' => Forall (λ y, key x ≤ key y) l' ∧ ascending l'
  end.
End OrderBy.

(** [ORDER BY key DESC] *)
Definition order_by_desc {A} (key : A → Z) : list A → list A :=
  order_by (λ x, - key x).

Definition descending {A} (key : A → Z) : list A → Prop :=
  ascending (λ x, - key x).

(** *** Statements

    A statement is its text and the tuple of its parameters (kept for the
    trace, integers in decimal) and its meaning on the store at a given
    [CURRENT_TIMESTAMP]: an exception raised by the backend, or the new
    store with what the cursor yields ([None] when nothing is fetched or
    [fetchone] finds no row). *)
Record statement (A : Type) := {
  sql : string;
  params : list string;
  sem : Z → Store → exn + (Store * option A)
}.
Arguments sql {A} _.
Arguments params {A} _.
Arguments sem {A} _ _ _.

Definition set_categories (cs : list CategoryRow) (s : Store) : Store :=
  {| categories := cs; files := files s; channels := channels s;
     files_seq := files_seq s; channels_seq := channels_seq s |}.

Definition set_files (fs : list FileRow) (s : Store) : Store :=
  {| categories := categories s; files := fs; channels := channels s;
     files_seq := files_seq s; channels_seq := channels_seq s |}.

Definition category_exists (s : Store) (cid : string) : bool :=
  bool_decide (cid ∈ cat_id <$> categories s).

Definition file_id_stored (s : Store) (fid : string) : bool :=
  bool_decide (fid ∈ row_file_id <$> files s).

(** The parameter tuple of the two INSERTs into [files]. *)
Definition file_params (cid : string) (f : FileInfo) : list string :=
  [cid; file_id f; file_name f; pretty (file_size f); file_type f; caption f].

Definition new_file_row (now : Z) (s : Store) (cid : string) (f : FileInfo)
  : FileRow :=
  {| row_serial := files_seq s; row_category_id := cid;
     row_file_id := file_id f; row_file_name := file_name f;
     row_file_size := file_size f; row_file_type := file_type f;
     row_caption := Some (caption f); row_upload_date := now |}.

Definition append_file_row (now : Z) (s : Store) (cid : string) (f : FileInfo)
  : Store :=
  {| categories := categories s;
     files := files s ++ [new_file_row now s cid f];
     channels := channels s;
     files_seq := files_seq s + 1; channels_seq := channels_seq s |}.

(** INSERT INTO categories (id, name, created_by, created_at) VALUES (...):
    [id] is the primary key and [name] is UNIQUE. *)
Definition insert_category (cid name : string) (created_by : Z)
  : statement unit :=
  {| sql := "INSERT INTO categories";
     params := [cid; name; pretty created_by];
     sem := λ now s,
       if bool_decide (cid ∈ cat_id <$> categories s)
          || bool_decide (name ∈ cat_name <$> categories s)
       then inl IntegrityError
       else inr (set_categories
                   (categories s ++
                      [{| cat_id := cid; cat_name := name;
                          cat_created_by := created_by;
                          cat_created_at := now |}]) s, None) |}.

(** SELECT id, name, created_by, created_at FROM categories
    ORDER BY created_at DESC *)
Definition select_categories : statement (list CategoryRow) :=
  {| sql := "SELECT FROM categories ORDER BY created_at DESC";
     params := [];
     sem := λ _ s, inr (s, Some (order_by_desc cat_created_at (categories s))) |}.

(** SELECT ... FROM files WHERE category_id IN (...) ORDER BY upload_date ASC *)
Definition select_files_in (ids : list string) : statement (list FileRow) :=
  {| sql := "SELECT FROM files WHERE category_id IN ORDER BY upload_date ASC";
     params := ids;
     sem := λ _ s,
       inr (s, Some (order_by row_upload_date
                       (filter (λ r, row_category_id r ∈ ids) (files s)))) |}.

(** SELECT name, created_by, created_at FROM categories WHERE id = %s *)
Definition select_category (cid : string) : statement CategoryRow :=
  {| sql := "SELECT FROM categories WHERE id";
     params := [cid];
     sem := λ _ s,
       inr (s, head (filter (λ c, cat_id c = cid) (categories s))) |}.

(** The rows of one category in upload-time order. *)
Definition files_of_category (s : Store) (cid : string) : list FileRow :=
  order_by row_upload_date (filter (λ r, row_category_id r = cid) (files s)).

(** SELECT ... FROM files WHERE category_id = %s ORDER BY upload_date ASC *)
Definition select_files_of (cid : string) : statement (list FileRow) :=
  {| sql := "SELECT FROM files WHERE category_id ORDER BY upload_date ASC";
     params := [cid];
     sem := λ _ s, inr (s, Some (files_of_category s cid)) |}.

(** DELETE FROM categories WHERE id = %s; the foreign key of [files] is
    ON DELETE CASCADE. *)
Definition delete_category_stmt (cid : string) : statement unit :=
  {| sql := "DELETE FROM categories WHERE id";
     params := [cid];
     sem := λ _ s,
       inr ({| categories := filter (λ c, cat_id c ≠ cid) (categories s);
               files := filter (λ r, row_category_id r ≠ cid) (files s);
               channels := channels s;
               files_seq := files_seq s;
               channels_seq := channels_seq s |}, None) |}.

(** The values of a BIGINT column. *)
Definition is_bigint (n : Z) : bool := bool_decide (- 2 ^ 63 ≤ n < 2 ^ 63).

(** INSERT INTO files (...) VALUES (...): [file_size] is BIGINT, and a
    value outside its range is refused before any constraint is looked
    at; [file_id] is UNIQUE and [category_id] references [categories]. *)
Definition insert_file (cid : string) (f : FileInfo) : statement unit :=
  {| sql := "INSERT INTO files";
     params := file_params cid f;
     sem := λ now s,
       if negb (is_bigint (file_size f)) then inl DataError
       else if file_id_stored s (file_id f) then inl IntegrityError
       else if category_exists s cid
            then inr (append_file_row now s cid f, None)
            else inl IntegrityError |}.

(** The same INSERT with ON CONFLICT ON CONSTRAINT files_file_id_unique
    DO NOTHING: a row whose [file_id] is taken is skipped before the
    foreign key is looked at. *)
Definition insert_file_do_nothing (cid : string) (f : FileInfo)
  : statement unit :=
  {| sql := "INSERT INTO files ON CONFLICT DO NOTHING";
     params := file_params cid f;
     sem := λ now s,
       if file_id_stored s (file_id f) then inr (s, None)
       else if category_exists s cid
            then inr (append_file_row now s cid f, None)
            else inl IntegrityError |}.

(** The rows of [listed] with the upload date of [r]. *)
Definition tied_with (r : FileRow) (listed : list FileRow) : list FileRow :=
  filter (λ x, row_upload_date x = row_upload_date r) listed.

(** The row that ORDER BY upload_date ASC LIMIT 1 OFFSET [i] yields.  SQL
    fixes the order of rows with equal [upload_date] in no way, and each
    query may order them in its own way (the rows of one
    [add_files_to_category] batch all carry the same [upload_date]): the
    row at the offset is one of the rows tied with the row that the
    listing has at this position.  [choice] is the serial number the
    backend settles on; where it names none of the tied rows the row of
    the listing is taken. *)
Definition row_at_offset (choice : Z) (listed : list FileRow) (i : nat)
  : option FileRow :=
  (λ r, default r (head (filter (λ x, row_serial x = choice)
                           (tied_with r listed))))
    <$> listed !! i.

(** SELECT id FROM files WHERE category_id = %s ORDER BY upload_date ASC
    LIMIT 1 OFFSET %s; a negative OFFSET is refused by the backend.
    [choice] is the backend's choice among equal upload dates, for the
    store the statement runs on. *)
Definition select_file_at (choice : Store → Z) (cid : string)
    (file_index : Z) : statement Z :=
  {| sql := "SELECT id FROM files ORDER BY upload_date ASC LIMIT 1 OFFSET";
     params := [cid; pretty file_index];
     sem := λ _ s,
       if bool_decide (file_index < 0) then inl DataError
       else inr (s, row_serial <$>
                      row_at_offset (choice s) (files_of_category s cid)
                        (Z.to_nat file_index)) |}.

(** DELETE FROM files WHERE id = %s *)
Definition delete_file_stmt (serial : Z) : statement unit :=
  {| sql := "DELETE FROM files WHERE id";
     params := [pretty serial];
     sem := λ _ s,
       inr (set_files (filter (λ r, row_serial r ≠ serial) (files s)) s,
            None) |}.

(** INSERT INTO channels (channel_id, channel_name, invite_link):
    [channel_id] is UNIQUE. *)
Definition insert_channel (chid name link : string) : statement unit :=
  {| sql := "INSERT INTO channels";
     params := [chid; name; link];
     sem := λ now s,
       if bool_decide (chid ∈ chan_channel_id <$> channels s)
       then inl IntegrityError
       else inr ({| categories := categories s; files := files s;
                    channels := channels s ++
                      [{| chan_serial := channels_seq s;
                          chan_channel_id := chid;
                          chan_channel_name := name;
                          chan_invite_link := link;
                          chan_created_at := now |}];
                    files_seq := files_seq s;
                    channels_seq := channels_seq s + 1 |}, None) |}.

(** SELECT channel_id, channel_name, invite_link FROM channels
    ORDER BY created_at ASC *)
Definition select_channels : statement (list ChannelRow) :=
  {| sql := "SELECT FROM channels ORDER BY created_at ASC";
     params := [];
     sem := λ _ s, inr (s, Some (order_by chan_created_at (channels s))) |}.

(** DELETE FROM channels WHERE channel_id = %s *)
Definition delete_channel_stmt (chid : string) : statement unit :=
  {| sql := "DELETE FROM channels WHERE channel_id";
     params := [chid];
     sem := λ _ s,
       inr ({| categories := categories s; files := files s;
               channels := filter (λ c, chan_channel_id c ≠ chid) (channels s);
               files_seq := files_seq s;
               channels_seq := channels_seq s |}, None) |}.

(** ** The world of a handler *)

Inductive media_kind := Document | Photo | Video | Audio | Voice.

Global Instance media_kind_eq_dec : EqDecision media_kind.
Proof. solve_decision. Defined.

Inductive log_level := Warning | Error.

Global Instance log_level_eq_dec : EqDecision log_level.
Proof. solve_decision. Defined.

(** User-visible texts are kept by what they say, not by their wording. *)
Inductive text :=
| TxtGreetAdmin
| TxtGreetUser
| TxtNotAllowed
| TxtCategoryNotFound
| TxtCategoryEmpty
| TxtSendingFiles (name : string)
| TxtSendingFilesToAdmin
| TxtJoinChannels
| TxtAdminMenu (name : string) (count : nat)
| TxtUploadUsage
| TxtUploadStarted (name : string)
| TxtUnsupportedMedia
| TxtFileReceived (name : string) (count : nat)
| TxtNoUploadPending
| TxtNothingUploaded
| TxtFilesAdded (count : nat) (link : string)
| TxtSaveFailed
| TxtAddingStarted
| TxtChooseFileToDelete
| TxtFileDeleted
| TxtFileDeleteFailed
| TxtConfirmCategoryDeletion
| TxtCategoryDeleted (name : string)
| TxtCategoryDeleteFailed
| TxtCancelled.

Global Instance text_eq_dec : EqDecision text.
Proof. solve_decision. Defined.

Inductive button :=
| UrlButton (label url : string)
| CallbackButton (label callback_data : string).

Global Instance button_eq_dec : EqDecision button.
Proof. solve_decision. Defined.

(** What a handler does to the outside, in program order.  Durations are
    in milliseconds. *)
Inductive event :=
| EvExecute (q : string) (args : list string)
| EvExecuteMany (q : string) (rows : list (list string))
| EvCommit
| EvRollback
| EvConnect
| EvSleep (ms : Z)
| EvLog (level : log_level) (msg : string)
| EvGetChatMember (chat_id : string) (user_id : Z)
| EvAnswer
| EvReplyText (chat_id : Z) (t : text) (reply_markup : list (list button))
| EvEditMessageText (t : text) (reply_markup : list (list button))
| EvSend (k : media_kind) (chat_id : Z) (token caption : string).

Global Instance event_eq_dec : EqDecision event.
Proof. solve_decision. Defined.

(** [bot_manager.pending_uploads[user_id]] *)
Record PendingUpload := {
  pu_category_id : string;
  pu_files : list FileInfo
}.

(** [bot_manager.pending_channel_data[user_id]] *)
Record ChannelData := {
  channel_id : string;
  channel_name : string;
  invite_link : string
}.

(** - [db] is what has been committed, [work] what the connection sees
      (committed rows and the changes of the open transaction);
    - [faults] scripts the backend: every call of the driver ([execute],
      [executemany], [commit], [rollback], [connect]) takes the next
      entry and raises it if it is an exception; past the end of the
      script no call fails;
    - [chat_member] and [send_error] are the answers of Telegram to
      [get_chat_member] and to the five [send_*] calls (by token);
    - [pending_uploads] and [pending_channel_data] are the two session
      dictionaries of [FileManagerBot];
    - [ties] is the backend's choice where ORDER BY leaves one: for the
      LIMIT 1 OFFSET query of [delete_file] on a category, an offset and
      a store, the serial number of the row it yields among the rows
      whose [upload_date] is the one at that offset. *)
Record World := {
  db : Store;
  work : Store;
  now : Z;
  faults : list (option exn);
  chat_member : string → Z → exn + string;
  send_error : string → option exn;
  pending_uploads : gmap Z PendingUpload;
  pending_channel_data : gmap Z ChannelData;
  trace : list event;
  ties : string → Z → Store → Z
}.

Definition set_db (s : Store) (w : World) : World :=
  {| db := s; work := work w; now := now w; faults := faults w;
     chat_member := chat_member w; send_error := send_error w;
     pending_uploads := pending_uploads w;
     pending_channel_data := pending_channel_data w; trace := trace w;
     ties := ties w |}.

Definition set_work (s : Store) (w : World) : World :=
  {| db := db w; work := s; now := now w; faults := faults w;
     chat_member := chat_member w; send_error := send_error w;
     pending_uploads := pending_uploads w;
     pending_channel_data := pending_channel_data w; trace := trace w;
     ties := ties w |}.

Definition set_faults (fs : list (option exn)) (w : World) : World :=
  {| db := db w; work := work w; now := now w; faults := fs;
     chat_member := chat_member w; send_error := send_error w;
     pending_uploads := pending_uploads w;
     pending_channel_data := pending_channel_data w; trace := trace w;
     ties := ties w |}.

Definition set_pending_uploads (p : gmap Z PendingUpload) (w : World) : World :=
  {| db := db w; work := work w; now := now w; faults := faults w;
     chat_member := chat_member w; send_error := send_error w;
     pending_uploads := p;
     pending_channel_data := pending_channel_data w; trace := trace w;
     ties := ties w |}.

Definition set_pending_channel_data (p : gmap Z ChannelData) (w : World)
  : World :=
  {| db := db w; work := work w; now := now w; faults := faults w;
     chat_member := chat_member w; send_error := send_error w;
     pending_uploads := pending_uploads w;
     pending_channel_data := p; trace := trace w; ties := ties w |}.

Definition add_trace (evs : list event) (w : World) : World :=
  {| db := db w; work := work w; now := now w; faults := faults w;
     chat_member := chat_member w; send_error := send_error w;
     pending_uploads := pending_uploads w;
     pending_channel_data := pending_channel_data w;
     trace := trace w ++ evs; ties := ties w |}.

Definition set_ties (t : string → Z → Store → Z) (w : World) : World :=
  {| db := db w; work := work w; now := now w; faults := faults w;
     chat_member := chat_member w; send_error := send_error w;
     pending_uploads := pending_uploads w;
     pending_channel_data := pending_channel_data w; trace := trace w;
     ties := t |}.

(** ** The monad of handlers: state and exceptions *)

Definition M (A : Type) : Type := World → result A * World.

Definition run {A} (m : M A) (w : World) : result A * World := m w.

Global Instance M_ret : MRet M := λ A a w, (Ok a, w).

Global Instance M_bind : MBind M := λ A B f m w,
  match m w with
  | (Ok a, w') => f a w'
  | (Raise e, w') => (Raise e, w')
  end.

Definition raise {A} (e : exn) : M A := λ w, (Raise e, w).

(** [try: body  except Exception as e: handler e] *)
Definition try_except {A} (body : M A) (handler : exn → M A) : M A := λ w,
  match body w with
  | (Ok a, w') => (Ok a, w')
  | (Raise e, w') => handler e w'
  end.

Definition get_world : M World := λ w, (Ok w, w).

Definition modify (f : World → World) : M unit := λ w, (Ok (), f w).

Definition emit (e : event) : M unit := modify (add_trace [e]).

Definition log (level : log_level) (msg : string) : M unit :=
  emit (EvLog level msg).

(** A call into the driver: the next entry of the fault script decides. *)
Definition driver_call : M unit := λ w,
  match faults w with
  | [] => (Ok (), w)
  | None :: fs => (Ok (), set_faults fs w)
  | Some e :: fs => (Raise e, set_faults fs w)
  end.

(** [cursor.execute(query, params)] followed by the fetch the statement
    asks for. *)
Definition cursor_execute {A} (q : statement A) : M (option A) :=
  emit (EvExecute (sql q) (params q));;
  driver_call;;
  w ← get_world;
  match sem q (now w) (work w) with
  | inl e => raise e
  | inr (s, r) => modify (set_work s);; mret r
  end.

(** [self.conn.commit()] *)
Definition commit : M unit :=
  emit EvCommit;;
  driver_call;;
  modify (λ w, set_db (work w) w).

(** [self.conn.rollback()] *)
Definition rollback : M unit :=
  emit EvRollback;;
  driver_call;;
  modify (λ w, set_work (db w) w).

(** [self.conn = psycopg2.connect(...)]: a fresh connection sees the
    committed rows only. *)
Definition connect : M unit :=
  emit EvConnect;;
  driver_call;;
  modify (λ w, set_work (db w) w).

(** [time.sleep] and [asyncio.sleep] *)
Definition sleep (ms : Z) : M unit := emit (EvSleep ms).

(** ** Python dictionaries that are iterated

    A [dict] whose order is observed is an association list in insertion
    order; assigning to a key that is present keeps its place. *)
Fixpoint dict_set {V} (k : string) (v : V) (d : list (string * V))
  : list (string * V) :=
  match d with
  | [] => [(k, v)]
  | (k', v') :: d' =>
      if decide (k = k') then (k, v) :: d' else (k', v') :: dict_set k v d'
  end.

(** The value of a category as [get_category] and [get_categories] build
    it: keys ['name'], ['files'], ['created_by'], ['created_at']. *)
Record Category := {
  c_name : string;
  c_files : list FileInfo;
  c_created_by : Z;
  c_created_at : Z
}.

(** A row of [files] as the dictionary the queries build from it;
    [caption or ''] turns a NULL caption into the empty string. *)
Definition file_dict (r : FileRow) : FileInfo :=
  {| file_id := row_file_id r; file_name := row_file_name r;
     file_size := row_file_size r; file_type := row_file_type r;
     caption := default "" (row_caption r) |}.

Definition channel_dict (r : ChannelRow) : ChannelData :=
  {| channel_id := chan_channel_id r; channel_name := chan_channel_name r;
     invite_link := chan_invite_link r |}.

(** The way a [for] body leaves: on to the next round, or out of the
    function with a value. *)
Inductive flow (R : Type) :=
| Continue
| Return (r : R).
Arguments Continue {R}.
Arguments Return {R} r.

(** ** class DatabaseManager *)
Module DatabaseManager.

Definition max_retries : Z := 3.

(** One round of the [for attempt in range(max_retries)] loop of
    [_execute_with_retry]. *)
Definition attempt_round {A} (q : statement A) (attempt : Z)
  : M (flow (option A)) :=
  try_except
    (result ← cursor_execute q;
     commit;;
     mret (Return result))
    (λ e,
       match e with
       | OperationalError =>
           if bool_decide (attempt < max_retries - 1) then
             log Warning "Database connection lost, retrying";;
             sleep 1000;;
             try_except connect (λ _, mret ());;
             mret Continue
           else raise e
       | _ => rollback;; raise e
       end).

Fixpoint for_attempts {A} (q : statement A) (attempts : list Z)
  : M (option A) :=
  match attempts with
  | [] => mret None
  | attempt :: rest =>
      f ← attempt_round q attempt;
      match f with
      | Return result => mret result
      | Continue => for_attempts q rest
      end
  end.

Definition _execute_with_retry {A} (q : statement A) : M (option A) :=
  for_attempts q (seqZ 0 max_retries).

Definition add_category (category_id name : string) (created_by : Z)
  : M bool :=
  try_except
    (_execute_with_retry (insert_category category_id name created_by);;
     mret true)
    (λ e, log Error "Error adding category";; mret false).

(** The grouping loop of [get_categories]: [files_by_category]. *)
Definition group_file (acc : gmap string (list FileInfo)) (r : FileRow)
  : gmap string (list FileInfo) :=
  <[row_category_id r := default [] (acc !! row_category_id r) ++ [file_dict r]]> acc.

Definition category_of (cat : CategoryRow) (fs : list FileInfo) : Category :=
  {| c_name := cat_name cat; c_files := fs;
     c_created_by := cat_created_by cat;
     c_created_at := cat_created_at cat |}.

Definition get_categories : M (list (string * Category)) :=
  try_except
    (categories_data ← _execute_with_retry select_categories;
     match default [] categories_data with
     | [] => mret []
     | cats =>
         let category_ids := cat_id <$> cats in
         files_by_category ←
           match category_ids with
           | [] => mret ∅
           | _ =>
               files_data ←
                 _execute_with_retry (select_files_in category_ids);
               mret (foldl group_file ∅ (default [] files_data))
           end;
         mret (foldl
                 (λ categories cat_data,
                    dict_set (cat_id cat_data)
                      (category_of cat_data
                         (default [] (files_by_category !! cat_id cat_data)))
                      categories)
                 [] cats)
     end)
    (λ e, log Error "Error retrieving categories";; mret []).

Definition get_category (category_id : string) : M (option Category) :=
  try_except
    (cat_data ← _execute_with_retry (select_category category_id);
     match cat_data with
     | None => mret None
     | Some cat =>
         files_data ← _execute_with_retry (select_files_of category_id);
         mret (Some (category_of cat (file_dict <$> default [] files_data)))
     end)
    (λ e, log Error "Error retrieving category";; mret None).

Definition delete_category (category_id : string) : M bool :=
  try_except
    (_execute_with_retry (delete_category_stmt category_id);;
     mret true)
    (λ e, log Error "Error deleting category";; mret false).

Definition add_file_to_category (category_id : string) (file_info : FileInfo)
  : M bool :=
  try_except
    (_execute_with_retry (insert_file category_id file_info);;
     mret true)
    (λ e,
       match e with
       | IntegrityError => log Warning "File already exists";; mret false
       | _ => log Error "Error adding file";; mret false
       end).

(** [cursor.executemany]: the statement once per parameter tuple, in
    order, inside the open transaction. *)
Fixpoint executemany {A} (qs : list (statement A)) : M unit :=
  match qs with
  | [] => mret ()
  | q :: rest =>
      w ← get_world;
      match sem q (now w) (work w) with
      | inl e => raise e
      | inr (s, _) => modify (set_work s);; executemany rest
      end
  end.

Definition cursor_executemany {A} (query : string)
    (qs : list (statement A)) : M unit :=
  emit (EvExecuteMany query (params <$> qs));;
  driver_call;;
  executemany qs.

Definition add_files_to_category (category_id : string)
    (files : list FileInfo) : M bool :=
  try_except
    (cursor_executemany "INSERT INTO files ON CONFLICT DO NOTHING"
       (insert_file_do_nothing category_id <$> files);;
     commit;;
     mret true)
    (λ e, rollback;; log Error "Error adding files";; mret false).

Definition delete_file (category_id : string) (file_index : Z) : M bool :=
  try_except
    (w ← get_world;
     result ← cursor_execute
                (select_file_at (ties w category_id file_index) category_id
                   file_index);
     match result with
     | Some serial =>
         cursor_execute (delete_file_stmt serial);;
         commit;;
         mret true
     | None => mret false
     end)
    (λ e, rollback;; log Error "Error deleting file";; mret false).

Definition add_channel (channel_id channel_name invite_link : string)
  : M bool :=
  try_except
    (_execute_with_retry (insert_channel channel_id channel_name invite_link);;
     mret true)
    (λ e,
       match e with
       | IntegrityError => log Warning "Channel already exists";; mret false
       | _ => log Error "Error adding channel";; mret false
       end).

Definition get_channels : M (list ChannelData) :=
  try_except
    (channels_data ← _execute_with_retry select_channels;
     mret (channel_dict <$> default [] channels_data))
    (λ e, log Error "Error retrieving channels";; mret []).

Definition delete_channel (channel_id : string) : M bool :=
  try_except
    (_execute_with_retry (delete_channel_stmt channel_id);;
     mret true)
    (λ e, log Error "Error deleting channel";; mret false).

End DatabaseManager.

(** ** Objects of the messaging library

    Only the attributes the handlers read.  An [Update] has
    [effective_user], [effective_chat], [message] and [callback_query];
    a [CallbackQuery] has [from_user], [data] and [message], and neither
    [effective_user] nor [effective_chat]. *)
Record Attachment := {
  att_file_id : string;
  att_file_name : option string;
  att_file_size : Z
}.

Record Message := {
  msg_chat_id : Z;
  msg_caption : option string;
  document : option Attachment;
  photo : list Attachment;
  video : option Attachment;
  audio : option Attachment;
  voice : option Attachment
}.

Record CallbackQuery := {
  from_user : Z;
  data : string;
  cq_message : option Message
}.

Record Update := {
  effective_user : Z;
  effective_chat : Z;
  message : option Message;
  callback_query : option CallbackQuery
}.

(** What a handler is handed as its first argument.  Python does not
    check the annotation [update: Update]: the object is whatever the
    caller passes, and reading an attribute it lacks raises
    [AttributeError]. *)
Inductive pyobj :=
| PyUpdate (u : Update)
| PyCallbackQuery (q : CallbackQuery).

(** [update.effective_user.id] *)
Definition effective_user_id (update : pyobj) : M Z :=
  match update with
  | PyUpdate u => mret (effective_user u)
  | PyCallbackQuery _ => raise AttributeError
  end.

(** [update.effective_chat.id] *)
Definition effective_chat_id (update : pyobj) : M Z :=
  match update with
  | PyUpdate u => mret (effective_chat u)
  | PyCallbackQuery _ => raise AttributeError
  end.

(** [update.message.reply_text(t, reply_markup=markup)] *)
Definition reply_text (update : pyobj) (t : text)
    (reply_markup : list (list button)) : M unit :=
  match match update with
        | PyUpdate u => message u
        | PyCallbackQuery q => cq_message q
        end with
  | Some m => emit (EvReplyText (msg_chat_id m) t reply_markup)
  | None => raise AttributeError
  end.

(** [query.edit_message_text(t, reply_markup=markup)] *)
Definition edit_message_text (query : CallbackQuery) (t : text)
    (reply_markup : list (list button)) : M unit :=
  emit (EvEditMessageText t reply_markup).

(** [context.bot.get_chat_member(chat_id=..., user_id=...)]: the status
    of the member, or what the call raises. *)
Definition get_chat_member (chat_id : string) (user_id : Z) : M string :=
  emit (EvGetChatMember chat_id user_id);;
  w ← get_world;
  match chat_member w chat_id user_id with
  | inl e => raise e
  | inr status => mret status
  end.

(** [context.bot.send_document] and its four siblings: the request is
    made, and fails when Telegram refuses the token. *)
Definition send_media (k : media_kind) (chat_id : Z) (token caption : string)
  : M unit :=
  emit (EvSend k chat_id token caption);;
  w ← get_world;
  match send_error w token with
  | Some e => raise e
  | None => mret ()
  end.

(** States of the upload conversation and [ConversationHandler.END]. *)
Definition UPLOADING : Z := 0.
Definition END : Z := -1.

(** [for file_info in files: try: body  except Exception: logger.error] *)
Fixpoint for_each_file (body : FileInfo → M unit) (files : list FileInfo)
  : M unit :=
  match files with
  | [] => mret ()
  | file_info :: rest =>
      try_except (body file_info) (λ e, log Error "Error sending file");;
      for_each_file body rest
  end.

Section Bot.
(** The configuration read by [load_config]. *)
Variable BOT_USERNAME : string.
Variable ADMIN_IDS : list Z.

(** *** class FileManagerBot *)

Definition is_admin (user_id : Z) : bool := bool_decide (user_id ∈ ADMIN_IDS).

Definition generate_category_link (category_id : string) : string :=
  "https://t.me/" +:+ BOT_USERNAME +:+ "?start=cat_" +:+ category_id.

Definition extract_file_info (message : Message) : option FileInfo :=
  match document message with
  | Some doc =>
      Some {| file_id := att_file_id doc;
              file_name := or_default (att_file_name doc) "document";
              file_size := att_file_size doc;
              file_type := "document";
              caption := or_default (msg_caption message) "" |}
  | None =>
  match last (photo message) with
  | Some photo =>
      Some {| file_id := att_file_id photo;
              file_name := "photo.jpg";
              file_size := att_file_size photo;
              file_type := "photo";
              caption := or_default (msg_caption message) "" |}
  | None =>
  match video message with
  | Some video =>
      Some {| file_id := att_file_id video;
              file_name := or_default (att_file_name video) "video.mp4";
              file_size := att_file_size video;
              file_type := "video";
              caption := or_default (msg_caption message) "" |}
  | None =>
  match audio message with
  | Some audio =>
      Some {| file_id := att_file_id audio;
              file_name := or_default (att_file_name audio) "audio";
              file_size := att_file_size audio;
              file_type := "audio";
              caption := or_default (msg_caption message) "" |}
  | None =>
  match voice message with
  | Some voice =>
      Some {| file_id := att_file_id voice;
              file_name := "voice.ogg";
              file_size := att_file_size voice;
              file_type := "voice";
              caption := or_default (msg_caption message) "" |}
  | None => None
  end end end end end.

(** *** Access to a category *)

Definition handle_admin_category_access (update : pyobj)
    (category_id : string) : M unit :=
  category ← DatabaseManager.get_category category_id;
  match category with
  | None => reply_text update TxtCategoryNotFound []
  | Some category =>
      reply_text update
        (TxtAdminMenu (c_name category) (length (c_files category)))
        [ [CallbackButton "view files" ("view_" +:+ category_id)];
          [CallbackButton "add file" ("add_" +:+ category_id)];
          [CallbackButton "delete file" ("delete_file_" +:+ category_id)];
          [CallbackButton "delete category" ("delete_cat_" +:+ category_id)] ]
  end.

(** The body of the sending loop of [send_category_files]. *)
Definition send_one (update : pyobj) (file_info : FileInfo) : M unit :=
  (if decide (file_type file_info = "document") then
     chat_id ← effective_chat_id update;
     send_media Document chat_id (file_id file_info) (caption file_info)
   else if decide (file_type file_info = "photo") then
     chat_id ← effective_chat_id update;
     send_media Photo chat_id (file_id file_info) (caption file_info)
   else if decide (file_type file_info = "video") then
     chat_id ← effective_chat_id update;
     send_media Video chat_id (file_id file_info) (caption file_info)
   else if decide (file_type file_info = "audio") then
     chat_id ← effective_chat_id update;
     send_media Audio chat_id (file_id file_info) (caption file_info)
   else if decide (file_type file_info = "voice") then
     chat_id ← effective_chat_id update;
     send_media Voice chat_id (file_id file_info) (caption file_info)
   else mret ());;
  sleep 500.

Definition send_category_files (update : pyobj) (category_id : string)
  : M unit :=
  category ← DatabaseManager.get_category category_id;
  match category with
  | None => reply_text update TxtCategoryNotFound []
  | Some category =>
      match c_files category with
      | [] => reply_text update TxtCategoryEmpty []
      | files =>
          reply_text update (TxtSendingFiles (c_name category)) [];;
          for_each_file (send_one update) files
      end
  end.

(** [member.status not in ['member', 'administrator', 'creator']] *)
Definition not_joined (status : string) : bool :=
  negb (bool_decide (status ∈ ["member"; "administrator"; "creator"])).

(** The membership loop of [handle_category_access]; the accumulator is
    [non_joined_channels]. *)
Fixpoint check_channels (user_id : Z) (channels : list ChannelData)
    (non_joined_channels : list ChannelData) : M (list ChannelData) :=
  match channels with
  | [] => mret non_joined_channels
  | channel :: rest =>
      non_joined_channels ←
        try_except
          (status ← get_chat_member (channel_id channel) user_id;
           if not_joined status
           then mret (non_joined_channels ++ [channel])
           else mret non_joined_channels)
          (λ e,
             log Error "Error checking membership";;
             mret (non_joined_channels ++ [channel]));
      check_channels user_id rest non_joined_channels
  end.

Definition join_keyboard (non_joined_channels : list ChannelData)
    (category_id : string) : list (list button) :=
  ((λ channel, [UrlButton (channel_name channel) (invite_link channel)])
     <$> non_joined_channels)
  ++ [[CallbackButton "joined" ("check_membership_" +:+ category_id)]].

Definition handle_category_access (update : pyobj) (category_id : string)
  : M unit :=
  user_id ← effective_user_id update;
  chat_id ← effective_chat_id update;
  if is_admin user_id then
    handle_admin_category_access update category_id
  else
    channels ← DatabaseManager.get_channels;
    match channels with
    | [] => send_category_files update category_id
    | _ =>
        non_joined_channels ← check_channels user_id channels [];
        match non_joined_channels with
        | [] => send_category_files update category_id
        | _ =>
            reply_text update TxtJoinChannels
              (join_keyboard non_joined_channels category_id)
        end
    end.

Definition start (update : Update) (args : list string) : M unit :=
  let user_id := effective_user update in
  match args with
  | arg :: _ =>
      if startswith "cat_" arg then
        handle_category_access (PyUpdate update) (string_drop 4 arg)
      else if is_admin user_id
           then reply_text (PyUpdate update) TxtGreetAdmin []
           else reply_text (PyUpdate update) TxtGreetUser []
  | [] =>
      if is_admin user_id
      then reply_text (PyUpdate update) TxtGreetAdmin []
      else reply_text (PyUpdate update) TxtGreetUser []
  end.

(** *** Upload sessions *)

Definition fresh_upload (category_id : string) : PendingUpload :=
  {| pu_category_id := category_id; pu_files := [] |}.

Definition upload_command (update : Update) (args : list string)
  : M (option Z) :=
  let user_id := effective_user update in
  if negb (is_admin user_id) then
    reply_text (PyUpdate update) TxtNotAllowed [];; mret None
  else
    match args with
    | [] => reply_text (PyUpdate update) TxtUploadUsage [];; mret None
    | category_id :: _ =>
        category ← DatabaseManager.get_category category_id;
        match category with
        | None =>
            reply_text (PyUpdate update) TxtCategoryNotFound [];; mret None
        | Some category =>
            modify (λ w, set_pending_uploads
                           (<[user_id := fresh_upload category_id]>
                              (pending_uploads w)) w);;
            reply_text (PyUpdate update)
              (TxtUploadStarted (c_name category)) [];;
            mret (Some UPLOADING)
        end
    end.

Definition handle_media (update : Update) : M unit :=
  let user_id := effective_user update in
  w ← get_world;
  match pending_uploads w !! user_id with
  | None => mret ()
  | Some upload_info =>
      match message update with
      | None => raise AttributeError
      | Some message =>
          match extract_file_info message with
          | None => reply_text (PyUpdate update) TxtUnsupportedMedia []
          | Some file_info =>
              let files := pu_files upload_info ++ [file_info] in
              modify (λ w, set_pending_uploads
                             (<[user_id :=
                                  {| pu_category_id :=
                                       pu_category_id upload_info;
                                     pu_files := files |}]>
                                (pending_uploads w)) w);;
              reply_text (PyUpdate update)
                (TxtFileReceived (file_name file_info) (length files)) []
          end
      end
  end.

Definition finish_upload (update : Update) : M (option Z) :=
  let user_id := effective_user update in
  w ← get_world;
  match pending_uploads w !! user_id with
  | None =>
      reply_text (PyUpdate update) TxtNoUploadPending [];; mret (Some END)
  | Some upload_info =>
      modify (λ w, set_pending_uploads
                     (delete user_id (pending_uploads w)) w);;
      match pu_files upload_info with
      | [] =>
          reply_text (PyUpdate update) TxtNothingUploaded [];;
          mret (Some END)
      | files =>
          success ← DatabaseManager.add_files_to_category
                      (pu_category_id upload_info) files;
          (if success : bool then
             reply_text (PyUpdate update)
               (TxtFilesAdded (length files)
                  (generate_category_link (pu_category_id upload_info))) []
           else reply_text (PyUpdate update) TxtSaveFailed []);;
          mret (Some END)
      end
  end.

Definition cancel (update : Update) : M (option Z) :=
  let user_id := effective_user update in
  modify (λ w, set_pending_uploads (delete user_id (pending_uploads w)) w);;
  modify (λ w, set_pending_channel_data
                 (delete user_id (pending_channel_data w)) w);;
  reply_text (PyUpdate update) TxtCancelled [];;
  mret (Some END).

(** *** Inline buttons *)

(** The body of the sending loop of [view_category_files]: the two
    branches the source has. *)
Definition view_one (query : CallbackQuery) (file_info : FileInfo) : M unit :=
  (if decide (file_type file_info = "document") then
     match cq_message query with
     | None => raise AttributeError
     | Some m =>
         send_media Document (msg_chat_id m)
           (file_id file_info) (caption file_info)
     end
   else if decide (file_type file_info = "photo") then
     match cq_message query with
     | None => raise AttributeError
     | Some m =>
         send_media Photo (msg_chat_id m)
           (file_id file_info) (caption file_info)
     end
   else mret ());;
  sleep 500.

Definition view_category_files (query : CallbackQuery) (category_id : string)
  : M unit :=
  category ← DatabaseManager.get_category category_id;
  match category with
  | None => edit_message_text query TxtCategoryNotFound []
  | Some category =>
      match c_files category with
      | [] => edit_message_text query TxtCategoryEmpty []
      | files =>
          edit_message_text query TxtSendingFilesToAdmin [];;
          for_each_file (view_one query) files
      end
  end.

Definition start_adding_files (query : CallbackQuery) (category_id : string)
    (user_id : Z) : M unit :=
  modify (λ w, set_pending_uploads
                 (<[user_id := fresh_upload category_id]>
                    (pending_uploads w)) w);;
  edit_message_text query TxtAddingStarted [].

Definition show_files_for_deletion (query : CallbackQuery)
    (category_id : string) : M unit :=
  category ← DatabaseManager.get_category category_id;
  match c_files <$> category with
  | None | Some [] => edit_message_text query TxtCategoryEmpty []
  | Some files =>
      edit_message_text query TxtChooseFileToDelete
        (imap (λ i file_info,
                 [CallbackButton (file_name file_info)
                    ("del_file_" +:+ category_id +:+ "_" +:+ pretty i)])
           files)
  end.

Definition delete_file_from_category (query : CallbackQuery)
    (category_id : string) (file_index : Z) : M unit :=
  success ← DatabaseManager.delete_file category_id file_index;
  if success : bool
  then edit_message_text query TxtFileDeleted []
  else edit_message_text query TxtFileDeleteFailed [].

Definition confirm_category_deletion (query : CallbackQuery)
    (category_id : string) : M unit :=
  edit_message_text query TxtConfirmCategoryDeletion
    [ [CallbackButton "yes" ("confirm_del_cat_" +:+ category_id)];
      [CallbackButton "no" "cancel"] ].

Definition delete_category (query : CallbackQuery) (category_id : string)
  : M unit :=
  category ← DatabaseManager.get_category category_id;
  match category with
  | None => edit_message_text query TxtCategoryNotFound []
  | Some category =>
      success ← DatabaseManager.delete_category category_id;
      if success : bool
      then edit_message_text query (TxtCategoryDeleted (c_name category)) []
      else edit_message_text query TxtCategoryDeleteFailed []
  end.

Definition button_handler (update : Update) : M unit :=
  match callback_query update with
  | None => raise AttributeError
  | Some query =>
      emit EvAnswer;;
      let user_id := from_user query in
      let data := data query in
      if startswith "check_membership_" data then
        handle_category_access (PyCallbackQuery query) (string_drop 17 data)
      else if is_admin user_id then
        if startswith "view_" data then
          view_category_files query (string_drop 5 data)
        else if startswith "add_" data then
          start_adding_files query (string_drop 4 data) user_id
        else if startswith "delete_file_" data then
          show_files_for_deletion query (string_drop 12 data)
        else if startswith "delete_cat_" data then
          confirm_category_deletion query (string_drop 11 data)
        else if startswith "confirm_del_cat_" data then
          delete_category query (string_drop 16 data)
        else if startswith "del_file_" data then
          match split_once (string_drop 9 data) with
          | (_, None) => raise IndexError
          | (category_id, Some index) =>
              match parse_int index with
              | None => raise ValueError
              | Some file_index =>
                  delete_file_from_category query category_id file_index
              end
          end
        else mret ()
      else edit_message_text query TxtNotAllowed []
  end.

End Bot.

(** ** Commands of the administrator

    [new_category], [categories_list], [add_channel],
    [handle_channel_info], [remove_channel] and [list_channels] answer
    once, with the last statement before they return.  The answer is the
    value of the model, with the state the handler returns to its
    conversation where it returns one; as the texts above, an answer is
    kept by what it says. *)
Inductive notice :=
| NoticeNotAllowed
| NoticeCategoryUsage
| NoticeCategoryCreated (name link category_id : string)
| NoticeCategoryFailed
| NoticeNoCategories
| NoticeCategories (entries : list (string * nat * string))
| NoticeChannelHowTo
| NoticeChannelIdReceived
| NoticeChannelNameReceived
| NoticeChannelAdded
| NoticeChannelFailed
| NoticeRemoveUsage
| NoticeChannelRemoved
| NoticeChannelRemoveFailed
| NoticeNoChannels
| NoticeChannels (entries : list (nat * ChannelData)).

(** [await update.message.reply_text(n)] as the last statement. *)
Definition answer (update : Update) (n : notice) : M notice :=
  match message update with
  | Some _ => mret n
  | None => raise AttributeError
  end.

(** The state of the conversation that registers a channel. *)
Definition WAITING_FOR_CHANNEL_INFO : Z := 1.

(** What [handle_channel_info] starts from. *)
Definition blank_channel_data : ChannelData :=
  {| channel_id := ""; channel_name := ""; invite_link := "" |}.

(** [channel_data[...] = text]: [channel_data] is the dictionary that
    [pending_channel_data] holds for the user, so the assignment shows
    there. *)
Definition store_channel_data (user_id : Z) (channel_data : ChannelData)
  : M unit :=
  modify (λ w, set_pending_channel_data
                 (<[user_id := channel_data]> (pending_channel_data w)) w).

(** [text] is [update.message.text.strip()]. *)
Definition handle_channel_info (update : Update) (text : string)
  : M (option notice * Z) :=
  let user_id := effective_user update in
  match message update with
  | None => raise AttributeError
  | Some _ =>
      w ← get_world;
      channel_data ←
        match pending_channel_data w !! user_id with
        | Some channel_data => mret channel_data
        | None =>
            store_channel_data user_id blank_channel_data;;
            mret blank_channel_data
        end;
      if decide (channel_id channel_data = "") then
        store_channel_data user_id
          {| channel_id := text;
             channel_name := channel_name channel_data;
             invite_link := invite_link channel_data |};;
        mret (Some NoticeChannelIdReceived, WAITING_FOR_CHANNEL_INFO)
      else if decide (channel_name channel_data = "") then
        store_channel_data user_id
          {| channel_id := channel_id channel_data;
             channel_name := text;
             invite_link := invite_link channel_data |};;
        mret (Some NoticeChannelNameReceived, WAITING_FOR_CHANNEL_INFO)
      else if decide (invite_link channel_data = "") then
        store_channel_data user_id
          {| channel_id := channel_id channel_data;
             channel_name := channel_name channel_data;
             invite_link := text |};;
        success ← DatabaseManager.add_channel (channel_id channel_data)
                    (channel_name channel_data) text;
        modify (λ w, set_pending_channel_data
                       (delete user_id (pending_channel_data w)) w);;
        mret (Some (if success : bool then NoticeChannelAdded
                    else NoticeChannelFailed), END)
      else mret (None, END)
  end.

Section AdminCommands.
Variable BOT_USERNAME : string.
Variable ADMIN_IDS : list Z.

(** [uuid4] is [str(uuid.uuid4())]. *)
Definition new_category (update : Update) (args : list string)
    (uuid4 : string) : M notice :=
  let user_id := effective_user update in
  if negb (is_admin ADMIN_IDS user_id) then answer update NoticeNotAllowed
  else
    match args with
    | [] => answer update NoticeCategoryUsage
    | _ =>
        let category_name := String.concat " " args in
        let category_id := String.substring 0 8 uuid4 in
        success ← DatabaseManager.add_category category_id category_name
                    user_id;
        if success : bool then
          answer update
            (NoticeCategoryCreated category_name
               (generate_category_link BOT_USERNAME category_id) category_id)
        else answer update NoticeCategoryFailed
    end.

Definition categories_list (update : Update) : M notice :=
  if negb (is_admin ADMIN_IDS (effective_user update)) then
    answer update NoticeNotAllowed
  else
    categories ← DatabaseManager.get_categories;
    match categories with
    | [] => answer update NoticeNoCategories
    | _ =>
        answer update
          (NoticeCategories
             ((λ entry : string * Category,
                 (c_name entry.2, length (c_files entry.2),
                  generate_category_link BOT_USERNAME entry.1))
                <$> categories))
    end.

Definition add_channel (update : Update) : M (notice * option Z) :=
  if negb (is_admin ADMIN_IDS (effective_user update)) then
    n ← answer update NoticeNotAllowed; mret (n, None)
  else
    n ← answer update NoticeChannelHowTo;
    mret (n, Some WAITING_FOR_CHANNEL_INFO).

Definition remove_channel (update : Update) (args : list string) : M notice :=
  if negb (is_admin ADMIN_IDS (effective_user update)) then
    answer update NoticeNotAllowed
  else
    match args with
    | [] => answer update NoticeRemoveUsage
    | channel_id :: _ =>
        success ← DatabaseManager.delete_channel channel_id;
        if success : bool then answer update NoticeChannelRemoved
        else answer update NoticeChannelRemoveFailed
    end.

Definition list_channels (update : Update) : M notice :=
  if negb (is_admin ADMIN_IDS (effective_user update)) then
    answer update NoticeNotAllowed
  else
    channels ← DatabaseManager.get_channels;
    match channels with
    | [] => answer update NoticeNoChannels
    | _ =>
        answer update
          (NoticeChannels (imap (λ i channel, (S i, channel)) channels))
    end.

End AdminCommands.

(** ** The dispatcher

    [main] registers nine handlers, all in one group, in this order: the
    commands [start], [new_category], [categories], [remove_channel] and
    [channels], the upload conversation, the channel conversation, the
    handler of button presses, and the command [finish_upload] once
    more.  The messaging library (python-telegram-bot, which is not under
    src/) hands an update to the first handler of the group that accepts
    it, and to no other.

    A [ConversationHandler] keeps a state per chat and user.  Both are
    built without [allow_reentry]: while a conversation is open its
    entry points are not looked at; the update goes to the first handler
    of the state that accepts it, else to the first fallback that does,
    and else the conversation does not accept it.  What the handler
    returns is the new state: [None] keeps the state, [END] closes the
    conversation. *)

(** The text of [update.message]: a command with its arguments, other
    text (stripped), or none (media, a pressed button). *)
Inductive content :=
| Command (name : string) (args : list string)
| Text (text : string)
| NoText.

(** An update as it arrives, with what [uuid.uuid4()] yields while it is
    handled. *)
Record Incoming := {
  inc_update : Update;
  inc_content : content;
  inc_uuid4 : string
}.

(** [ConversationHandler.conversations] of the two conversations. *)
Record Conversations := {
  upload_conversations : gmap (Z * Z) Z;
  channel_conversations : gmap (Z * Z) Z
}.

Definition set_upload_conversations (c : gmap (Z * Z) Z) (st : Conversations)
  : Conversations :=
  {| upload_conversations := c;
     channel_conversations := channel_conversations st |}.

Definition set_channel_conversations (c : gmap (Z * Z) Z) (st : Conversations)
  : Conversations :=
  {| upload_conversations := upload_conversations st;
     channel_conversations := c |}.

(** The key of a conversation: [per_chat] and [per_user] are left at
    their default. *)
Definition conversation_key (update : Update) : Z * Z :=
  (effective_chat update, effective_user update).

(** [CommandHandler(name, ...)] accepts the command [name]. *)
Definition command_is (c : content) (name : string) : option (list string) :=
  match c with
  | Command n args => if decide (n = name) then Some args else None
  | _ => None
  end.

(** [filters.Document.ALL | filters.PHOTO | filters.VIDEO | filters.AUDIO
    | filters.VOICE] *)
Definition is_media (update : Update) : bool :=
  match message update with
  | None => false
  | Some m =>
      bool_decide (is_Some (document m))
      || match photo m with [] => false | _ => true end
      || bool_decide (is_Some (video m))
      || bool_decide (is_Some (audio m))
      || bool_decide (is_Some (voice m))
  end.

(** The handler an update is handed to. *)
Inductive route :=
| ToStart (args : list string)
| ToNewCategory (args : list string)
| ToCategoriesList
| ToRemoveChannel (args : list string)
| ToListChannels
| ToUploadCommand (args : list string)
| ToHandleMedia
| ToFinishUploadFallback
| ToCancelUpload
| ToAddChannel
| ToHandleChannelInfo (text : string)
| ToCancelChannel
| ToButtonHandler
| ToFinishUpload
| Unhandled.

(** The first of two handlers that accepts. *)
Definition or_else {A} (first second : option A) : option A :=
  match first with
  | Some r => Some r
  | None => second
  end.

(** The upload conversation: entry point [/upload]; in state [UPLOADING]
    a media message; fallbacks [/finish_upload] and [/cancel]. *)
Definition upload_conversation_route (state : option Z) (update : Update)
    (c : content) : option route :=
  match state with
  | None => ToUploadCommand <$> command_is c "upload"
  | Some s =>
      or_else (if bool_decide (s = UPLOADING) && is_media update
               then Some ToHandleMedia else None)
        (or_else ((λ _, ToFinishUploadFallback)
                    <$> command_is c "finish_upload")
           ((λ _, ToCancelUpload) <$> command_is c "cancel"))
  end.

(** The channel conversation: entry point [/add_channel]; in state
    [WAITING_FOR_CHANNEL_INFO] a text that is no command; fallback
    [/cancel]. *)
Definition channel_conversation_route (state : option Z) (c : content)
  : option route :=
  match state with
  | None => (λ _, ToAddChannel) <$> command_is c "add_channel"
  | Some s =>
      or_else (match c with
               | Text t =>
                   if bool_decide (s = WAITING_FOR_CHANNEL_INFO)
                   then Some (ToHandleChannelInfo t) else None
               | _ => None
               end)
        ((λ _, ToCancelChannel) <$> command_is c "cancel")
  end.

Definition route_of (st : Conversations) (inc : Incoming) : route :=
  let update := inc_update inc in
  let c := inc_content inc in
  let key := conversation_key update in
  default Unhandled
    (or_else (ToStart <$> command_is c "start")
    (or_else (ToNewCategory <$> command_is c "new_category")
    (or_else ((λ _, ToCategoriesList) <$> command_is c "categories")
    (or_else (ToRemoveChannel <$> command_is c "remove_channel")
    (or_else ((λ _, ToListChannels) <$> command_is c "channels")
    (or_else (upload_conversation_route (upload_conversations st !! key)
                update c)
    (or_else (channel_conversation_route (channel_conversations st !! key) c)
    (or_else (if bool_decide (is_Some (callback_query update))
              then Some ToButtonHandler else None)
       ((λ _, ToFinishUpload) <$> command_is c "finish_upload"))))))))).

(** [ConversationHandler._update_state] *)
Definition update_state (key : Z * Z) (new_state : option Z)
    (states : gmap (Z * Z) Z) : gmap (Z * Z) Z :=
  match new_state with
  | None => states
  | Some s => if decide (s = END) then delete key states
              else <[key := s]> states
  end.

Section Dispatch.
Variable BOT_USERNAME : string.
Variable ADMIN_IDS : list Z.

(** One update: the handler it is handed to runs, and the conversation it
    belongs to takes the state the handler returns. *)
Definition process_update (st : Conversations) (inc : Incoming)
  : M Conversations :=
  let update := inc_update inc in
  let key := conversation_key update in
  let in_upload (s : option Z) :=
    set_upload_conversations
      (update_state key s (upload_conversations st)) st in
  let in_channel (s : option Z) :=
    set_channel_conversations
      (update_state key s (channel_conversations st)) st in
  match route_of st inc with
  | ToStart args => start ADMIN_IDS update args;; mret st
  | ToNewCategory args =>
      new_category BOT_USERNAME ADMIN_IDS update args (inc_uuid4 inc);;
      mret st
  | ToCategoriesList =>
      categories_list BOT_USERNAME ADMIN_IDS update;; mret st
  | ToRemoveChannel args => remove_channel ADMIN_IDS update args;; mret st
  | ToListChannels => list_channels ADMIN_IDS update;; mret st
  | ToUploadCommand args =>
      s ← upload_command ADMIN_IDS update args; mret (in_upload s)
  | ToHandleMedia => handle_media update;; mret st
  | ToFinishUploadFallback =>
      s ← finish_upload BOT_USERNAME update; mret (in_upload s)
  | ToCancelUpload => s ← cancel update; mret (in_upload s)
  | ToAddChannel =>
      r ← add_channel ADMIN_IDS update; mret (in_channel r.2)
  | ToHandleChannelInfo t =>
      r ← handle_channel_info update t; mret (in_channel (Some r.2))
  | ToCancelChannel => s ← cancel update; mret (in_channel s)
  | ToButtonHandler => button_handler ADMIN_IDS update;; mret st
  | ToFinishUpload => finish_upload BOT_USERNAME update;; mret st
  | Unhandled => mret st
  end.

(** The updates one after the other.  [main] registers no error handler:
    an exception that leaves a handler is logged by the library, the
    conversations stay as they were, and the next update is taken. *)
Fixpoint process_updates (st : Conversations) (incs : list Incoming)
  : M Conversations :=
  match incs with
  | [] => mret st
  | inc :: rest =>
      st' ← try_except (process_update st inc) (λ _, mret st);
      process_updates st' rest
  end.

End Dispatch.

(** A command, a message without text and a pressed button as they
    arrive. *)
Definition command (user_id : Z) (m : Message) (name : string)
    (args : list string) : Incoming :=
  {| inc_update := {| effective_user := user_id;
                      effective_chat := msg_chat_id m;
                      message := Some m; callback_query := None |};
     inc_content := Command name args; inc_uuid4 := "" |}.

Definition media (user_id : Z) (m : Message) : Incoming :=
  {| inc_update := {| effective_user := user_id;
                      effective_chat := msg_chat_id m;
                      message := Some m; callback_query := None |};
     inc_content := NoText; inc_uuid4 := "" |}.

Definition button_update (q : CallbackQuery) : Update :=
  {| effective_user := from_user q; effective_chat := from_user q;
     message := None; callback_query := Some q |}.

Definition pressed (q : CallbackQuery) : Incoming :=
  {| inc_update := button_update q; inc_content := NoText; inc_uuid4 := "" |}.

(** ** Views of the store and of a run

    Pure counterparts of the queries, used to state what the handlers
    return. *)

(** No fault is scheduled and no transaction is open. *)
Definition healthy (w : World) : Prop := faults w = [] ∧ work w = db w.

(** The world after a handler committed store [s] (or left the store as
    it was, for [s = db w]) and performed [evs]. *)
Definition after (s : Store) (evs : list event) (w : World) : World :=
  {| db := s; work := s; now := now w; faults := faults w;
     chat_member := chat_member w; send_error := send_error w;
     pending_uploads := pending_uploads w;
     pending_channel_data := pending_channel_data w;
     trace := trace w ++ evs; ties := ties w |}.

(** What [get_category] builds from the store. *)
Definition category_view (s : Store) (cid : string) : option Category :=
  (λ cat, DatabaseManager.category_of cat (file_dict <$> files_of_category s cid))
    <$> head (filter (λ c, cat_id c = cid) (categories s)).

Definition get_category_events (s : Store) (cid : string) : list event :=
  [EvExecute (sql (select_category cid)) [cid]; EvCommit]
  ++ match head (filter (λ c, cat_id c = cid) (categories s)) with
     | Some _ => [EvExecute (sql (select_files_of cid)) [cid]; EvCommit]
     | None => []
     end.

Definition channels_view (s : Store) : list ChannelData :=
  channel_dict <$> order_by chan_created_at (channels s).

(** The rows of a batch applied one after the other, as [executemany]
    does: the store after the last row, or the first error. *)
Fixpoint batch_insert (now : Z) (s : Store) (cid : string)
    (batch : list FileInfo) : exn + Store :=
  match batch with
  | [] => inr s
  | f :: rest =>
      match sem (insert_file_do_nothing cid f) now s with
      | inl e => inl e
      | inr (s', _) => batch_insert now s' cid rest
      end
  end.

(** The [executemany] of [add_files_to_category] as it shows in the
    trace. *)
Definition batch_event (cid : string) (batch : list FileInfo) : event :=
  EvExecuteMany "INSERT INTO files ON CONFLICT DO NOTHING"
    (params <$> (insert_file_do_nothing cid <$> batch)).


(** The store after [DELETE FROM files WHERE id = serial]. *)
Definition without_file (serial : Z) (s : Store) : Store :=
  set_files (filter (λ r, row_serial r ≠ serial) (files s)) s.

(** What [get_categories] builds from the store: one entry per category,
    newest first, each with the files of [files_of_category]. *)
Definition category_entry (s : Store) (cat : CategoryRow) : string * Category :=
  (cat_id cat,
   DatabaseManager.category_of cat
     (file_dict <$> files_of_category s (cat_id cat))).

Definition categories_view (s : Store) : list (string * Category) :=
  category_entry s <$> order_by_desc cat_created_at (categories s).

Definition get_categories_events (s : Store) : list event :=
  [EvExecute (sql select_categories) []; EvCommit]
  ++ match order_by_desc cat_created_at (categories s) with
     | [] => []
     | cats =>
         [EvExecute (sql (select_files_in (cat_id <$> cats))) (cat_id <$> cats);
          EvCommit]
     end.

(** The events that are an execution of a statement. *)
Definition is_execute (e : event) : bool :=
  match e with
  | EvExecute _ _ | EvExecuteMany _ _ => true
  | _ => false
  end.

(** The trace of a statement that meets a lost connection [n] times in a
    row and is tried again each time. *)
Definition retry_events {A} (q : statement A) (n : nat) : list event :=
  mjoin (replicate n
           [EvExecute (sql q) (params q);
            EvLog Warning "Database connection lost, retrying";
            EvSleep 1000; EvConnect]).

(** The events of the membership gate: reading the mandatory channels
    and asking Telegram for a membership. *)
Definition is_gate_event (e : event) : bool :=
  match e with
  | EvGetChatMember _ _ => true
  | EvExecute q _ => bool_decide (q = sql select_channels)
  | _ => false
  end.

Definition not_gate_event (e : event) : bool := negb (is_gate_event e).

(** A computation that only adds events satisfying [P] to the trace. *)
Definition emits_only (P : event → bool) {A} (m : M A) : Prop :=
  ∀ w, ∃ evs, trace (run m w).2 = trace w ++ evs
              ∧ Forall (λ e, P e = true) evs.




Definition kind_of_type (t : string) : option media_kind :=
  if decide (t = "document") then Some Document
  else if decide (t = "photo") then Some Photo
  else if decide (t = "video") then Some Video
  else if decide (t = "audio") then Some Audio
  else if decide (t = "voice") then Some Voice
  else None.

(** The trace of the sending loop of [send_category_files]: per file the
    send its type asks for, then the pause, or the log record when the
    send raised. *)
Definition delivery_events (se : string → option exn) (chat_id : Z)
    (files : list FileInfo) : list event :=
  files ≫= λ f,
    match kind_of_type (file_type f) with
    | Some k =>
        EvSend k chat_id (file_id f) (caption f)
        :: match se (file_id f) with
           | Some _ => [EvLog Error "Error sending file"]
           | None => [EvSleep 500]
           end
    | None => [EvSleep 500]
    end.

Definition is_send (e : event) : bool :=
  match e with
  | EvSend _ _ _ _ => true
  | _ => false
  end.


(** An update that carries a message of user [user_id]. *)
Definition message_update (user_id : Z) (m : Message) : Update :=
  {| effective_user := user_id; effective_chat := msg_chat_id m;
     message := Some m; callback_query := None |}.

(** ** A small instance

    Two categories, the older one with two files (a video and a
    document), and two mandatory channels.  Asking for a membership in
    the first channel raises; in the second one visitor 7 is a member and
    administrator 42 is not. *)
Definition sample_store : Store :=
  {| categories :=
       [ {| cat_id := "cat1"; cat_name := "holiday"; cat_created_by := 42;
            cat_created_at := 5 |};
         {| cat_id := "cat2"; cat_name := "work"; cat_created_by := 42;
            cat_created_at := 7 |} ];
     files :=
       [ {| row_serial := 1; row_category_id := "cat1"; row_file_id := "f1";
            row_file_name := "video.mp4"; row_file_size := 10;
            row_file_type := "video"; row_caption := None;
            row_upload_date := 6 |};
         {| row_serial := 2; row_category_id := "cat1"; row_file_id := "f0";
            row_file_name := "notes.pdf"; row_file_size := 20;
            row_file_type := "document"; row_caption := Some "notes";
            row_upload_date := 8 |} ];
     channels :=
       [ {| chan_serial := 1; chan_channel_id := "-1001";
            chan_channel_name := "news"; chan_invite_link := "https://t.me/news";
            chan_created_at := 3 |};
         {| chan_serial := 2; chan_channel_id := "-1002";
            chan_channel_name := "club"; chan_invite_link := "https://t.me/club";
            chan_created_at := 4 |} ];
     files_seq := 3;
     channels_seq := 3 |}.

Definition sample_world : World :=
  {| db := sample_store; work := sample_store; now := 10; faults := [];
     chat_member := λ chat_id user_id,
       if decide (chat_id = "-1001") then inl TelegramError
       else if decide (user_id = 7) then inr "member" else inr "left";
     send_error := λ _, None;
     pending_uploads := ∅; pending_channel_data := ∅; trace := [];
     ties := λ _ _ _, 0 |}.

Definition sample_admins : list Z := [42].

Definition text_message : Message :=
  {| msg_chat_id := 42; msg_caption := None; document := None; photo := [];
     video := None; audio := None; voice := None |}.

Definition visitor_message : Message :=
  {| msg_chat_id := 7; msg_caption := None; document := None; photo := [];
     video := None; audio := None; voice := None |}.

Definition document_message (token : string) : Message :=
  {| msg_chat_id := 42; msg_caption := Some "a caption";
     document := Some {| att_file_id := token; att_file_name := Some "x.pdf";
                         att_file_size := 100 |};
     photo := []; video := None; audio := None; voice := None |}.

(** What [extract_file_info] reads from [document_message token]. *)
Definition document_info (token : string) : FileInfo :=
  {| file_id := token; file_name := "x.pdf"; file_size := 100;
     file_type := "document"; caption := "a caption" |}.

Definition recheck_query : CallbackQuery :=
  {| from_user := 7; data := "check_membership_cat1";
     cq_message := Some visitor_message |}.

Definition recheck_update : Update :=
  {| effective_user := 7; effective_chat := 7; message := None;
     callback_query := Some recheck_query |}.

Definition view_query : CallbackQuery :=
  {| from_user := 42; data := "view_cat1"; cq_message := Some text_message |}.

(** The button that starts adding files to the second category. *)
Definition add_query : CallbackQuery :=
  {| from_user := 42; data := "add_cat2"; cq_message := Some text_message |}.

(** No conversation is open. *)
Definition no_conversations : Conversations :=
  {| upload_conversations := ∅; channel_conversations := ∅ |}.

(** A category that holds one video only. *)
Definition video_store : Store :=
  {| categories := categories sample_store;
     files := take 1 (files sample_store);
     channels := channels sample_store;
     files_seq := 3; channels_seq := 3 |}.

Definition video_world : World :=
  set_db video_store (set_work video_store sample_world).

Definition video_category : Category :=
  {| c_name := "holiday";
     c_files := [ {| file_id := "f1"; file_name := "video.mp4";
                     file_size := 10; file_type := "video"; caption := "" |} ];
     c_created_by := 42; c_created_at := 5 |}.

(** The connection is lost for three executions in a row; reconnecting
    works. *)
Definition lost_world : World :=
  set_faults [Some OperationalError; None; Some OperationalError; None;
              Some OperationalError] sample_world.

(** The first category with the two files of one batch: both rows carry
    the [upload_date] of the batch. *)
Definition first_of_batch : FileRow :=
  {| row_serial := 1; row_category_id := "cat1"; row_file_id := "t0";
     row_file_name := "t0.pdf"; row_file_size := 10;
     row_file_type := "document"; row_caption := Some "";
     row_upload_date := 6 |}.

Definition second_of_batch : FileRow :=
  {| row_serial := 2; row_category_id := "cat1"; row_file_id := "t1";
     row_file_name := "t1.pdf"; row_file_size := 20;
     row_file_type := "document"; row_caption := Some "";
     row_upload_date := 6 |}.

Definition batch_store : Store :=
  {| categories := categories sample_store;
     files := [first_of_batch; second_of_batch];
     channels := channels sample_store;
     files_seq := 3; channels_seq := 3 |}.

Definition batch_world : World :=
  set_db batch_store (set_work batch_store sample_world).

(** ** Integrity of the store

    The constraints of [init_database]: the primary key and the UNIQUE
    name of [categories], the UNIQUE [file_id] and the SERIAL key of
    [files], the foreign key from [files] to [categories], the UNIQUE
    [channel_id] and the SERIAL key of [channels]. *)
Record wf_store (s : Store) : Prop := {
  wf_cat_ids : NoDup (cat_id <$> categories s);
  wf_cat_names : NoDup (cat_name <$> categories s);
  wf_file_ids : NoDup (row_file_id <$> files s);
  wf_file_serials : NoDup (row_serial <$> files s);
  wf_file_seq : Forall (λ r, row_serial r < files_seq s) (files s);
  wf_foreign_key :
    Forall (λ r, row_category_id r ∈ cat_id <$> categories s) (files s);
  wf_chan_ids : NoDup (chan_channel_id <$> channels s);
  wf_chan_serials : NoDup (chan_serial <$> channels s);
  wf_chan_seq : Forall (λ c, chan_serial c < channels_seq s) (channels s)
}.

(** A computation that keeps [I] whatever it returns or raises. *)
Definition keeps (I : World → Prop) {A} (m : M A) : Prop :=
  ∀ w, I w → I (run m w).2.


(** The part of the world the persistence layer has no business with. *)
Definition same_sessions (w0 w : World) : Prop :=
  pending_uploads w = pending_uploads w0
  ∧ pending_channel_data w = pending_channel_data w0.


(** The category id has no underscore, as the ids made by [new_category]
    (eight characters of a UUID). *)
Fixpoint no_underscore (s : string) : bool :=
  match s with
  | EmptyString => true
  | String c s' => if decide (c = "_"%char) then false else no_underscore s'
  end.

(** A send that is refused by Telegram. *)
Definition send_fails (se : string → option exn) (f : FileInfo) : bool :=
  match kind_of_type (file_type f), se (file_id f) with
  | Some _, Some _ => true
  | _, _ => false
  end.

(** ** Further instances

    The first category as [get_category] returns it, a world in which
    administrator 42 has an upload open for it, and button presses. *)
Definition holiday_category : Category :=
  {| c_name := "holiday";
     c_files := [ {| file_id := "f1"; file_name := "video.mp4";
                     file_size := 10; file_type := "video"; caption := "" |};
                  {| file_id := "f0"; file_name := "notes.pdf";
                     file_size := 20; file_type := "document";
                     caption := "notes" |} ];
     c_created_by := 42; c_created_at := 5 |}.

Definition stored_upload : PendingUpload :=
  {| pu_category_id := "cat1"; pu_files := [document_info "f1"] |}.

Definition pending_world : World :=
  set_pending_uploads {[ 42 := stored_upload ]} sample_world.

Definition visitor_query : CallbackQuery :=
  {| from_user := 7; data := "view_cat1";
     cq_message := Some visitor_message |}.

Definition del_file_query : CallbackQuery :=
  {| from_user := 42; data := "del_file_cat1_0";
     cq_message := Some text_message |}.

(** Administrator 42 has sent the id and the name of a channel. *)
Definition half_registered : ChannelData :=
  {| channel_id := "-1003"; channel_name := "films"; invite_link := "" |}.

Definition registering_world : World :=
  set_pending_channel_data {[ 42 := half_registered ]} lost_world.

(** A file whose size is one beyond the largest BIGINT. *)
Definition huge_file : FileInfo :=
  {| file_id := "f9"; file_name := "huge.bin";
     file_size := 9223372036854775808; file_type := "document";
     caption := "" |}.

(** The connection is lost on the three executions of a query and stays
    closed: the next execution and its rollback fail. *)
Definition closed_world : World :=
  set_faults [Some OperationalError; None; Some OperationalError; None;
              Some OperationalError; Some InterfaceError;
              Some InterfaceError] sample_world.

(** * Facts *)

Lemma Forall_filter_keep {A} (P Q : A → Prop) `{!∀ x, Decision (Q x)}
    (l : list A) :
  Forall P l → Forall P (filter Q l).
Proof.
  rewrite !Forall_forall. intros Hall x Hx.
  apply list_elem_of_filter in Hx as [_ Hx]. by apply Hall.
Qed.

Lemma filter_all {A} (P : A → Prop) `{!∀ x, Decision (P x)} (l : list A) :
  Forall P l → filter P l = l.
Proof.
  induction 1 as [|x l Hx _ IH]; [done|].
  by rewrite filter_cons, decide_True, IH.
Qed.

Lemma filter_none {A} (P : A → Prop) `{!∀ x, Decision (P x)} (l : list A) :
  Forall (λ x, ¬ P x) l → filter P l = [].
Proof.
  induction 1 as [|x l Hx _ IH]; [done|].
  by rewrite filter_cons, decide_False.
Qed.

Lemma filter_filter_absorb {A} (P1 P2 : A → Prop)
    `{!∀ x, Decision (P1 x), !∀ x, Decision (P2 x)} (l : list A) :
  (∀ x, x ∈ l → P1 x → P2 x) → filter P1 (filter P2 l) = filter P1 l.
Proof.
  induction l as [|x l IH]; intros Himp; [done|].
  rewrite !filter_cons.
  destruct (decide (P2 x)) as [H2|H2], (decide (P1 x)) as [H1|H1].
  - rewrite filter_cons, decide_True by done. f_equal.
    apply IH. intros y Hy. apply Himp. by right.
  - rewrite filter_cons, decide_False by done.
    apply IH. intros y Hy. apply Himp. by right.
  - exfalso. apply H2, Himp; [by left | done].
  - apply IH. intros y Hy. apply Himp. by right.
Qed.

(** ** ORDER BY *)
Section OrderByFacts.
Context {A : Type} (key : A → Z).

Lemma insert_by_perm (x : A) (l : list A) : insert_by key x l ≡ₚ x :: l.
Proof.
  induction l as [|y l IH]; simpl; [done|].
  case_bool_decide; [done|].
  rewrite IH. apply Permutation_swap.
Qed.

Lemma order_by_perm (l : list A) : order_by key l ≡ₚ l.
Proof.
  induction l as [|x l IH]; simpl; [done|].
  rewrite insert_by_perm. by rewrite IH.
Qed.

Lemma length_order_by (l : list A) : length (order_by key l) = length l.
Proof. apply Permutation_length, order_by_perm. Qed.

Lemma elem_of_order_by (x : A) (l : list A) : x ∈ order_by key l ↔ x ∈ l.
Proof. by rewrite order_by_perm. Qed.

Lemma ascending_insert_by (x : A) (l : list A) :
  ascending key l → ascending key (insert_by key x l).
Proof.
  induction l as [|y l IH]; simpl.
  - intros _. split; [constructor | done].
  - intros [Hy Hl]. case_bool_decide as Hxy; simpl.
    + repeat split; try done. constructor; [done|].
      eapply Forall_impl; [exact Hy|]. simpl. intros z Hz. lia.
    + split; [|by apply IH].
      rewrite insert_by_perm. constructor; [lia | done].
Qed.

Lemma ascending_order_by (l : list A) : ascending key (order_by key l).
Proof.
  induction l as [|x l IH]; simpl; [done|]. by apply ascending_insert_by.
Qed.

Lemma ascending_filter (P : A → Prop) `{!∀ x, Decision (P x)} (l : list A) :
  ascending key l → ascending key (filter P l).
Proof.
  induction l as [|y l IH]; simpl; [done|].
  intros [Hy Hl]. rewrite filter_cons. case_decide; simpl; [|by apply IH].
  split; [|by apply IH]. by apply Forall_filter_keep.
Qed.

(** Inserting into a sorted list and then selecting is selecting and
    then inserting. *)
Lemma filter_insert_by (P : A → Prop) `{!∀ x, Decision (P x)}
    (x : A) (l : list A) :
  ascending key l →
  filter P (insert_by key x l)
  = if decide (P x) then insert_by key x (filter P l) else filter P l.
Proof.
  induction l as [|y l IH]; simpl.
  - intros _. rewrite filter_cons, filter_nil. by case_decide.
  - intros [Hy Hl]. case_bool_decide as Hxy.
    + rewrite filter_cons. destruct (decide (P x)) as [Hx|Hx]; [|done].
      rewrite filter_cons. destruct (decide (P y)) as [HPy|HPy]; simpl.
      * by rewrite bool_decide_true.
      * assert (Forall (λ z, key x ≤ key z) (filter P l)) as Hall.
        { apply Forall_filter_keep. eapply Forall_impl; [exact Hy|].
          simpl. intros z Hz. lia. }
        destruct (filter P l) as [|z l'] eqn:Hf; simpl; [done|].
        apply Forall_cons in Hall as [Hz _]. by rewrite bool_decide_true.
    + rewrite !filter_cons, (IH Hl).
      destruct (decide (P y)) as [HPy|HPy], (decide (P x)) as [Hx|Hx];
        simpl; try done.
      by rewrite bool_decide_false.
Qed.

(** Selection commutes with ORDER BY. *)
Lemma filter_order_by (P : A → Prop) `{!∀ x, Decision (P x)} (l : list A) :
  filter P (order_by key l) = order_by key (filter P l).
Proof.
  induction l as [|x l IH]; simpl; [done|].
  rewrite filter_insert_by by apply ascending_order_by.
  rewrite filter_cons. case_decide; simpl; by rewrite IH.
Qed.
End OrderByFacts.

(** ** Runs on a healthy backend *)

Ltac unfold_monad :=
  unfold run, mbind, M_bind, mret, M_ret, try_except, raise, emit, log, sleep,
    modify, get_world, driver_call in *.

Lemma healthy_after (s : Store) (evs : list event) (w : World) :
  healthy w → healthy (after s evs w).
Proof. by intros [Hf _]. Qed.

Lemma after_after (s1 s2 : Store) (e1 e2 : list event) (w : World) :
  after s2 e2 (after s1 e1 w) = after s2 (e1 ++ e2) w.
Proof. unfold after; simpl. by rewrite app_assoc. Qed.

Lemma add_trace_after (s : Store) (e1 e2 : list event) (w : World) :
  add_trace e2 (after s e1 w) = after s (e1 ++ e2) w.
Proof. unfold after, add_trace; simpl. by rewrite app_assoc. Qed.

Lemma add_trace_healthy (evs : list event) (w : World) :
  healthy w → add_trace evs w = after (db w) evs w.
Proof. intros [_ Hw]. unfold after, add_trace. by rewrite Hw. Qed.

Lemma db_after s evs w : db (after s evs w) = s.
Proof. done. Qed.

Lemma trace_after s evs w : trace (after s evs w) = trace w ++ evs.
Proof. done. Qed.

Lemma pending_uploads_after s evs w :
  pending_uploads (after s evs w) = pending_uploads w.
Proof. done. Qed.

Lemma set_pending_uploads_after p s evs w :
  set_pending_uploads p (after s evs w) = after s evs (set_pending_uploads p w).
Proof. done. Qed.

Lemma healthy_set_pending_uploads p w :
  healthy w → healthy (set_pending_uploads p w).
Proof. done. Qed.

(** On a healthy backend [_execute_with_retry] runs the statement once:
    it is committed, or its own error (a constraint, never a lost
    connection) is raised after a rollback. *)
Lemma execute_with_retry_healthy {A} (q : statement A) (w : World) :
  healthy w →
  sem q (now w) (db w) ≠ inl OperationalError →
  run (DatabaseManager._execute_with_retry q) w
  = match sem q (now w) (db w) with
    | inr (s, r) => (Ok r, after s [EvExecute (sql q) (params q); EvCommit] w)
    | inl e =>
        (Raise e, after (db w) [EvExecute (sql q) (params q); EvRollback] w)
    end.
Proof.
  intros [Hf Hw] Hop. destruct w as [d wk nw fs cm se pu pc tr ti].
  simpl in *. subst.
  unfold DatabaseManager._execute_with_retry, DatabaseManager.for_attempts,
    DatabaseManager.attempt_round, cursor_execute, commit, rollback.
  unfold_monad. simpl.
  destruct (sem q nw d) as [e|[s r]]; simpl.
  - destruct e; try done; simpl; unfold after, set_work, add_trace; simpl;
      by rewrite <- app_assoc.
  - unfold after, set_db, set_work, add_trace; simpl.
    by rewrite <- app_assoc.
Qed.

(** ** Running the monad *)

Lemma run_bind {A B} (m : M A) (f : A → M B) (w : World) :
  run (m ≫= f) w
  = match run m w with
    | (Ok a, w') => run (f a) w'
    | (Raise e, w') => (Raise e, w')
    end.
Proof. done. Qed.

Lemma run_ret {A} (a : A) (w : World) : run (mret a) w = (Ok a, w).
Proof. done. Qed.

Lemma run_raise {A} (e : exn) (w : World) : run (raise e : M A) w = (Raise e, w).
Proof. done. Qed.

Lemma run_try_except {A} (m : M A) (h : exn → M A) (w : World) :
  run (try_except m h) w
  = match run m w with
    | (Ok a, w') => (Ok a, w')
    | (Raise e, w') => run (h e) w'
    end.
Proof. done. Qed.

Lemma run_modify (f : World → World) (w : World) :
  run (modify f) w = (Ok (), f w).
Proof. done. Qed.

Lemma run_emit (e : event) (w : World) :
  run (emit e) w = (Ok (), add_trace [e] w).
Proof. done. Qed.

Lemma run_log (l : log_level) (msg : string) (w : World) :
  run (log l msg) w = (Ok (), add_trace [EvLog l msg] w).
Proof. done. Qed.

Lemma run_get_world (w : World) : run get_world w = (Ok w, w).
Proof. done. Qed.

Lemma run_driver_call_healthy (w : World) :
  faults w = [] → run driver_call w = (Ok (), w).
Proof. intros Hf. unfold run, driver_call. by rewrite Hf. Qed.

Ltac run_step :=
  first [ rewrite run_bind | rewrite run_ret | rewrite run_raise
        | rewrite run_try_except | rewrite run_modify | rewrite run_emit
        | rewrite run_log | rewrite run_get_world ].

(** ** The persistence layer on a healthy backend *)

Lemma get_category_healthy (cid : string) (w : World) :
  healthy w →
  run (DatabaseManager.get_category cid) w
  = (Ok (category_view (db w) cid),
     after (db w) (get_category_events (db w) cid) w).
Proof.
  intros Hw. unfold DatabaseManager.get_category, category_view,
    get_category_events.
  rewrite run_try_except, run_bind, execute_with_retry_healthy by done.
  simpl. destruct (head _) as [cat|]; simpl; [|done].
  rewrite run_bind, execute_with_retry_healthy by (done || by apply healthy_after).
  simpl. by rewrite after_after.
Qed.

Lemma category_view_is_Some (s : Store) (cid : string) :
  category_exists s cid = true → is_Some (category_view s cid).
Proof.
  unfold category_exists, category_view. intros H.
  apply bool_decide_eq_true in H. apply list_elem_of_fmap in H as (c & -> & Hc).
  destruct (filter _ (categories s)) as [|c' l] eqn:Hf; simpl; [|by eexists].
  assert (c ∈ filter (λ c0, cat_id c0 = cat_id c) (categories s)) as Hin
    by by apply list_elem_of_filter.
  rewrite Hf in Hin. by apply elem_of_nil in Hin.
Qed.

Lemma get_channels_healthy (w : World) :
  healthy w →
  run DatabaseManager.get_channels w
  = (Ok (channels_view (db w)),
     after (db w) [EvExecute (sql select_channels) []; EvCommit] w).
Proof.
  intros Hw. unfold DatabaseManager.get_channels.
  by rewrite run_try_except, run_bind, execute_with_retry_healthy by done.
Qed.

Lemma executemany_run (cid : string) (batch : list FileInfo) (w : World) :
  ∃ s, run (DatabaseManager.executemany (insert_file_do_nothing cid <$> batch)) w
       = (match batch_insert (now w) (work w) cid batch with
          | inr _ => Ok ()
          | inl e => Raise e
          end, set_work s w)
       ∧ ∀ s', batch_insert (now w) (work w) cid batch = inr s' → s = s'.
Proof.
  revert w. induction batch as [|f rest IH]; intros w.
  - exists (work w). split; [by destruct w | by intros ? [= <-]].
  - cbn [fmap list_fmap DatabaseManager.executemany batch_insert].
    rewrite run_bind, run_get_world.
    destruct (sem (insert_file_do_nothing cid f) (now w) (work w))
      as [e|[s1 r]] eqn:Hsem.
    + exists (work w). rewrite run_raise. split; [by destruct w | done].
    + rewrite run_bind, run_modify.
      destruct (IH (set_work s1 w)) as (s & Hrun & Hs).
      exists s. split; [|exact Hs].
      fold (@fmap list _ _ _ (insert_file_do_nothing cid) rest).
      by rewrite Hrun.
Qed.

Lemma add_files_to_category_healthy (cid : string) (batch : list FileInfo)
    (w : World) :
  healthy w →
  run (DatabaseManager.add_files_to_category cid batch) w
  = match batch_insert (now w) (db w) cid batch with
    | inr s =>
        (Ok true, after s [batch_event cid batch; EvCommit] w)
    | inl e =>
        (Ok false,
         after (db w) [batch_event cid batch; EvRollback;
                       EvLog Error "Error adding files"] w)
    end.
Proof.
  intros [Hf Hw]. unfold DatabaseManager.add_files_to_category,
    DatabaseManager.cursor_executemany, commit, rollback.
  rewrite run_try_except. do 4 run_step.
  rewrite run_driver_call_healthy by done.
  destruct (executemany_run cid batch (add_trace [EvExecuteMany
    "INSERT INTO files ON CONFLICT DO NOTHING"
    (params <$> (insert_file_do_nothing cid <$> batch))] w))
    as (s & Hrun & Hs).
  rewrite Hrun. clear Hrun. simpl now in *. simpl work in *.
  rewrite Hw in *.
  destruct (batch_insert (now w) (db w) cid batch) as [e|s'] eqn:Hb.
  - repeat run_step. rewrite run_driver_call_healthy by done.
    repeat run_step. destruct w; simpl in *; subst.
    unfold after, add_trace, set_work, batch_event; simpl.
    by rewrite <- !app_assoc.
  - rewrite (Hs s' eq_refl). clear Hs. repeat run_step.
    rewrite run_driver_call_healthy by done.
    repeat run_step. destruct w; simpl in *; subst.
    unfold after, add_trace, set_work, set_db, batch_event; simpl.
    by rewrite <- !app_assoc.
Qed.

(** ** Batch insertion *)

Lemma file_dict_new_file_row now s cid f :
  file_dict (new_file_row now s cid f) = f.
Proof. by destruct f. Qed.



(** ** Deleting by position *)

Lemma filter_serial_delete (l : list FileRow) :
  NoDup (row_serial <$> l) →
  ∀ (i : nat) (r : FileRow), l !! i = Some r →
  filter (λ r', row_serial r' ≠ row_serial r) l = delete i l.
Proof.
  induction l as [|x l IH]; intros Hnd i r Hi; [done|].
  rewrite fmap_cons in Hnd. apply NoDup_cons in Hnd as [Hx Hnd].
  destruct i as [|i]; simpl in *.
  - injection Hi as ->. rewrite filter_cons, decide_False by tauto.
    apply filter_all, Forall_forall. intros y Hy Heq.
    apply Hx. rewrite <- Heq. by apply list_elem_of_fmap_2.
  - rewrite filter_cons, decide_True.
    + f_equal. by apply IH.
    + intros Heq. apply Hx. rewrite Heq.
      apply list_elem_of_fmap_2. by eapply list_elem_of_lookup_2.
Qed.

Lemma cursor_execute_run {A} (q : statement A) (w : World) :
  faults w = [] →
  run (cursor_execute q) w
  = match sem q (now w) (work w) with
    | inl e => (Raise e, add_trace [EvExecute (sql q) (params q)] w)
    | inr (s, r) =>
        (Ok r, set_work s (add_trace [EvExecute (sql q) (params q)] w))
    end.
Proof.
  intros Hf. unfold cursor_execute. do 3 run_step.
  rewrite run_driver_call_healthy by done. do 2 run_step.
  simpl. by destruct (sem q (now w) (work w)) as [e|[s r]].
Qed.

Lemma commit_run (w : World) :
  faults w = [] →
  run commit w = (Ok (), set_db (work w) (add_trace [EvCommit] w)).
Proof.
  intros Hf. unfold commit. do 3 run_step.
  by rewrite run_driver_call_healthy.
Qed.

Lemma rollback_run (w : World) :
  faults w = [] →
  run rollback w = (Ok (), set_work (db w) (add_trace [EvRollback] w)).
Proof.
  intros Hf. unfold rollback. do 3 run_step.
  by rewrite run_driver_call_healthy.
Qed.

Lemma delete_file_healthy (cid : string) (file_index : Z) (w : World) :
  healthy w → 0 ≤ file_index →
  run (DatabaseManager.delete_file cid file_index) w
  = match row_at_offset (ties w cid file_index (db w))
            (files_of_category (db w) cid) (Z.to_nat file_index) with
    | Some r =>
        (Ok true,
         after (without_file (row_serial r) (db w))
           [EvExecute
              (sql (select_file_at (ties w cid file_index) cid file_index))
              [cid; pretty file_index];
            EvExecute (sql (delete_file_stmt (row_serial r)))
              [pretty (row_serial r)];
            EvCommit] w)
    | None =>
        (Ok false,
         after (db w)
           [EvExecute
              (sql (select_file_at (ties w cid file_index) cid file_index))
              [cid; pretty file_index]] w)
    end.
Proof.
  intros [Hf Hw] Hidx. unfold DatabaseManager.delete_file.
  rewrite run_try_except, run_bind, run_get_world, run_bind,
    cursor_execute_run by done.
  cbn [sem select_file_at]. rewrite bool_decide_false by lia.
  rewrite Hw.
  destruct (row_at_offset _ (files_of_category (db w) cid) _) as [r|];
    cbn [fmap option_fmap option_map].
  - rewrite run_bind, cursor_execute_run by done.
    cbn [sem delete_file_stmt]. rewrite run_bind, commit_run by done.
    rewrite run_ret. f_equal.
    destruct w; simpl in *; subst.
    unfold after, without_file, set_db, set_work, add_trace; simpl.
    by rewrite <- !app_assoc.
  - rewrite run_ret. f_equal.
Qed.

Lemma NoDup_serial_files_of_category (s : Store) (cid : string) :
  NoDup (row_serial <$> files s) →
  NoDup (row_serial <$> files_of_category s cid).
Proof.
  intros Hnd. unfold files_of_category. rewrite order_by_perm.
  eapply sublist_NoDup; [exact Hnd|]. apply fmap_sublist, sublist_filter.
Qed.

Lemma serial_determines_row (l : list FileRow) (x y : FileRow) :
  NoDup (row_serial <$> l) → x ∈ l → y ∈ l → row_serial x = row_serial y →
  x = y.
Proof.
  induction l as [|z l IH]; intros Hnd Hx Hy Heq; [by apply elem_of_nil in Hx|].
  rewrite fmap_cons in Hnd. apply NoDup_cons in Hnd as [Hz Hnd].
  apply elem_of_cons in Hx as [->|Hx], Hy as [->|Hy]; try done.
  - exfalso. apply Hz. rewrite Heq. by apply list_elem_of_fmap_2.
  - exfalso. apply Hz. rewrite <- Heq. by apply list_elem_of_fmap_2.
  - by apply IH.
Qed.

Lemma files_of_category_without_same (s : Store) (cid : string) (i : nat)
    (r : FileRow) :
  NoDup (row_serial <$> files s) →
  files_of_category s cid !! i = Some r →
  files_of_category (without_file (row_serial r) s) cid
  = delete i (files_of_category s cid).
Proof.
  intros Hnd Hi. unfold files_of_category at 1. unfold without_file. simpl.
  rewrite list_filter_filter.
  rewrite (list_filter_iff _
             (λ r', row_serial r' ≠ row_serial r ∧ row_category_id r' = cid))
    by tauto.
  rewrite <- list_filter_filter, <- filter_order_by.
  fold (files_of_category s cid).
  by apply filter_serial_delete; [apply NoDup_serial_files_of_category|].
Qed.

Lemma files_of_category_without_other (s : Store) (cid cid' : string)
    (i : nat) (r : FileRow) :
  NoDup (row_serial <$> files s) →
  files_of_category s cid !! i = Some r →
  cid' ≠ cid →
  files_of_category (without_file (row_serial r) s) cid'
  = files_of_category s cid'.
Proof.
  intros Hnd Hi Hne. unfold files_of_category at 1 2. unfold without_file.
  simpl. f_equal. apply filter_filter_absorb. intros r' Hr' Hcat Hser.
  apply list_elem_of_lookup_2 in Hi.
  apply elem_of_order_by, list_elem_of_filter in Hi as [Hrc Hr].
  assert (r' = r) by by eapply serial_determines_row.
  congruence.
Qed.

(** * The persistence layer: batches and positions *)


(** *** The row at an offset *)

Lemma row_at_offset_None (choice : Z) (listed : list FileRow) (i : nat) :
  row_at_offset choice listed i = None ↔ listed !! i = None.
Proof. unfold row_at_offset. by destruct (listed !! i). Qed.

(** Whatever the backend chooses, the row is tied with the one listed. *)
Lemma row_at_offset_tied (choice : Z) (listed : list FileRow) (i : nat)
    (r' : FileRow) :
  row_at_offset choice listed i = Some r' →
  ∃ r, listed !! i = Some r ∧ r' ∈ listed
       ∧ row_upload_date r' = row_upload_date r.
Proof.
  unfold row_at_offset. destruct (listed !! i) as [r|] eqn:Hr; [|done].
  intros [= <-]. exists r. split; [done|].
  destruct (head (filter _ (tied_with r listed))) as [x|] eqn:Hx; simpl.
  - apply head_Some_elem_of, list_elem_of_filter in Hx as [_ Hx].
    by apply list_elem_of_filter in Hx as [? ?].
  - split; [|done]. by eapply list_elem_of_lookup_2.
Qed.

(** Without a tie there is nothing to choose. *)
Lemma row_at_offset_untied (choice : Z) (listed : list FileRow) (i : nat)
    (r : FileRow) :
  listed !! i = Some r →
  (∀ x, x ∈ listed → row_upload_date x = row_upload_date r → x = r) →
  row_at_offset choice listed i = Some r.
Proof.
  intros Hr Honly. unfold row_at_offset. rewrite Hr. simpl. f_equal.
  destruct (head (filter _ (tied_with r listed))) as [x|] eqn:Hx; [|done].
  simpl. apply head_Some_elem_of, list_elem_of_filter in Hx as [_ Hx].
  apply list_elem_of_filter in Hx as [? ?]. by apply Honly.
Qed.

(** Every tied row is the choice of some backend. *)
Lemma row_at_offset_chosen (listed : list FileRow) (i : nat)
    (r r' : FileRow) :
  NoDup (row_serial <$> listed) →
  listed !! i = Some r →
  r' ∈ listed →
  row_upload_date r' = row_upload_date r →
  row_at_offset (row_serial r') listed i = Some r'.
Proof.
  intros Hnd Hr Hr' Hdate. unfold row_at_offset. rewrite Hr. simpl. f_equal.
  assert (r' ∈ filter (λ x, row_serial x = row_serial r') (tied_with r listed))
    as Hin.
  { apply list_elem_of_filter. split; [done|].
    by apply list_elem_of_filter. }
  destruct (filter _ (tied_with r listed)) as [|x l] eqn:Hfil;
    [by apply elem_of_nil in Hin|].
  simpl.
  assert (x ∈ filter (λ x, row_serial x = row_serial r') (tied_with r listed))
    as Hx by (rewrite Hfil; by left).
  apply list_elem_of_filter in Hx as [Hserial Hx].
  apply list_elem_of_filter in Hx as [_ Hx].
  by apply (serial_determines_row listed).
Qed.

Section Position.
Context {A : Type} (key : A → Z).

(** In a list in ascending order the element at position [i] has at most
    [i] elements with a smaller key and more than [i] with a key that is
    not greater. *)
Lemma ascending_lookup_bounds (l : list A) (i : nat) (x : A) :
  ascending key l →
  l !! i = Some x →
  (length (filter (λ y, (key y < key x)%Z) l) ≤ i
   < length (filter (λ y, (key y ≤ key x)%Z) l))%nat.
Proof.
  revert i. induction l as [|y l IH]; intros i Hasc Hx; [done|].
  destruct Hasc as [Hy Hasc]. destruct i as [|i]; simpl in Hx.
  - injection Hx as ->. rewrite !filter_cons.
    rewrite decide_False by lia. rewrite decide_True by lia.
    rewrite (filter_none (λ y, key y < key x)); [simpl; lia|].
    eapply Forall_impl; [exact Hy|]. simpl. lia.
  - destruct (IH i Hasc Hx) as [Hlt Hle].
    assert (key y ≤ key x) as Hyx.
    { eapply (proj1 (Forall_forall _ _) Hy). by eapply list_elem_of_lookup_2. }
    rewrite !filter_cons. rewrite (decide_True (P := key y ≤ key x)) by done.
    case_decide; simpl; lia.
Qed.
End Position.

(** The position of a row in the upload-time order of its category, said
    on the rows as they are stored. *)
Lemma files_of_category_bounds (s : Store) (cid : string) (i : nat)
    (r r' : FileRow) :
  files_of_category s cid !! i = Some r →
  row_upload_date r' = row_upload_date r →
  let rows := filter (λ x, row_category_id x = cid) (files s) in
  (length (filter (λ x, (row_upload_date x < row_upload_date r')%Z) rows) ≤ i
   < length (filter (λ x, (row_upload_date x ≤ row_upload_date r')%Z) rows))%nat.
Proof.
  intros Hr Hdate rows. rewrite Hdate.
  pose proof (ascending_lookup_bounds row_upload_date _ i r
                (ascending_order_by row_upload_date rows) Hr) as Hb.
  by rewrite !(order_by_perm row_upload_date rows) in Hb.
Qed.

(** C8 — [delete_file] on a healthy backend whose serial numbers are
    unique.  At an index at or beyond the number of files of the category
    it returns [False] and the store is unchanged.  At an index inside,
    it returns [True] and removes exactly one row, which is a row of the
    category that can stand at this position of an upload-time ordering
    (at most [index] rows of the category are older, more than [index]
    are not younger); the categories and the channels are untouched.
    Which row that is, ORDER BY upload_date does not settle among rows of
    equal [upload_date]: for the row [r] that the listing of
    [get_category] has at the index and every row [r'] of the category
    with the [upload_date] of [r], there is a choice of the backend under
    which [r'] is the row removed. *)
Theorem delete_file_among_ties (w : World) (cid : string) (file_index : Z) :
  healthy w →
  NoDup (row_serial <$> files (db w)) →
  0 ≤ file_index →
  let rows := filter (λ r, row_category_id r = cid) (files (db w)) in
  let out := run (DatabaseManager.delete_file cid file_index) w in
  (Z.of_nat (length rows) ≤ file_index →
   out.1 = Ok false ∧ db out.2 = db w)
  ∧ (file_index < Z.of_nat (length rows) →
     ∃ r, r ∈ rows
          ∧ (length (filter (λ x, (row_upload_date x < row_upload_date r)%Z)
                       rows)
             ≤ Z.to_nat file_index
             < length (filter (λ x, (row_upload_date x ≤ row_upload_date r)%Z)
                         rows))%nat
          ∧ out.1 = Ok true
          ∧ files (db out.2)
            = filter (λ x, row_serial x ≠ row_serial r) (files (db w))
          ∧ categories (db out.2) = categories (db w)
          ∧ channels (db out.2) = channels (db w))
  ∧ (∀ r r',
       files_of_category (db w) cid !! Z.to_nat file_index = Some r →
       r' ∈ rows →
       row_upload_date r' = row_upload_date r →
       let chosen := set_ties (λ _ _ _, row_serial r') w in
       files (db (run (DatabaseManager.delete_file cid file_index) chosen).2)
       = filter (λ x, row_serial x ≠ row_serial r') (files (db w))).
Proof.
  intros Hw Hnd Hidx rows out. subst out.
  assert (length (files_of_category (db w) cid) = length rows) as Hlen
    by apply length_order_by.
  split_and!.
  - intros Hge. rewrite delete_file_healthy by done.
    rewrite (proj2 (row_at_offset_None _ _ _)); [done|].
    apply lookup_ge_None. lia.
  - intros Hlt. rewrite delete_file_healthy by done.
    destruct (row_at_offset _ (files_of_category (db w) cid) _) as [r'|]
      eqn:Hrow.
    + destruct (row_at_offset_tied _ _ _ _ Hrow) as (r & Hr & Hin & Hdate).
      exists r'. split; [by apply elem_of_order_by in Hin|].
      split; [by apply (files_of_category_bounds (db w) cid _ r r')|].
      by split_and!.
    + apply row_at_offset_None, lookup_ge_None in Hrow. lia.
  - intros r r' Hr Hin Hdate chosen.
    assert (healthy chosen) as Hchosen by done.
    rewrite delete_file_healthy by done.
    change (db chosen) with (db w).
    change (ties chosen cid file_index (db w)) with (row_serial r').
    rewrite (row_at_offset_chosen _ _ r r'); [done| |done| |done].
    + by apply NoDup_serial_files_of_category.
    + by apply elem_of_order_by.
Qed.

(** ** Listing the categories *)

Lemma group_file_lookup (rows : list FileRow) (cid : string) :
  ∀ acc : gmap string (list FileInfo),
  default [] (foldl DatabaseManager.group_file acc rows !! cid)
  = default [] (acc !! cid)
    ++ (file_dict <$> filter (λ r, row_category_id r = cid) rows).
Proof.
  induction rows as [|r rows IH]; intros acc; simpl.
  - by rewrite app_nil_r.
  - rewrite IH, filter_cons. unfold DatabaseManager.group_file.
    destruct (decide (row_category_id r = cid)) as [->|Hne].
    + rewrite lookup_insert_eq. simpl. by rewrite <- app_assoc.
    + by rewrite lookup_insert_ne.
Qed.

Lemma dict_set_fresh {V} (k : string) (v : V) (d : list (string * V)) :
  k ∉ d.*1 → dict_set k v d = d ++ [(k, v)].
Proof.
  induction d as [|[k' v'] d IH]; simpl; [done|].
  intros Hk. apply not_elem_of_cons in Hk as [Hne Hk].
  rewrite decide_False by done. by rewrite IH.
Qed.

Lemma foldl_dict_set_fresh {V} (g : CategoryRow → V) (cats : list CategoryRow) :
  ∀ acc : list (string * V),
  NoDup (acc.*1 ++ (cat_id <$> cats)) →
  foldl (λ d c, dict_set (cat_id c) (g c) d) acc cats
  = acc ++ ((λ c, (cat_id c, g c)) <$> cats).
Proof.
  induction cats as [|c cats IH]; intros acc Hnd; simpl.
  - by rewrite app_nil_r.
  - rewrite fmap_cons in Hnd.
    apply NoDup_app in Hnd as (Hacc & Hdisj & Hcs).
    apply NoDup_cons in Hcs as [Hc Hcs].
    rewrite dict_set_fresh.
    + rewrite IH; [by rewrite <- app_assoc|].
      rewrite fmap_app. simpl. apply NoDup_app. split_and!; [| |done].
      * apply NoDup_app. split_and!; [done| |apply NoDup_singleton].
        intros k Hk Hk'. apply list_elem_of_singleton in Hk' as ->.
        apply (Hdisj _ Hk). by left.
      * intros k Hk Hk'. apply elem_of_app in Hk as [Hk|Hk].
        -- apply (Hdisj _ Hk). by right.
        -- apply list_elem_of_singleton in Hk as ->. done.
    + intros Hin. apply (Hdisj _ Hin). by left.
Qed.

Lemma files_in_of_category (s : Store) (ids : list string) (cid : string) :
  cid ∈ ids →
  filter (λ r, row_category_id r = cid)
    (order_by row_upload_date (filter (λ r, row_category_id r ∈ ids) (files s)))
  = files_of_category s cid.
Proof.
  intros Hin. rewrite filter_order_by. unfold files_of_category. f_equal.
  apply list_filter_filter_l. by intros r ->.
Qed.

Lemma get_categories_healthy (w : World) :
  healthy w →
  NoDup (cat_id <$> categories (db w)) →
  run DatabaseManager.get_categories w
  = (Ok (categories_view (db w)),
     after (db w) (get_categories_events (db w)) w).
Proof.
  intros Hw Hnd. unfold DatabaseManager.get_categories, categories_view,
    get_categories_events.
  rewrite run_try_except, run_bind, execute_with_retry_healthy by done.
  cbn [sem select_categories default].
  assert (NoDup (cat_id <$> order_by_desc cat_created_at (categories (db w))))
    as Hnd'.
  { unfold order_by_desc. by rewrite order_by_perm. }
  destruct (order_by_desc cat_created_at (categories (db w)))
    as [|c cats] eqn:Hsorted; [done|].
  unfold id. cbn beta iota.
  change (cat_id <$> c :: cats) with (cat_id c :: (cat_id <$> cats)) at 1.
  cbn beta iota.
  rewrite run_bind, run_bind, execute_with_retry_healthy
    by (done || by apply healthy_after).
  cbn [sem select_files_in]. rewrite run_ret, run_ret, after_after.
  cbn [params sql select_files_in select_categories app default from_option].
  unfold id. f_equal. f_equal.
  set (rows := order_by row_upload_date _).
  rewrite (foldl_dict_set_fresh
             (λ cat, DatabaseManager.category_of cat
                       (default [] (foldl DatabaseManager.group_file ∅ rows
                                      !! cat_id cat)))
             (c :: cats) []) by done.
  rewrite app_nil_l. apply Forall_fmap_ext, Forall_forall.
  intros cat Hcat. unfold category_entry. do 2 f_equal.
  rewrite group_file_lookup, lookup_empty. simpl.
  f_equal. apply files_in_of_category.
  by apply list_elem_of_fmap_2.
Qed.

(** C7 — [get_categories]: on a healthy backend (category ids being the
    primary key) the result lists every stored category, newest first;
    each entry carries all the files of its category in ascending upload
    time; the files are read by one statement whose parameters are all
    the category ids, after the one statement that reads the categories,
    and the store is left as it was. *)
Theorem get_categories_sorted_batched (w : World) :
  healthy w →
  NoDup (cat_id <$> categories (db w)) →
  let out := run DatabaseManager.get_categories w in
  ∃ cats,
    cats ≡ₚ categories (db w)
    ∧ descending cat_created_at cats
    ∧ out.1 = Ok (category_entry (db w) <$> cats)
    ∧ (∀ cat, cat ∈ cats →
         ∃ rows,
           c_files (category_entry (db w) cat).2 = file_dict <$> rows
           ∧ rows ≡ₚ filter (λ r, row_category_id r = cat_id cat)
                       (files (db w))
           ∧ ascending row_upload_date rows)
    ∧ trace out.2
      = trace w
        ++ [EvExecute (sql select_categories) []; EvCommit]
        ++ match cats with
           | [] => []
           | _ =>
               [EvExecute (sql (select_files_in (cat_id <$> cats)))
                  (cat_id <$> cats);
                EvCommit]
           end
    ∧ db out.2 = db w.
Proof.
  intros Hw Hnd out. subst out. rewrite get_categories_healthy by done.
  exists (order_by_desc cat_created_at (categories (db w))).
  split_and!; try done.
  - apply order_by_perm.
  - apply ascending_order_by.
  - intros cat _. exists (files_of_category (db w) (cat_id cat)).
    split_and!; [done|apply order_by_perm|apply ascending_order_by].
  - simpl. unfold get_categories_events. f_equal. f_equal.
    by destruct (order_by_desc cat_created_at (categories (db w))).
Qed.

(** * The retry policy *)

Lemma attempt_round_one_execute {A} (q : statement A) (attempt : Z) (w : World) :
  ∃ evs, trace (run (DatabaseManager.attempt_round q attempt) w).2
         = trace w ++ evs
         ∧ length (filter is_execute evs) = 1%nat.
Proof.
  destruct w as [d wk nw fs cm se pu pc tr ti].
  unfold DatabaseManager.attempt_round, cursor_execute, commit, rollback,
    connect.
  unfold_monad. simpl.
  destruct fs as [|[e|] fs]; simpl.
  - destruct (sem q nw wk) as [e|[s r]]; simpl.
    + destruct e; simpl; try case_bool_decide; simpl;
        (eexists; split; [rewrite <- ?app_assoc; reflexivity | done]).
    + eexists; split; [rewrite <- ?app_assoc; reflexivity | done].
  - destruct e; simpl; try case_bool_decide; simpl;
      destruct fs as [|[e|] fs]; simpl;
      (eexists; split; [rewrite <- ?app_assoc; reflexivity | done]).
  - destruct (sem q nw wk) as [e|[s r]]; simpl.
    + destruct e; simpl; try case_bool_decide; simpl;
        destruct fs as [|[e|] fs]; simpl;
        (eexists; split; [rewrite <- ?app_assoc; reflexivity | done]).
    + destruct fs as [|[e|] fs]; simpl;
        try (destruct e; simpl; try case_bool_decide; simpl;
             destruct fs as [|[e|] fs]; simpl);
        (eexists; split; [rewrite <- ?app_assoc; reflexivity | done]).
Qed.

Lemma for_attempts_executes {A} (q : statement A) (attempts : list Z) :
  ∀ w, ∃ evs, trace (run (DatabaseManager.for_attempts q attempts) w).2
              = trace w ++ evs
              ∧ (length (filter is_execute evs) ≤ length attempts)%nat.
Proof.
  induction attempts as [|a rest IH]; intros w.
  - exists []. by rewrite app_nil_r.
  - cbn [DatabaseManager.for_attempts]. rewrite run_bind.
    destruct (attempt_round_one_execute q a w) as (evs1 & Htr1 & Hn1).
    destruct (run (DatabaseManager.attempt_round q a) w) as [[f|e] w1];
      simpl in Htr1.
    + destruct f as [|r].
      * destruct (IH w1) as (evs2 & Htr2 & Hn2).
        exists (evs1 ++ evs2). rewrite Htr2, Htr1, <- app_assoc.
        split; [done|]. rewrite filter_app, length_app. simpl. lia.
      * rewrite run_ret. exists evs1. split; [done|]. simpl. lia.
    + exists evs1. split; [done|]. simpl. lia.
Qed.

(** C5 — [_execute_with_retry], for every statement: the statement is
    executed at most three times in all; a lost connection
    ([OperationalError]) on the first or second execution is followed by a
    warning, a sleep of one second and one attempt to reconnect (whose own
    failure is ignored) and then by the next execution; a third lost
    connection in a row is raised to the caller; an execution that
    succeeds after a lost connection is committed; any other failure is
    rolled back and raised at once, without another execution. *)
Theorem execute_with_retry_policy {A} (q : statement A) (w : World) :
  let out := run (DatabaseManager._execute_with_retry q) w in
  (∃ evs, trace out.2 = trace w ++ evs
          ∧ (length (filter is_execute evs) ≤ 3)%nat)
  ∧ (∀ c1 c2 rest,
       faults w = Some OperationalError :: c1 :: Some OperationalError
                    :: c2 :: Some OperationalError :: rest →
       out.1 = Raise OperationalError
       ∧ trace out.2
         = trace w ++ retry_events q 2 ++ [EvExecute (sql q) (params q)]
       ∧ db out.2 = db w
       ∧ faults out.2 = rest)
  ∧ (∀ c1 s r,
       faults w = [Some OperationalError; c1] →
       work w = db w →
       sem q (now w) (db w) = inr (s, r) →
       out.1 = Ok r
       ∧ trace out.2
         = trace w ++ retry_events q 1
           ++ [EvExecute (sql q) (params q); EvCommit]
       ∧ db out.2 = s)
  ∧ (∀ e rest,
       e ≠ OperationalError →
       faults w = Some e :: None :: rest →
       out.1 = Raise e
       ∧ trace out.2 = trace w ++ [EvExecute (sql q) (params q); EvRollback]
       ∧ db out.2 = db w
       ∧ work out.2 = db w).
Proof.
  intros out. subst out. split_and!.
  - apply (for_attempts_executes q (seqZ 0 DatabaseManager.max_retries)).
  - intros c1 c2 rest Hf. destruct w as [d wk nw fs cm se pu pc tr ti].
    simpl in Hf. subst fs.
    unfold DatabaseManager._execute_with_retry, DatabaseManager.for_attempts,
      DatabaseManager.attempt_round, cursor_execute, commit, rollback, connect.
    unfold_monad. simpl.
    destruct c1 as [e1|], c2 as [e2|]; simpl;
      by rewrite <- !app_assoc.
  - intros c1 s r Hf Hwk Hsem. destruct w as [d wk nw fs cm se pu pc tr ti].
    simpl in Hf, Hwk, Hsem. subst fs wk.
    unfold DatabaseManager._execute_with_retry, DatabaseManager.for_attempts,
      DatabaseManager.attempt_round, cursor_execute, commit, rollback, connect.
    unfold_monad. simpl.
    destruct c1 as [e1|]; simpl; rewrite Hsem; simpl;
      by rewrite <- !app_assoc.
  - intros e rest He Hf. destruct w as [d wk nw fs cm se pu pc tr ti].
    simpl in Hf. subst fs.
    unfold DatabaseManager._execute_with_retry, DatabaseManager.for_attempts,
      DatabaseManager.attempt_round, cursor_execute, commit, rollback, connect.
    unfold_monad. simpl.
    destruct e; try done; simpl; by rewrite <- !app_assoc.
Qed.

(** * Failures at the public interface *)

Lemma try_except_returns {A} (m : M A) (h : exn → M A) :
  (∀ e w, ∃ v w', run (h e) w = (Ok v, w')) →
  ∀ w, ∃ v w', run (try_except m h) w = (Ok v, w').
Proof.
  intros Hh w. rewrite run_try_except.
  destruct (run m w) as [[a|e] w1]; [by eauto | apply Hh].
Qed.

(** The operations that go through [_execute_with_retry] never raise,
    whatever the backend does. *)
Lemma retried_operations_return (w : World) (cid name chid link : string)
    (user : Z) (f : FileInfo) :
  (∃ v w', run (DatabaseManager.add_category cid name user) w = (Ok v, w'))
  ∧ (∃ v w', run DatabaseManager.get_categories w = (Ok v, w'))
  ∧ (∃ v w', run (DatabaseManager.get_category cid) w = (Ok v, w'))
  ∧ (∃ v w', run (DatabaseManager.delete_category cid) w = (Ok v, w'))
  ∧ (∃ v w', run (DatabaseManager.add_file_to_category cid f) w = (Ok v, w'))
  ∧ (∃ v w', run (DatabaseManager.add_channel chid name link) w = (Ok v, w'))
  ∧ (∃ v w', run DatabaseManager.get_channels w = (Ok v, w'))
  ∧ (∃ v w', run (DatabaseManager.delete_channel chid) w = (Ok v, w')).
Proof.
  split_and!; apply try_except_returns; intros e w0;
    try (destruct e); by eauto.
Qed.

(** Three lost connections in a row: what is left of the world. *)
Lemma three_lost_connections {A} (q : statement A) (w : World)
    (c1 c2 : option exn) (rest : list (option exn)) :
  faults w = Some OperationalError :: c1 :: Some OperationalError
               :: c2 :: Some OperationalError :: rest →
  ∃ seen,
    run (DatabaseManager._execute_with_retry q) w
    = (Raise OperationalError,
       set_faults rest
         (set_work seen
            (add_trace (retry_events q 2 ++ [EvExecute (sql q) (params q)]) w)))
    ∧ (c2 = None → seen = db w).
Proof.
  intros Hf. destruct w as [d wk nw fs cm se pu pc tr ti].
  simpl in Hf. subst fs.
  exists (match c2, c1 with None, _ | _, None => d | _, _ => wk end).
  destruct c1 as [e1|], c2 as [e2|]; (split; [|done]);
    cbv -[app]; by rewrite <- !app_assoc.
Qed.

Lemma exhausted_retries_raise {A} (q : statement A) (w : World)
    (c1 c2 : option exn) (rest : list (option exn)) :
  faults w = Some OperationalError :: c1 :: Some OperationalError
               :: c2 :: Some OperationalError :: rest →
  ∃ w', run (DatabaseManager._execute_with_retry q) w
        = (Raise OperationalError, w').
Proof.
  intros Hf.
  destruct (three_lost_connections q w c1 c2 rest Hf) as (seen & -> & _).
  by eexists.
Qed.

(** After three lost connections in a row each of them returns what it
    returns for an empty or absent result. *)
Lemma retried_operations_sentinel (w : World) (cid name chid link : string)
    (user : Z) (f : FileInfo) (c1 c2 : option exn) (rest : list (option exn)) :
  faults w = Some OperationalError :: c1 :: Some OperationalError
               :: c2 :: Some OperationalError :: rest →
  (run (DatabaseManager.add_category cid name user) w).1 = Ok false
  ∧ (run DatabaseManager.get_categories w).1 = Ok []
  ∧ (run (DatabaseManager.get_category cid) w).1 = Ok None
  ∧ (run (DatabaseManager.delete_category cid) w).1 = Ok false
  ∧ (run (DatabaseManager.add_file_to_category cid f) w).1 = Ok false
  ∧ (run (DatabaseManager.add_channel chid name link) w).1 = Ok false
  ∧ (run DatabaseManager.get_channels w).1 = Ok []
  ∧ (run (DatabaseManager.delete_channel chid) w).1 = Ok false.
Proof.
  intros Hf.
  unfold DatabaseManager.add_category, DatabaseManager.get_categories,
    DatabaseManager.get_category, DatabaseManager.delete_category,
    DatabaseManager.add_file_to_category, DatabaseManager.add_channel,
    DatabaseManager.get_channels, DatabaseManager.delete_channel.
  split_and!; rewrite run_try_except, run_bind;
    match goal with
    | |- context [run (DatabaseManager._execute_with_retry ?q) w] =>
        destruct (exhausted_retries_raise q w c1 c2 rest Hf) as [w' ->]
    end; done.
Qed.

(** C10 — the two operations that use the cursor directly call
    [rollback] in their handler before they return [False]: when the
    connection is lost ([executemany] or [execute] raises
    [OperationalError]) and [rollback] then raises on the dead connection
    ([InterfaceError]), that exception leaves [add_files_to_category] and
    [delete_file] instead of a [False]. *)
Theorem direct_operations_raise_when_rollback_fails (w : World) (cid : string)
    (batch : list FileInfo) (file_index : Z) (rest : list (option exn)) :
  let lost :=
    set_faults (Some OperationalError :: Some InterfaceError :: rest) w in
  (run (DatabaseManager.add_files_to_category cid batch) lost).1
  = Raise InterfaceError
  ∧ (run (DatabaseManager.delete_file cid file_index) lost).1
    = Raise InterfaceError.
Proof. done. Qed.

(** * Handlers *)

(** ** What a handler adds to the trace *)
Section EmitsOnly.
Context (P : event → bool).

Lemma emits_only_ret {A} (a : A) : emits_only P (mret a).
Proof. intros w. exists []. by rewrite app_nil_r. Qed.

Lemma emits_only_raise {A} (e : exn) : emits_only P (raise e : M A).
Proof. intros w. exists []. by rewrite app_nil_r. Qed.

Lemma emits_only_get_world : emits_only P get_world.
Proof. intros w. exists []. by rewrite app_nil_r. Qed.

Lemma emits_only_modify (f : World → World) :
  (∀ w, trace (f w) = trace w) → emits_only P (modify f).
Proof.
  intros Hf w. exists []. rewrite app_nil_r. split; [apply Hf | constructor].
Qed.

Lemma emits_only_emit (e : event) : P e = true → emits_only P (emit e).
Proof. intros He w. exists [e]. split; [done | by constructor]. Qed.

Lemma emits_only_driver_call : emits_only P driver_call.
Proof.
  intros w. exists []. rewrite app_nil_r. unfold run, driver_call.
  split; [|constructor]. by destruct (faults w) as [|[e|] fs].
Qed.

Lemma emits_only_bind {A B} (m : M A) (f : A → M B) :
  emits_only P m → (∀ a, emits_only P (f a)) → emits_only P (m ≫= f).
Proof.
  intros Hm Hf w. rewrite run_bind. destruct (Hm w) as (evs1 & Ht1 & Hp1).
  destruct (run m w) as [[a|e] w1]; simpl in Ht1.
  - destruct (Hf a w1) as (evs2 & Ht2 & Hp2). exists (evs1 ++ evs2).
    rewrite Ht2, Ht1, <- app_assoc. split; [done | by apply Forall_app].
  - by exists evs1.
Qed.

Lemma emits_only_try_except {A} (m : M A) (h : exn → M A) :
  emits_only P m → (∀ e, emits_only P (h e)) → emits_only P (try_except m h).
Proof.
  intros Hm Hh w. rewrite run_try_except.
  destruct (Hm w) as (evs1 & Ht1 & Hp1).
  destruct (run m w) as [[a|e] w1]; simpl in Ht1.
  - by exists evs1.
  - destruct (Hh e w1) as (evs2 & Ht2 & Hp2). exists (evs1 ++ evs2).
    rewrite Ht2, Ht1, <- app_assoc. split; [done | by apply Forall_app].
Qed.
End EmitsOnly.

Ltac emits_step :=
  first
    [ apply emits_only_ret | apply emits_only_raise
    | apply emits_only_get_world | apply emits_only_driver_call
    | apply emits_only_modify; by intros []
    | apply emits_only_emit; done
    | apply emits_only_bind; [|intros _]
    | apply emits_only_try_except; [|intros _] ].

Lemma cursor_execute_emits (P : event → bool) {A} (q : statement A) :
  P (EvExecute (sql q) (params q)) = true → emits_only P (cursor_execute q).
Proof.
  intros Hexec. unfold cursor_execute.
  apply emits_only_bind; [by apply emits_only_emit|]. intros _.
  apply emits_only_bind; [apply emits_only_driver_call|]. intros _.
  apply emits_only_bind; [apply emits_only_get_world|]. intros w0.
  destruct (sem q (now w0) (work w0)) as [e|[s r]]; repeat emits_step.
Qed.

Lemma execute_with_retry_not_gate {A} (q : statement A) :
  sql q ≠ sql select_channels →
  emits_only not_gate_event (DatabaseManager._execute_with_retry q).
Proof.
  intros Hq.
  assert (not_gate_event (EvExecute (sql q) (params q)) = true) as Hexec.
  { unfold not_gate_event. simpl. by rewrite bool_decide_false. }
  assert (∀ a, emits_only not_gate_event (DatabaseManager.attempt_round q a))
    as Hround.
  { intros a. unfold DatabaseManager.attempt_round, commit, rollback, connect,
      log, sleep.
    apply emits_only_try_except.
    - apply emits_only_bind; [by apply cursor_execute_emits|].
      intros r. repeat emits_step.
    - intros e. destruct e; try case_bool_decide; repeat emits_step. }
  unfold DatabaseManager._execute_with_retry.
  induction (seqZ 0 DatabaseManager.max_retries) as [|a rest IH]; simpl.
  - apply emits_only_ret.
  - apply emits_only_bind; [apply Hround|].
    intros [|r]; [done | apply emits_only_ret].
Qed.

Lemma get_category_not_gate (cid : string) :
  emits_only not_gate_event (DatabaseManager.get_category cid).
Proof.
  unfold DatabaseManager.get_category, log.
  apply emits_only_try_except; [|intros e; repeat emits_step].
  apply emits_only_bind; [by apply execute_with_retry_not_gate|].
  intros [cat|]; [|apply emits_only_ret].
  apply emits_only_bind; [by apply execute_with_retry_not_gate|].
  intros files_data. apply emits_only_ret.
Qed.

Lemma reply_text_not_gate (update : pyobj) (t : text)
    (markup : list (list button)) :
  emits_only not_gate_event (reply_text update t markup).
Proof.
  unfold reply_text.
  destruct update as [u|q]; [destruct (message u)|destruct (cq_message q)];
    repeat emits_step.
Qed.

Lemma handle_admin_category_access_not_gate (update : pyobj) (cid : string) :
  emits_only not_gate_event (handle_admin_category_access update cid).
Proof.
  unfold handle_admin_category_access.
  apply emits_only_bind; [apply get_category_not_gate|].
  intros [category|]; apply reply_text_not_gate.
Qed.

(** ** Access to a category *)

(** C1 — [handle_category_access] for an administrator: whatever the
    category, the registered channels, the memberships and the state of
    the backend, the handler is the administrator path
    ([handle_admin_category_access]) and nothing else; on the way the
    mandatory channels are not read and no membership is asked for. *)
Theorem admin_access_bypasses_gate (ADMIN_IDS : list Z) (w : World)
    (u : Update) (cid : string) :
  effective_user u ∈ ADMIN_IDS →
  let out := run (handle_category_access ADMIN_IDS (PyUpdate u) cid) w in
  out = run (handle_admin_category_access (PyUpdate u) cid) w
  ∧ ∃ evs, trace out.2 = trace w ++ evs
           ∧ Forall (λ e, is_gate_event e = false) evs.
Proof.
  intros Hadmin out.
  assert (out = run (handle_admin_category_access (PyUpdate u) cid) w) as ->.
  { subst out. unfold handle_category_access, effective_user_id,
      effective_chat_id, is_admin.
    rewrite run_bind, run_ret, run_bind, run_ret.
    by rewrite bool_decide_true. }
  split; [done|].
  destruct (handle_admin_category_access_not_gate (PyUpdate u) cid w)
    as (evs & Htr & Hall).
  exists evs. split; [done|]. eapply Forall_impl; [exact Hall|].
  intros e He. unfold not_gate_event in He. by apply negb_true_iff in He.
Qed.

(** C3 — the re-check button: [button_handler] hands the callback query
    itself to [handle_category_access], whose first statement reads
    [effective_user], an attribute a callback query does not have: the
    handler raises [AttributeError] right after answering the query,
    before the administrator test, before the channels are read and
    before any membership is asked for. *)
Theorem recheck_button_raises (ADMIN_IDS : list Z) (w : World)
    (update : Update) (query : CallbackQuery) (cid : string) :
  callback_query update = Some query →
  data query = "check_membership_" +:+ cid →
  run (button_handler ADMIN_IDS update) w
  = (Raise AttributeError, add_trace [EvAnswer] w).
Proof.
  intros Hq Hdata. unfold button_handler. rewrite Hq, Hdata.
  rewrite run_bind, run_emit.
  assert (startswith "check_membership_" ("check_membership_" +:+ cid) = true)
    as -> by (unfold startswith; simpl; by destruct cid).
  unfold handle_category_access, effective_user_id.
  by rewrite run_bind, run_raise.
Qed.

Lemma add_trace_add_trace (e1 e2 : list event) (w : World) :
  add_trace e2 (add_trace e1 w) = add_trace (e1 ++ e2) w.
Proof. unfold add_trace; simpl. by rewrite app_assoc. Qed.

Lemma add_trace_nil (w : World) : add_trace [] w = w.
Proof. destruct w. unfold add_trace; simpl. by rewrite app_nil_r. Qed.


Lemma send_loop_run (u : Update) (files : list FileInfo) :
  ∀ w, run (for_each_file (send_one (PyUpdate u)) files) w
       = (Ok (),
          add_trace (delivery_events (send_error w) (effective_chat u) files) w).
Proof.
  induction files as [|f rest IH]; intros w.
  - simpl. by rewrite run_ret, add_trace_nil.
  - cbn [for_each_file delivery_events mbind list_bind].
    rewrite run_bind, run_try_except.
    unfold send_one, kind_of_type, send_media, effective_chat_id, sleep, log.
    repeat case_decide;
      repeat first [rewrite run_bind | rewrite run_ret | rewrite run_emit
                   | rewrite run_get_world];
      cbn [send_error add_trace];
      try (destruct (send_error w (file_id f)) as [e|]);
      repeat first [rewrite run_bind | rewrite run_ret | rewrite run_emit
                   | rewrite run_raise | rewrite run_get_world];
      rewrite IH, ?add_trace_add_trace; cbn [send_error add_trace];
      by rewrite <- ?app_assoc.
Qed.


(** Every file of a supported type is sent once, in order, with its
    token and caption, whether or not earlier sends failed. *)
Lemma delivery_sends_each_file (se : string → option exn) (chat_id : Z)
    (files : list FileInfo) (kinds : list media_kind) :
  Forall2 (λ f k, kind_of_type (file_type f) = Some k) files kinds →
  filter (λ e, is_send e = true) (delivery_events se chat_id files)
  = zip_with (λ f k, EvSend k chat_id (file_id f) (caption f)) files kinds.
Proof.
  induction 1 as [|f k files kinds Hk _ IH]; [done|].
  cbn [delivery_events mbind list_bind zip_with]. rewrite Hk.
  rewrite filter_app. fold (delivery_events se chat_id files). rewrite IH.
  rewrite filter_cons, decide_True by done.
  by destruct (se (file_id f)).
Qed.



(** ** Viewing a category as an administrator *)

Lemma view_loop_other_kinds (query : CallbackQuery) (files : list FileInfo) :
  Forall (λ f, file_type f ∉ ["document"; "photo"]) files →
  ∀ w, run (for_each_file (view_one query) files) w
       = (Ok (), add_trace (replicate (length files) (EvSleep 500)) w).
Proof.
  induction 1 as [|f rest Hf _ IH]; intros w.
  - simpl. by rewrite run_ret, add_trace_nil.
  - cbn [for_each_file length replicate].
    rewrite run_bind, run_try_except. unfold view_one, sleep.
    rewrite decide_False by (intros Heq; apply Hf; rewrite Heq; by left).
    rewrite decide_False
      by (intros Heq; apply Hf; rewrite Heq; right; by left).
    rewrite run_bind, run_ret, run_emit, IH.
    by rewrite add_trace_add_trace.
Qed.

(** C9 — [view_category_files], the administrator's delivery: on a
    healthy backend, for a category all of whose files are of a type
    other than document and photo (video, audio and voice are such
    types), the handler announces the delivery and then sends nothing:
    per file only the pause is left. *)
Theorem view_category_files_sends_nothing (w : World) (query : CallbackQuery)
    (cid : string) (category : Category) :
  healthy w →
  category_view (db w) cid = Some category →
  c_files category ≠ [] →
  Forall (λ f, file_type f ∉ ["document"; "photo"]) (c_files category) →
  run (view_category_files query cid) w
  = (Ok (),
     after (db w)
       (get_category_events (db w) cid
        ++ EvEditMessageText TxtSendingFilesToAdmin []
           :: replicate (length (c_files category)) (EvSleep 500)) w).
Proof.
  intros Hw Hcat Hne Hall. unfold view_category_files, edit_message_text.
  rewrite run_bind, get_category_healthy, Hcat by done.
  destruct (c_files category) as [|f fs] eqn:Hfs; [done|].
  rewrite run_bind, run_emit, add_trace_after.
  rewrite view_loop_other_kinds by done.
  rewrite add_trace_after. by rewrite <- app_assoc.
Qed.

(** ** Upload sessions *)

Lemma healthy_add_trace (evs : list event) (w : World) :
  healthy w → healthy (add_trace evs w).
Proof. done. Qed.

Lemma upload_command_healthy (ADMIN_IDS : list Z) (user_id : Z) (m : Message)
    (cid : string) (args : list string) (w : World) :
  healthy w →
  user_id ∈ ADMIN_IDS →
  category_exists (db w) cid = true →
  ∃ evs,
    run (upload_command ADMIN_IDS (message_update user_id m) (cid :: args)) w
    = (Ok (Some UPLOADING),
       set_pending_uploads
         (<[user_id := fresh_upload cid]> (pending_uploads w))
         (after (db w) evs w)).
Proof.
  intros Hw Hadmin Hcat. unfold upload_command, is_admin, reply_text.
  cbn [effective_user message message_update].
  rewrite bool_decide_true by done. cbn [negb].
  rewrite run_bind, get_category_healthy by done.
  destruct (category_view_is_Some _ _ Hcat) as [c ->].
  eexists. rewrite run_bind, run_modify, run_bind, run_emit, run_ret.
  cbn [pending_uploads after]. rewrite set_pending_uploads_after.
  rewrite add_trace_after. reflexivity.
Qed.

Lemma start_adding_files_run (query : CallbackQuery) (cid : string)
    (user_id : Z) (w : World) :
  run (start_adding_files query cid user_id) w
  = (Ok (),
     add_trace [EvEditMessageText TxtAddingStarted []]
       (set_pending_uploads
          (<[user_id := fresh_upload cid]> (pending_uploads w)) w)).
Proof. done. Qed.

Lemma handle_media_run (user_id : Z) (m : Message) (p : PendingUpload)
    (f : FileInfo) (w : World) :
  pending_uploads w !! user_id = Some p →
  extract_file_info m = Some f →
  run (handle_media (message_update user_id m)) w
  = (Ok (),
     add_trace
       [EvReplyText (msg_chat_id m)
          (TxtFileReceived (file_name f) (length (pu_files p ++ [f]))) []]
       (set_pending_uploads
          (<[user_id := {| pu_category_id := pu_category_id p;
                           pu_files := pu_files p ++ [f] |}]>
             (pending_uploads w)) w)).
Proof.
  intros Hp Hf. unfold handle_media, reply_text.
  cbn [effective_user message message_update].
  by rewrite run_bind, run_get_world, Hp, Hf.
Qed.

Lemma finish_upload_healthy (BOT_USERNAME : string) (user_id : Z) (m : Message)
    (p : PendingUpload) (s : Store) (w : World) :
  healthy w →
  pending_uploads w !! user_id = Some p →
  pu_files p ≠ [] →
  batch_insert (now w) (db w) (pu_category_id p) (pu_files p) = inr s →
  run (finish_upload BOT_USERNAME (message_update user_id m)) w
  = (Ok (Some END),
     after s
       [batch_event (pu_category_id p) (pu_files p); EvCommit;
        EvReplyText (msg_chat_id m)
          (TxtFilesAdded (length (pu_files p))
             (generate_category_link BOT_USERNAME (pu_category_id p))) []]
       (set_pending_uploads (delete user_id (pending_uploads w)) w)).
Proof.
  intros Hw Hp Hne Hb. unfold finish_upload, reply_text.
  cbn [effective_user message message_update].
  rewrite run_bind, run_get_world, Hp, run_bind, run_modify.
  destruct (pu_files p) as [|f fs] eqn:Hfs; [done|].
  rewrite run_bind, add_files_to_category_healthy by done.
  cbn [now db set_pending_uploads]. rewrite Hb.
  by rewrite run_bind, run_emit, run_ret, add_trace_after.
Qed.

(** ** The upload conversation in the dispatcher *)

Lemma extract_file_info_is_media (user_id : Z) (m : Message) (f : FileInfo) :
  extract_file_info m = Some f → is_media (message_update user_id m) = true.
Proof.
  unfold is_media, extract_file_info. cbn [message message_update].
  destruct (document m) as [d|]; [done|].
  destruct (photo m) as [|p ps]; [|by rewrite orb_true_r].
  destruct (video m) as [v|]; [by rewrite orb_true_r|].
  destruct (audio m) as [a|]; [by rewrite orb_true_r|].
  destruct (voice m) as [v|]; [by rewrite orb_true_r|done].
Qed.

Section Routes.
Context (st : Conversations) (user_id : Z) (m : Message).

Lemma route_upload_entry (args : list string) :
  upload_conversations st !! (msg_chat_id m, user_id) = None →
  route_of st (command user_id m "upload" args) = ToUploadCommand args.
Proof.
  intros Hst. unfold route_of.
  change (conversation_key (inc_update (command user_id m "upload" args)))
    with (msg_chat_id m, user_id).
  by rewrite Hst.
Qed.

Lemma route_upload_in_conversation (args : list string) :
  upload_conversations st !! (msg_chat_id m, user_id) = Some UPLOADING →
  is_media (message_update user_id m) = false →
  route_of st (command user_id m "upload" args) = Unhandled.
Proof.
  intros Hst Hm. unfold route_of.
  change (conversation_key (inc_update (command user_id m "upload" args)))
    with (msg_chat_id m, user_id).
  rewrite Hst.
  change (inc_update (command user_id m "upload" args))
    with (message_update user_id m).
  unfold upload_conversation_route. rewrite Hm.
  by destruct (channel_conversations st !! (msg_chat_id m, user_id)).
Qed.

Lemma route_media :
  upload_conversations st !! (msg_chat_id m, user_id) = Some UPLOADING →
  is_media (message_update user_id m) = true →
  route_of st (media user_id m) = ToHandleMedia.
Proof.
  intros Hst Hm. unfold route_of.
  change (conversation_key (inc_update (media user_id m)))
    with (msg_chat_id m, user_id).
  rewrite Hst.
  change (inc_update (media user_id m)) with (message_update user_id m).
  unfold upload_conversation_route. by rewrite Hm.
Qed.

Lemma route_finish_upload (args : list string) :
  upload_conversations st !! (msg_chat_id m, user_id) = Some UPLOADING →
  is_media (message_update user_id m) = false →
  route_of st (command user_id m "finish_upload" args)
  = ToFinishUploadFallback.
Proof.
  intros Hst Hm. unfold route_of.
  change (conversation_key
            (inc_update (command user_id m "finish_upload" args)))
    with (msg_chat_id m, user_id).
  rewrite Hst.
  change (inc_update (command user_id m "finish_upload" args))
    with (message_update user_id m).
  unfold upload_conversation_route. by rewrite Hm.
Qed.
End Routes.

Lemma route_pressed (st : Conversations) (q : CallbackQuery) :
  route_of st (pressed q) = ToButtonHandler.
Proof.
  unfold route_of.
  by destruct (upload_conversations st !! _) as [s|],
    (channel_conversations st !! _) as [s'|];
    unfold upload_conversation_route; rewrite ?andb_false_r.
Qed.

(** ** Updates on their way through the dispatcher *)
Section Steps.
Context (BOT_USERNAME : string) (ADMIN_IDS : list Z).
Context (st : Conversations) (user_id : Z) (m : Message).

Lemma process_upload_entry (cid : string) (args : list string) (w : World) :
  healthy w →
  user_id ∈ ADMIN_IDS →
  category_exists (db w) cid = true →
  upload_conversations st !! (msg_chat_id m, user_id) = None →
  ∃ evs,
    run (process_update BOT_USERNAME ADMIN_IDS st
           (command user_id m "upload" (cid :: args))) w
    = (Ok (set_upload_conversations
             (<[(msg_chat_id m, user_id) := UPLOADING]>
                (upload_conversations st)) st),
       set_pending_uploads
         (<[user_id := fresh_upload cid]> (pending_uploads w))
         (after (db w) evs w)).
Proof.
  intros Hw Hadmin Hcat Hst.
  destruct (upload_command_healthy ADMIN_IDS user_id m cid args w)
    as [evs Hrun]; [done..|].
  exists evs. unfold process_update.
  rewrite route_upload_entry by done.
  change (inc_update (command user_id m "upload" (cid :: args)))
    with (message_update user_id m).
  by rewrite run_bind, Hrun, run_ret.
Qed.

Lemma process_media (p : PendingUpload) (f : FileInfo) (w : World) :
  upload_conversations st !! (msg_chat_id m, user_id) = Some UPLOADING →
  pending_uploads w !! user_id = Some p →
  extract_file_info m = Some f →
  run (process_update BOT_USERNAME ADMIN_IDS st (media user_id m)) w
  = (Ok st,
     add_trace
       [EvReplyText (msg_chat_id m)
          (TxtFileReceived (file_name f) (length (pu_files p ++ [f]))) []]
       (set_pending_uploads
          (<[user_id := {| pu_category_id := pu_category_id p;
                           pu_files := pu_files p ++ [f] |}]>
             (pending_uploads w)) w)).
Proof.
  intros Hst Hp Hf. unfold process_update.
  rewrite route_media by (done || by eapply extract_file_info_is_media).
  change (inc_update (media user_id m)) with (message_update user_id m).
  by rewrite run_bind, (handle_media_run user_id m p f), run_ret.
Qed.

(** In an open upload conversation [/upload] is handed to no handler. *)
Lemma process_upload_in_conversation (args : list string) (w : World) :
  upload_conversations st !! (msg_chat_id m, user_id) = Some UPLOADING →
  is_media (message_update user_id m) = false →
  run (process_update BOT_USERNAME ADMIN_IDS st
         (command user_id m "upload" args)) w
  = (Ok st, w).
Proof.
  intros Hst Hm. unfold process_update.
  by rewrite route_upload_in_conversation.
Qed.

Lemma process_finish_upload (p : PendingUpload) (s : Store) (w : World) :
  upload_conversations st !! (msg_chat_id m, user_id) = Some UPLOADING →
  is_media (message_update user_id m) = false →
  healthy w →
  pending_uploads w !! user_id = Some p →
  pu_files p ≠ [] →
  batch_insert (now w) (db w) (pu_category_id p) (pu_files p) = inr s →
  run (process_update BOT_USERNAME ADMIN_IDS st
         (command user_id m "finish_upload" [])) w
  = (Ok (set_upload_conversations
           (delete (msg_chat_id m, user_id) (upload_conversations st)) st),
     after s
       [batch_event (pu_category_id p) (pu_files p); EvCommit;
        EvReplyText (msg_chat_id m)
          (TxtFilesAdded (length (pu_files p))
             (generate_category_link BOT_USERNAME (pu_category_id p))) []]
       (set_pending_uploads (delete user_id (pending_uploads w)) w)).
Proof.
  intros Hst Hm Hw Hp Hne Hb. unfold process_update.
  rewrite route_finish_upload by done.
  change (inc_update (command user_id m "finish_upload" []))
    with (message_update user_id m).
  by rewrite run_bind,
    (finish_upload_healthy BOT_USERNAME user_id m p s w), run_ret.
Qed.
End Steps.

(** The button [add_<category>] of an administrator goes to
    [start_adding_files], conversation or not. *)
Lemma process_add_button (BOT_USERNAME : string) (ADMIN_IDS : list Z)
    (st : Conversations) (q : CallbackQuery) (cid : string) (w : World) :
  from_user q ∈ ADMIN_IDS →
  data q = "add_" +:+ cid →
  run (process_update BOT_USERNAME ADMIN_IDS st (pressed q)) w
  = (Ok st,
     add_trace [EvEditMessageText TxtAddingStarted []]
       (set_pending_uploads
          (<[from_user q := fresh_upload cid]> (pending_uploads w))
          (add_trace [EvAnswer] w))).
Proof.
  intros Hadmin Hdata. unfold process_update. rewrite route_pressed.
  change (inc_update (pressed q)) with (button_update q).
  assert (run (button_handler ADMIN_IDS (button_update q)) w
          = run (start_adding_files q cid (from_user q))
              (add_trace [EvAnswer] w)) as Hpress.
  { unfold button_handler, is_admin. cbn [callback_query button_update].
    rewrite run_bind, run_emit, bool_decide_true, Hdata by done.
    by destruct cid. }
  by rewrite run_bind, Hpress, start_adding_files_run, run_ret.
Qed.

(** C4 — a second upload-start while an upload is open, as the program
    handles it.  The administrator sends [/upload A], a file [X], a
    second upload-start for [B], a file [Y] and [/finish_upload], all in
    one chat, on a healthy backend with both categories stored and both
    files new.

    By command the second start is lost: the upload conversation is
    built without [allow_reentry] and [/upload] is registered nowhere
    else, so in the open conversation [/upload B] is handed to no
    handler and changes nothing, not even the trace; [X] and [Y] are both
    stored, in [A].  By the inline button the session is replaced: only
    [Y] is stored, in [B].  [upload_command] itself, where it is called,
    replaces the session by a fresh one for [B]. *)
Theorem second_upload_command_is_not_dispatched (BOT_USERNAME : string)
    (ADMIN_IDS : list Z) (w : World) (st : Conversations) (user_id : Z)
    (A B : string) (m_start m_x m_second m_y m_finish : Message)
    (query : CallbackQuery) (fX fY : FileInfo) :
  healthy w →
  user_id ∈ ADMIN_IDS →
  category_exists (db w) A = true →
  category_exists (db w) B = true →
  extract_file_info m_x = Some fX →
  extract_file_info m_y = Some fY →
  file_id fX ∉ row_file_id <$> files (db w) →
  file_id fY ∉ row_file_id <$> files (db w) →
  file_id fX ≠ file_id fY →
  is_media (message_update user_id m_second) = false →
  is_media (message_update user_id m_finish) = false →
  msg_chat_id m_x = msg_chat_id m_start →
  msg_chat_id m_second = msg_chat_id m_start →
  msg_chat_id m_y = msg_chat_id m_start →
  msg_chat_id m_finish = msg_chat_id m_start →
  upload_conversations st !! (msg_chat_id m_start, user_id) = None →
  from_user query = user_id →
  data query = "add_" +:+ B →
  let dispatch := process_updates BOT_USERNAME ADMIN_IDS st in
  let by_command :=
    dispatch [command user_id m_start "upload" [A]; media user_id m_x;
              command user_id m_second "upload" [B]; media user_id m_y;
              command user_id m_finish "finish_upload" []] in
  let by_button :=
    dispatch [command user_id m_start "upload" [A]; media user_id m_x;
              pressed query; media user_id m_y;
              command user_id m_finish "finish_upload" []] in
  (∀ st1 w1,
     upload_conversations st1 !! (msg_chat_id m_start, user_id)
     = Some UPLOADING →
     run (process_update BOT_USERNAME ADMIN_IDS st1
            (command user_id m_second "upload" [B])) w1
     = (Ok st1, w1))
  ∧ (files (db (run by_command w).2)
     = files (db w)
       ++ [new_file_row (now w) (db w) A fX;
           new_file_row (now w) (append_file_row (now w) (db w) A fX) A fY]
     ∧ pending_uploads (run by_command w).2 !! user_id = None)
  ∧ (files (db (run by_button w).2)
     = files (db w) ++ [new_file_row (now w) (db w) B fY]
     ∧ pending_uploads (run by_button w).2 !! user_id = None)
  ∧ (∀ w1, healthy w1 → db w1 = db w →
       pending_uploads
         (run (upload_command ADMIN_IDS (message_update user_id m_second)
                 [B]) w1).2 !! user_id
       = Some (fresh_upload B)).
Proof.
  intros Hw Hadmin HA HB HX HY HfX HfY Hne Hsecond Hfinish Hcx Hcs Hcy Hcf
    Hst Hq Hdata dispatch by_command by_button.
  subst by_command by_button dispatch.
  set (key := (msg_chat_id m_start, user_id)) in *.
  set (st1 := set_upload_conversations
                (<[key := UPLOADING]> (upload_conversations st)) st).
  assert (upload_conversations st1 !! key = Some UPLOADING) as Hst1
    by apply lookup_insert_eq.
  (* the two updates both runs begin with *)
  destruct (process_upload_entry BOT_USERNAME ADMIN_IDS st user_id m_start
              A [] w Hw Hadmin HA Hst) as [e1 H1].
  fold key in H1. fold st1 in H1.
  set (w1 := set_pending_uploads _ (after (db w) e1 w)) in H1.
  assert (run (process_update BOT_USERNAME ADMIN_IDS st1 (media user_id m_x))
            w1
          = (Ok st1,
             add_trace
               [EvReplyText (msg_chat_id m_x)
                  (TxtFileReceived (file_name fX) 1) []]
               (set_pending_uploads
                  (<[user_id := {| pu_category_id := A; pu_files := [fX] |}]>
                     (pending_uploads w1)) w1))) as H2.
  { apply (process_media BOT_USERNAME ADMIN_IDS st1 user_id m_x
             (fresh_upload A) fX w1); [by rewrite Hcx| |done].
    apply lookup_insert_eq. }
  set (w2 := add_trace _ (set_pending_uploads _ w1)) in H2.
  split; [|split; [|split]].
  - intros st' w' Hst'.
    apply process_upload_in_conversation; [by rewrite Hcs|done].
  - cbn [process_updates].
    rewrite run_bind, run_try_except, H1.
    rewrite run_bind, run_try_except, H2.
    rewrite run_bind, run_try_except.
    rewrite (process_upload_in_conversation BOT_USERNAME ADMIN_IDS st1
               user_id m_second [B] w2) by (by rewrite ?Hcs).
    rewrite run_bind, run_try_except.
    rewrite (process_media BOT_USERNAME ADMIN_IDS st1 user_id m_y
               {| pu_category_id := A; pu_files := [fX] |} fY w2);
      [|by rewrite Hcy|apply lookup_insert_eq|done].
    cbn [pu_category_id pu_files app].
    set (w4 := add_trace _ (set_pending_uploads _ w2)).
    rewrite run_bind, run_try_except.
    rewrite (process_finish_upload BOT_USERNAME ADMIN_IDS st1 user_id
               m_finish {| pu_category_id := A; pu_files := [fX; fY] |}
               (append_file_row (now w)
                  (append_file_row (now w) (db w) A fX) A fY) w4).
    + rewrite run_ret. cbn [snd db after files append_file_row].
      split; [by rewrite <- app_assoc|].
      cbn [pending_uploads after set_pending_uploads].
      apply lookup_delete_eq.
    + by rewrite Hcf.
    + done.
    + by destruct Hw.
    + apply lookup_insert_eq.
    + done.
    + cbn [pu_category_id pu_files batch_insert sem insert_file_do_nothing].
      change (db w4) with (db w). change (now w4) with (now w).
      unfold file_id_stored. rewrite bool_decide_false by done. rewrite HA.
      rewrite bool_decide_false.
      * change (category_exists (append_file_row _ _ _ _) A)
          with (category_exists (db w) A). by rewrite HA.
      * cbn [files append_file_row]. rewrite fmap_app.
        intros Hin. apply elem_of_app in Hin as [Hin|Hin]; [done|].
        apply list_elem_of_singleton in Hin. by apply Hne.
  - cbn [process_updates].
    rewrite run_bind, run_try_except, H1.
    rewrite run_bind, run_try_except, H2.
    rewrite run_bind, run_try_except.
    rewrite (process_add_button BOT_USERNAME ADMIN_IDS st1 query B w2)
      by (done || by rewrite Hq).
    rewrite Hq.
    set (w3 := add_trace _ (set_pending_uploads _ (add_trace _ w2))).
    rewrite run_bind, run_try_except.
    rewrite (process_media BOT_USERNAME ADMIN_IDS st1 user_id m_y
               (fresh_upload B) fY w3);
      [|by rewrite Hcy|apply lookup_insert_eq|done].
    cbn [pu_category_id pu_files fresh_upload app].
    set (w4 := add_trace _ (set_pending_uploads _ w3)).
    rewrite run_bind, run_try_except.
    rewrite (process_finish_upload BOT_USERNAME ADMIN_IDS st1 user_id
               m_finish {| pu_category_id := B; pu_files := [fY] |}
               (append_file_row (now w) (db w) B fY) w4).
    + rewrite run_ret. cbn [snd db after files append_file_row].
      split; [done|].
      cbn [pending_uploads after set_pending_uploads].
      apply lookup_delete_eq.
    + by rewrite Hcf.
    + done.
    + by destruct Hw.
    + apply lookup_insert_eq.
    + done.
    + cbn [pu_category_id pu_files batch_insert sem insert_file_do_nothing].
      change (db w4) with (db w). change (now w4) with (now w).
      unfold file_id_stored. rewrite bool_decide_false by done.
      by rewrite HB.
  - intros w' Hw' Hdb.
    destruct (upload_command_healthy ADMIN_IDS user_id m_second B [] w')
      as [evs Hrun]; [done|done|by rewrite Hdb|].
    rewrite Hrun. cbn [snd pending_uploads set_pending_uploads].
    apply lookup_insert_eq.
Qed.

(** * The claims on the small instance *)

Lemma healthy_sample_world : healthy sample_world.
Proof. by split. Qed.

Lemma admin_access_bypasses_gate_witness :
  42 ∈ sample_admins
  ∧ ∃ evs,
      trace (run (handle_category_access sample_admins
                    (PyUpdate (message_update 42 text_message)) "cat1")
               sample_world).2
      = trace sample_world ++ evs
      ∧ Forall (λ e, is_gate_event e = false) evs.
Proof.
  assert (42 ∈ sample_admins) as Hadmin by (by left).
  split; [exact Hadmin|].
  exact (proj2 (admin_access_bypasses_gate sample_admins sample_world
                  (message_update 42 text_message) "cat1" Hadmin)).
Defined.


Lemma recheck_button_raises_witness :
  (callback_query recheck_update = Some recheck_query
   ∧ data recheck_query = "check_membership_" +:+ "cat1")
  ∧ run (button_handler sample_admins recheck_update) sample_world
    = (Raise AttributeError, add_trace [EvAnswer] sample_world).
Proof.
  split; [by split|].
  exact (recheck_button_raises sample_admins sample_world recheck_update
           recheck_query "cat1" eq_refl eq_refl).
Defined.

Lemma second_upload_command_is_not_dispatched_witness :
  (healthy sample_world
   ∧ 42 ∈ sample_admins
   ∧ category_exists (db sample_world) "cat1" = true
   ∧ category_exists (db sample_world) "cat2" = true
   ∧ extract_file_info (document_message "X") = Some (document_info "X")
   ∧ extract_file_info (document_message "Y") = Some (document_info "Y")
   ∧ ("X" ∉ row_file_id <$> files (db sample_world))
   ∧ ("Y" ∉ row_file_id <$> files (db sample_world))
   ∧ is_media (message_update 42 text_message) = false
   ∧ upload_conversations no_conversations !! (42, 42) = None
   ∧ data add_query = "add_" +:+ "cat2")
  ∧ files (db (run (process_updates "bot" sample_admins no_conversations
                      [command 42 text_message "upload" ["cat1"];
                       media 42 (document_message "X");
                       command 42 text_message "upload" ["cat2"];
                       media 42 (document_message "Y");
                       command 42 text_message "finish_upload" []])
                 sample_world).2)
    = files sample_store
      ++ [new_file_row 10 sample_store "cat1" (document_info "X");
          new_file_row 10
            (append_file_row 10 sample_store "cat1" (document_info "X"))
            "cat1" (document_info "Y")].
Proof.
  assert (42 ∈ sample_admins) as Hadmin by (by left).
  assert ("X" ∉ row_file_id <$> files (db sample_world)) as HX
    by compute_done.
  assert ("Y" ∉ row_file_id <$> files (db sample_world)) as HY
    by compute_done.
  assert (file_id (document_info "X") ≠ file_id (document_info "Y")) as Hne
    by discriminate.
  split; [by split_and!|].
  exact (proj1 (proj1 (proj2
           (second_upload_command_is_not_dispatched "bot" sample_admins
              sample_world no_conversations 42 "cat1" "cat2" text_message
              (document_message "X") text_message (document_message "Y")
              text_message add_query (document_info "X") (document_info "Y")
              healthy_sample_world Hadmin eq_refl eq_refl eq_refl eq_refl
              HX HY Hne eq_refl eq_refl eq_refl eq_refl eq_refl eq_refl
              eq_refl eq_refl eq_refl)))).
Defined.

Lemma execute_with_retry_policy_witness :
  faults lost_world
  = Some OperationalError :: None :: Some OperationalError :: None
      :: Some OperationalError :: []
  ∧ (run (DatabaseManager._execute_with_retry select_channels) lost_world).1
    = Raise OperationalError.
Proof.
  split; [reflexivity|].
  exact (proj1 (proj1 (proj2 (execute_with_retry_policy select_channels
                                lost_world)) None None [] eq_refl)).
Defined.


Lemma NoDup_sample_categories : NoDup (cat_id <$> categories (db sample_world)).
Proof. compute_done. Qed.

Lemma NoDup_sample_serials : NoDup (row_serial <$> files (db sample_world)).
Proof. compute_done. Qed.

Lemma get_categories_sorted_batched_witness :
  (healthy sample_world ∧ NoDup (cat_id <$> categories (db sample_world)))
  ∧ ∃ cats,
      cats ≡ₚ categories (db sample_world)
      ∧ descending cat_created_at cats
      ∧ (run DatabaseManager.get_categories sample_world).1
        = Ok (category_entry (db sample_world) <$> cats).
Proof.
  split; [split; [exact healthy_sample_world | exact NoDup_sample_categories]|].
  destruct (get_categories_sorted_batched sample_world healthy_sample_world
              NoDup_sample_categories) as (cats & Hperm & Hdesc & Hrun & _).
  exists cats. by split_and!.
Defined.

Lemma delete_file_among_ties_witness :
  (healthy batch_world
   ∧ NoDup (row_serial <$> files (db batch_world))
   ∧ 0 ≤ 1)
  ∧ files_of_category (db batch_world) "cat1"
    = [first_of_batch; second_of_batch]
  ∧ files (db (run (DatabaseManager.delete_file "cat1" 1)
                 (set_ties (λ _ _ _, row_serial first_of_batch)
                    batch_world)).2)
    = [second_of_batch].
Proof.
  assert (healthy batch_world) as Hw by (by split).
  assert (NoDup (row_serial <$> files (db batch_world))) as Hnd
    by compute_done.
  assert (0 ≤ 1) as Hidx by lia.
  assert (first_of_batch
          ∈ filter (λ r, row_category_id r = "cat1") (files (db batch_world)))
    as Hin by (by left).
  split; [by split_and!|]. split; [reflexivity|].
  exact (proj2 (proj2 (delete_file_among_ties batch_world "cat1" 1 Hw Hnd
                         Hidx))
           second_of_batch first_of_batch eq_refl Hin eq_refl).
Defined.

Lemma view_category_files_sends_nothing_witness :
  (healthy video_world
   ∧ category_view (db video_world) "cat1" = Some video_category
   ∧ c_files video_category ≠ []
   ∧ Forall (λ f, file_type f ∉ ["document"; "photo"]) (c_files video_category))
  ∧ run (view_category_files view_query "cat1") video_world
    = (Ok (),
       after video_store
         [EvExecute (sql (select_category "cat1")) ["cat1"]; EvCommit;
          EvExecute (sql (select_files_of "cat1")) ["cat1"]; EvCommit;
          EvEditMessageText TxtSendingFilesToAdmin []; EvSleep 500]
         video_world).
Proof.
  assert (healthy video_world) as Hw by (by split).
  assert (c_files video_category ≠ []) as Hne by discriminate.
  assert (Forall (λ f, file_type f ∉ ["document"; "photo"])
            (c_files video_category)) as Hall.
  { repeat constructor. intros Hin.
    apply elem_of_cons in Hin as [Heq|Hin]; [discriminate Heq|].
    apply list_elem_of_singleton in Hin. discriminate Hin. }
  split; [by split_and!|].
  exact (view_category_files_sends_nothing video_world view_query "cat1"
           video_category Hw eq_refl Hne Hall).
Defined.

(** * Further properties of the code *)

(** * Integrity of the store *)

Section Keeps.
Context (I : World → Prop).
Hypothesis I_trace : ∀ evs w, I w → I (add_trace evs w).
Hypothesis I_faults : ∀ fs w, I w → I (set_faults fs w).

Lemma keeps_ret {A} (a : A) : keeps I (mret a).
Proof. by intros w. Qed.

Lemma keeps_raise {A} (e : exn) : keeps I (raise e : M A).
Proof. by intros w. Qed.

Lemma keeps_get_world : keeps I get_world.
Proof. by intros w. Qed.

Lemma keeps_modify (f : World → World) :
  (∀ w, I w → I (f w)) → keeps I (modify f).
Proof. intros Hf w Hw. by apply Hf. Qed.

Lemma keeps_emit (e : event) : keeps I (emit e).
Proof. intros w Hw. by apply I_trace. Qed.

Lemma keeps_driver_call : keeps I driver_call.
Proof.
  intros w Hw. unfold run, driver_call.
  destruct (faults w) as [|[e|] fs]; simpl; by try apply I_faults.
Qed.

Lemma keeps_bind {A B} (m : M A) (f : A → M B) :
  keeps I m → (∀ a, keeps I (f a)) → keeps I (m ≫= f).
Proof.
  intros Hm Hf w Hw. rewrite run_bind. specialize (Hm w Hw).
  destruct (run m w) as [[a|e] w1]; simpl in *; [by apply Hf | done].
Qed.

Lemma keeps_try_except {A} (m : M A) (h : exn → M A) :
  keeps I m → (∀ e, keeps I (h e)) → keeps I (try_except m h).
Proof.
  intros Hm Hh w Hw. rewrite run_try_except. specialize (Hm w Hw).
  destruct (run m w) as [[a|e] w1]; simpl in *; [done | by apply Hh].
Qed.
End Keeps.

Ltac keeps_step :=
  first
    [ apply keeps_ret | apply keeps_raise | apply keeps_get_world
    | apply keeps_driver_call; by auto
    | apply keeps_emit; by auto
    | apply keeps_bind; [|intros ?]
    | apply keeps_try_except; [|intros ?] ].



(** Whatever is kept by the four calls of the driver is kept by every
    operation of [DatabaseManager]. *)
Section Operations.
Context (I : World → Prop).
Hypothesis I_trace : ∀ evs w, I w → I (add_trace evs w).
Hypothesis I_faults : ∀ fs w, I w → I (set_faults fs w).
Hypothesis I_execute : ∀ A (q : statement A), keeps I (cursor_execute q).
Hypothesis I_commit : keeps I commit.
Hypothesis I_rollback : keeps I rollback.
Hypothesis I_connect : keeps I connect.
Hypothesis I_executemany :
  ∀ cid (batch : list FileInfo),
    keeps I (DatabaseManager.executemany (insert_file_do_nothing cid <$> batch)).

Lemma keeps_execute_with_retry {A} (q : statement A) :
  keeps I (DatabaseManager._execute_with_retry q).
Proof.
  assert (∀ a, keeps I (DatabaseManager.attempt_round q a)) as Hround.
  { intros a. unfold DatabaseManager.attempt_round, log, sleep.
    apply keeps_try_except.
    - apply keeps_bind; [by apply I_execute|]. intros r.
      apply keeps_bind; [apply I_commit | intros _; apply keeps_ret].
    - intros e. destruct e; try case_bool_decide;
        repeat first [ apply I_rollback | apply I_connect | keeps_step ]. }
  unfold DatabaseManager._execute_with_retry.
  induction (seqZ 0 DatabaseManager.max_retries) as [|a rest IH]; simpl.
  - apply keeps_ret.
  - apply keeps_bind; [apply Hround|].
    intros [|r]; [done | apply keeps_ret].
Qed.

Lemma operations_keep (w : World) (cid name chid link : string)
    (user file_index : Z) (f : FileInfo) (batch : list FileInfo) :
  I w →
  I (run (DatabaseManager.add_category cid name user) w).2
  ∧ I (run DatabaseManager.get_categories w).2
  ∧ I (run (DatabaseManager.get_category cid) w).2
  ∧ I (run (DatabaseManager.delete_category cid) w).2
  ∧ I (run (DatabaseManager.add_file_to_category cid f) w).2
  ∧ I (run (DatabaseManager.add_files_to_category cid batch) w).2
  ∧ I (run (DatabaseManager.delete_file cid file_index) w).2
  ∧ I (run (DatabaseManager.add_channel chid name link) w).2
  ∧ I (run DatabaseManager.get_channels w).2
  ∧ I (run (DatabaseManager.delete_channel chid) w).2.
Proof.
  intros Hw. split_and!.
  - apply (keeps_try_except I); [|intros e; unfold log; repeat keeps_step|done].
    apply keeps_bind; [|intros _; apply keeps_ret].
    apply keeps_execute_with_retry.
  - apply (keeps_try_except I); [|intros e; unfold log; repeat keeps_step|done].
    apply keeps_bind;
      [apply keeps_execute_with_retry|].
    intros cats. destruct (default [] cats) as [|c l]; [apply keeps_ret|].
    apply keeps_bind; [|intros m; apply keeps_ret].
    cbn [fmap list_fmap].
    apply keeps_bind; [|intros m; apply keeps_ret].
    apply keeps_execute_with_retry.
  - apply (keeps_try_except I); [|intros e; unfold log; repeat keeps_step|done].
    apply keeps_bind;
      [apply keeps_execute_with_retry|].
    intros [cat|]; [|apply keeps_ret].
    apply keeps_bind; [|intros m; apply keeps_ret].
    apply keeps_execute_with_retry.
  - apply (keeps_try_except I); [|intros e; unfold log; repeat keeps_step|done].
    apply keeps_bind; [|intros _; apply keeps_ret].
    apply keeps_execute_with_retry.
  - apply (keeps_try_except I);
      [|intros e; unfold log; destruct e; repeat keeps_step|done].
    apply keeps_bind; [|intros _; apply keeps_ret].
    apply keeps_execute_with_retry.
  - apply (keeps_try_except I); [| |done].
    + unfold DatabaseManager.cursor_executemany.
      apply keeps_bind; [|intros _].
      * apply keeps_bind; [by apply keeps_emit|]. intros _.
        apply keeps_bind; [by apply keeps_driver_call|]. intros _.
        apply I_executemany.
      * apply keeps_bind; [apply I_commit|intros _; apply keeps_ret].
    + intros e. unfold log.
      apply keeps_bind; [apply I_rollback|]. intros _.
      repeat keeps_step.
  - apply (keeps_try_except I); [| |done].
    + apply keeps_bind; [apply keeps_get_world|]. intros w0.
      apply keeps_bind; [apply I_execute|].
      intros [serial|]; [|apply keeps_ret].
      apply keeps_bind; [apply I_execute|].
      intros _.
      apply keeps_bind; [apply I_commit|intros _; apply keeps_ret].
    + intros e. unfold log.
      apply keeps_bind; [apply I_rollback|]. intros _.
      repeat keeps_step.
  - apply (keeps_try_except I);
      [|intros e; unfold log; destruct e; repeat keeps_step|done].
    apply keeps_bind; [|intros _; apply keeps_ret].
    apply keeps_execute_with_retry.
  - apply (keeps_try_except I); [|intros e; unfold log; repeat keeps_step|done].
    apply keeps_bind; [|intros m; apply keeps_ret].
    apply keeps_execute_with_retry.
  - apply (keeps_try_except I); [|intros e; unfold log; repeat keeps_step|done].
    apply keeps_bind; [|intros _; apply keeps_ret].
    apply keeps_execute_with_retry.
Qed.
End Operations.

Lemma keeps_any_cursor_execute (I : World → Prop) {A} (q : statement A) :
  (∀ evs w, I w → I (add_trace evs w)) →
  (∀ fs w, I w → I (set_faults fs w)) →
  (∀ s w, I w → I (set_work s w)) →
  keeps I (cursor_execute q).
Proof.
  intros Ht Hf Hwk. unfold cursor_execute.
  apply keeps_bind; [by apply keeps_emit|]. intros _.
  apply keeps_bind; [by apply keeps_driver_call|]. intros _.
  intros w Hw. rewrite run_bind, run_get_world.
  destruct (sem q (now w) (work w)) as [e|[s r]] eqn:Hsem; [done|].
  rewrite run_bind, run_modify, run_ret. by apply Hwk.
Qed.

Lemma keeps_any_executemany (I : World → Prop) cid (batch : list FileInfo) :
  (∀ s w, I w → I (set_work s w)) →
  keeps I (DatabaseManager.executemany (insert_file_do_nothing cid <$> batch)).
Proof.
  intros Hwk. induction batch as [|f rest IH]; [apply keeps_ret|].
  intros w Hw. cbn [fmap list_fmap DatabaseManager.executemany].
  rewrite run_bind, run_get_world.
  destruct (sem (insert_file_do_nothing cid f) (now w) (work w))
    as [e|[s r]] eqn:Hsem; [done|].
  rewrite run_bind, run_modify. by apply IH, Hwk.
Qed.

(** The calls into the driver leave the sessions alone. *)
Lemma keeps_sessions_cursor_execute (w0 : World) {A} (q : statement A) :
  keeps (same_sessions w0) (cursor_execute q).
Proof. by apply keeps_any_cursor_execute. Qed.

Lemma keeps_sessions_commit (w0 : World) : keeps (same_sessions w0) commit.
Proof. unfold commit. repeat keeps_step; by apply keeps_modify. Qed.

Lemma keeps_sessions_rollback (w0 : World) : keeps (same_sessions w0) rollback.
Proof. unfold rollback. repeat keeps_step; by apply keeps_modify. Qed.

Lemma keeps_sessions_connect (w0 : World) : keeps (same_sessions w0) connect.
Proof. unfold connect. repeat keeps_step; by apply keeps_modify. Qed.

Lemma keeps_sessions_executemany (w0 : World) cid (batch : list FileInfo) :
  keeps (same_sessions w0)
    (DatabaseManager.executemany (insert_file_do_nothing cid <$> batch)).
Proof. by apply keeps_any_executemany. Qed.

(** The two writes the handlers of a session end with. *)
Lemma session_writes_keep_sessions (w : World) (cid chid name link : string)
    (batch : list FileInfo) :
  same_sessions w (run (DatabaseManager.add_files_to_category cid batch) w).2
  ∧ same_sessions w (run (DatabaseManager.add_channel chid name link) w).2.
Proof.
  destruct (operations_keep (same_sessions w)) with
    (w := w) (cid := cid) (name := name) (chid := chid) (link := link)
    (user := 0) (file_index := 0) (batch := batch)
    (f := {| file_id := ""; file_name := ""; file_size := 0;
             file_type := ""; caption := "" |})
    as (_ & _ & _ & _ & _ & Hfiles & _ & Hchannel & _); try done.
  - intros A q. apply keeps_sessions_cursor_execute.
  - apply keeps_sessions_commit.
  - apply keeps_sessions_rollback.
  - apply keeps_sessions_connect.
  - intros. apply keeps_sessions_executemany.
Qed.

(** X2 — no operation of [DatabaseManager] touches the two session
    dictionaries of the bot, [pending_uploads] and [pending_channel_data],
    whatever the backend does. *)
Theorem persistence_leaves_sessions (w : World) (cid name chid link : string)
    (user file_index : Z) (f : FileInfo) (batch : list FileInfo) :
  same_sessions w (run (DatabaseManager.add_category cid name user) w).2
  ∧ same_sessions w (run DatabaseManager.get_categories w).2
  ∧ same_sessions w (run (DatabaseManager.get_category cid) w).2
  ∧ same_sessions w (run (DatabaseManager.delete_category cid) w).2
  ∧ same_sessions w (run (DatabaseManager.add_file_to_category cid f) w).2
  ∧ same_sessions w (run (DatabaseManager.add_files_to_category cid batch) w).2
  ∧ same_sessions w (run (DatabaseManager.delete_file cid file_index) w).2
  ∧ same_sessions w (run (DatabaseManager.add_channel chid name link) w).2
  ∧ same_sessions w (run DatabaseManager.get_channels w).2
  ∧ same_sessions w (run (DatabaseManager.delete_channel chid) w).2.
Proof.
  apply (operations_keep (same_sessions w)); try done.
  - intros A q. apply keeps_sessions_cursor_execute.
  - apply keeps_sessions_commit.
  - apply keeps_sessions_rollback.
  - apply keeps_sessions_connect.
  - intros. apply keeps_sessions_executemany.
Qed.



(** * Single operations on a healthy backend *)

Lemma filter_fmap {A B} (f : A → B) (P : B → Prop) `{!∀ y, Decision (P y)}
    (l : list A) :
  filter P (f <$> l) = f <$> filter (λ x, P (f x)) l.
Proof.
  induction l as [|x l IH]; [done|].
  rewrite fmap_cons, !filter_cons. case_decide; [|done].
  by rewrite fmap_cons, IH.
Qed.

Lemma retried_write_healthy {A} (q : statement A) (h : exn → M bool)
    (w : World) :
  healthy w →
  sem q (now w) (db w) ≠ inl OperationalError →
  run (try_except (DatabaseManager._execute_with_retry q;; mret true) h) w
  = match sem q (now w) (db w) with
    | inr (s, _) => (Ok true, after s [EvExecute (sql q) (params q); EvCommit] w)
    | inl e =>
        run (h e) (after (db w) [EvExecute (sql q) (params q); EvRollback] w)
    end.
Proof.
  intros Hw Hop.
  rewrite run_try_except, run_bind, execute_with_retry_healthy by done.
  by destruct (sem q (now w) (db w)) as [e|[s r]].
Qed.

(** The row a new category is stored as. *)
Lemma no_files_of_unknown_category (s : Store) (cid : string) :
  wf_store s → cid ∉ cat_id <$> categories s → files_of_category s cid = [].
Proof.
  intros Hwf Hcid. unfold files_of_category.
  rewrite filter_none; [done|].
  eapply Forall_impl; [apply (wf_foreign_key s Hwf)|].
  simpl. intros r Hr Heq. by rewrite Heq in Hr.
Qed.

Lemma category_view_new (s : Store) (cid name : string) (user now : Z) :
  wf_store s →
  cid ∉ cat_id <$> categories s →
  category_view
    (set_categories
       (categories s
        ++ [{| cat_id := cid; cat_name := name; cat_created_by := user;
               cat_created_at := now |}]) s) cid
  = Some {| c_name := name; c_files := []; c_created_by := user;
            c_created_at := now |}.
Proof.
  intros Hwf Hid. unfold category_view.
  change (files_of_category (set_categories _ s) cid)
    with (files_of_category s cid).
  rewrite no_files_of_unknown_category by done.
  cbn [categories set_categories]. rewrite filter_app.
  rewrite (filter_none _ (categories s)).
  - by rewrite filter_cons, decide_True.
  - apply Forall_forall. intros c Hc Heq. apply Hid.
    rewrite <- Heq. by apply list_elem_of_fmap_2.
Qed.

(** X4 — [add_category] on a healthy backend and an intact store: with
    an id and a name that are both new it returns [True], appends the
    category with its creator and the current time, leaves the files
    alone, and [get_category] then returns the category with no files;
    with an id or a name that is taken it returns [False] and the store
    is unchanged. *)
Theorem add_category_then_get (w : World) (cid name : string) (user : Z) :
  healthy w →
  wf_store (db w) →
  let out := run (DatabaseManager.add_category cid name user) w in
  (cid ∉ cat_id <$> categories (db w) →
   name ∉ cat_name <$> categories (db w) →
   out.1 = Ok true
   ∧ categories (db out.2)
     = categories (db w)
       ++ [{| cat_id := cid; cat_name := name; cat_created_by := user;
              cat_created_at := now w |}]
   ∧ files (db out.2) = files (db w)
   ∧ (run (DatabaseManager.get_category cid) out.2).1
     = Ok (Some {| c_name := name; c_files := []; c_created_by := user;
                   c_created_at := now w |}))
  ∧ (cid ∈ cat_id <$> categories (db w)
     ∨ name ∈ cat_name <$> categories (db w) →
     out.1 = Ok false ∧ db out.2 = db w).
Proof.
  intros Hw Hwf out. subst out. unfold DatabaseManager.add_category.
  rewrite retried_write_healthy;
    [|done|simpl; by destruct (_ || _)].
  cbn [sem insert_category]. split.
  - intros Hid Hname.
    rewrite (bool_decide_false _ Hid), (bool_decide_false _ Hname).
    cbn [orb fst snd db after]. split_and!; try done.
    rewrite get_category_healthy by (by apply healthy_after).
    cbn [fst db after]. f_equal. by apply category_view_new.
  - intros Hdup.
    assert (bool_decide (cid ∈ cat_id <$> categories (db w))
            || bool_decide (name ∈ cat_name <$> categories (db w)) = true)
      as ->.
    { apply orb_true_iff. rewrite !bool_decide_eq_true. tauto. }
    by rewrite run_bind, run_log, run_ret.
Qed.

(** X5 — [add_file_to_category] on a healthy backend: a [file_size]
    outside BIGINT is refused by the backend, rolled back, logged as an
    error and answered with [False]; for a size inside, a [file_id] that
    is already stored (in any category) is rolled back, logged as a
    warning and answered with [False]; a new file for a category that
    does not exist is answered with [False] and the store is unchanged; a
    new file for an existing category is appended as the last row,
    [True] is returned and [get_category] then lists the file. *)
Theorem add_file_to_category_cases (w : World) (cid : string) (f : FileInfo) :
  healthy w →
  let out := run (DatabaseManager.add_file_to_category cid f) w in
  (is_bigint (file_size f) = false →
   out = (Ok false,
          after (db w)
            [EvExecute (sql (insert_file cid f)) (file_params cid f);
             EvRollback; EvLog Error "Error adding file"] w))
  ∧ (is_bigint (file_size f) = true →
     (file_id f ∈ row_file_id <$> files (db w) →
      out = (Ok false,
             after (db w)
               [EvExecute (sql (insert_file cid f)) (file_params cid f);
                EvRollback; EvLog Warning "File already exists"] w))
     ∧ (file_id f ∉ row_file_id <$> files (db w) →
        cid ∉ cat_id <$> categories (db w) →
        out.1 = Ok false ∧ db out.2 = db w)
     ∧ (file_id f ∉ row_file_id <$> files (db w) →
        cid ∈ cat_id <$> categories (db w) →
        out.1 = Ok true
        ∧ files (db out.2)
          = files (db w) ++ [new_file_row (now w) (db w) cid f]
        ∧ categories (db out.2) = categories (db w)
        ∧ ∃ category,
            (run (DatabaseManager.get_category cid) out.2).1
            = Ok (Some category)
            ∧ f ∈ c_files category)).
Proof.
  intros Hw out. subst out. unfold DatabaseManager.add_file_to_category.
  rewrite retried_write_healthy;
    [|done|cbn [sem insert_file];
           by destruct (is_bigint (file_size f)),
                (file_id_stored (db w) (file_id f)),
                (category_exists (db w) cid)].
  cbn [sem insert_file]. unfold file_id_stored, category_exists. split.
  { intros ->. cbn [negb].
    by rewrite run_bind, run_log, run_ret, add_trace_after. }
  intros ->. cbn [negb]. split_and!.
  - intros Hdup. rewrite (bool_decide_true _ Hdup).
    rewrite run_bind, run_log, run_ret, add_trace_after. done.
  - intros Hfresh Hcat.
    rewrite (bool_decide_false _ Hfresh), (bool_decide_false _ Hcat).
    by rewrite run_bind, run_log, run_ret.
  - intros Hfresh Hcat.
    rewrite (bool_decide_false _ Hfresh), (bool_decide_true _ Hcat).
    cbn [fst snd db after]. split_and!; try done.
    rewrite get_category_healthy by (by apply healthy_after).
    cbn [fst db after].
    destruct (category_view_is_Some (append_file_row (now w) (db w) cid f) cid)
      as [category Hview].
    { unfold category_exists. by rewrite bool_decide_true. }
    exists category. split; [by rewrite Hview|].
    unfold category_view in Hview.
    destruct (head _) as [cat|]; [|done]. injection Hview as <-.
    cbn [c_files DatabaseManager.category_of].
    rewrite <- (file_dict_new_file_row (now w) (db w) cid f) at 1.
    apply list_elem_of_fmap_2. unfold files_of_category.
    apply elem_of_order_by, list_elem_of_filter. split; [done|].
    cbn [files append_file_row]. apply elem_of_app. right. by left.
Qed.

(** X6 — [delete_category] on a healthy backend returns [True] whether
    or not the category exists; afterwards neither the category nor any
    file of it is stored, [get_category] returns [None] for it, every
    other category reads as before and the channels are untouched. *)
Theorem delete_category_cascades (w : World) (cid : string) :
  healthy w →
  let out := run (DatabaseManager.delete_category cid) w in
  out.1 = Ok true
  ∧ (cid ∉ cat_id <$> categories (db out.2))
  ∧ (cid ∉ row_category_id <$> files (db out.2))
  ∧ (run (DatabaseManager.get_category cid) out.2).1 = Ok None
  ∧ (∀ other, other ≠ cid →
       category_view (db out.2) other = category_view (db w) other)
  ∧ channels (db out.2) = channels (db w).
Proof.
  intros Hw out. subst out. unfold DatabaseManager.delete_category.
  rewrite retried_write_healthy by done.
  cbn [sem delete_category_stmt fst snd db after].
  assert (filter (λ c, cat_id c = cid)
            (filter (λ c, cat_id c ≠ cid) (categories (db w))) = []) as Hnone.
  { apply filter_none, Forall_forall. intros c Hc.
    by apply list_elem_of_filter in Hc as [Hne _]. }
  split_and!.
  - done.
  - cbn [categories]. intros Hin.
    apply list_elem_of_fmap in Hin as (c & Heq & Hc).
    by apply list_elem_of_filter in Hc as [Hne _].
  - cbn [files]. intros Hin.
    apply list_elem_of_fmap in Hin as (r & Heq & Hr).
    by apply list_elem_of_filter in Hr as [Hne _].
  - rewrite get_category_healthy by (by apply healthy_after).
    cbn [fst db after]. unfold category_view. cbn [categories].
    by rewrite Hnone.
  - intros other Hother. unfold category_view, files_of_category.
    cbn [categories files].
    rewrite (filter_filter_absorb (λ c, cat_id c = other)) by congruence.
    rewrite (filter_filter_absorb (λ r, row_category_id r = other))
      by congruence.
    done.
  - done.
Qed.

Section OrderBySnoc.
Context {A : Type} (key : A → Z).

Lemma insert_by_snoc (a x : A) (l : list A) :
  key a ≤ key x → insert_by key a (l ++ [x]) = insert_by key a l ++ [x].
Proof.
  intros Hax. induction l as [|y l IH]; simpl.
  - by rewrite bool_decide_true.
  - case_bool_decide; [done|]. by rewrite IH.
Qed.

(** A row that is not older than the others comes last. *)
Lemma order_by_snoc (x : A) (l : list A) :
  Forall (λ y, key y ≤ key x) l →
  order_by key (l ++ [x]) = order_by key l ++ [x].
Proof.
  induction 1 as [|y l Hy _ IH]; [done|].
  simpl. rewrite IH. by apply insert_by_snoc.
Qed.
End OrderBySnoc.

(** X7 — [add_channel] on a healthy backend: a [channel_id] that is
    already registered is rolled back, logged as a warning and answered
    with [False]; a new one is answered with [True] and [get_channels]
    then returns the former channels and the new one, the new one last
    when no stored channel is dated after the current time. *)
Theorem add_channel_then_list (w : World) (chid name link : string) :
  healthy w →
  let out := run (DatabaseManager.add_channel chid name link) w in
  let new := {| channel_id := chid; channel_name := name;
                invite_link := link |} in
  (chid ∈ chan_channel_id <$> channels (db w) →
   out = (Ok false,
          after (db w)
            [EvExecute (sql (insert_channel chid name link)) [chid; name; link];
             EvRollback; EvLog Warning "Channel already exists"] w))
  ∧ (chid ∉ chan_channel_id <$> channels (db w) →
     out.1 = Ok true
     ∧ (∃ listed, (run DatabaseManager.get_channels out.2).1 = Ok listed
                  ∧ listed ≡ₚ channels_view (db w) ++ [new])
     ∧ (Forall (λ c, chan_created_at c ≤ now w) (channels (db w)) →
        (run DatabaseManager.get_channels out.2).1
        = Ok (channels_view (db w) ++ [new]))).
Proof.
  intros Hw out new. subst out new. unfold DatabaseManager.add_channel.
  rewrite retried_write_healthy;
    [|done|cbn [sem insert_channel]; by case_bool_decide].
  cbn [sem insert_channel]. split.
  - intros Hdup. rewrite (bool_decide_true _ Hdup).
    by rewrite run_bind, run_log, run_ret, add_trace_after.
  - intros Hfresh. rewrite (bool_decide_false _ Hfresh).
    cbn [fst snd]. rewrite get_channels_healthy by (by apply healthy_after).
    cbn [fst db after]. unfold channels_view. cbn [channels].
    split_and!.
    + done.
    + eexists. split; [done|]. by rewrite !order_by_perm, fmap_app.
    + intros Hclock. rewrite order_by_snoc by done. by rewrite fmap_app.
Qed.

(** X8 — [delete_channel] on a healthy backend returns [True] whether
    or not the channel is registered; [get_channels] then returns the
    former list without that channel, an unknown id changes nothing, and
    categories and files are untouched. *)
Theorem delete_channel_then_list (w : World) (chid : string) :
  healthy w →
  let out := run (DatabaseManager.delete_channel chid) w in
  out.1 = Ok true
  ∧ (run DatabaseManager.get_channels out.2).1
    = Ok (filter (λ c, channel_id c ≠ chid) (channels_view (db w)))
  ∧ (chid ∉ chan_channel_id <$> channels (db w) →
     channels (db out.2) = channels (db w))
  ∧ categories (db out.2) = categories (db w)
  ∧ files (db out.2) = files (db w).
Proof.
  intros Hw out. subst out. unfold DatabaseManager.delete_channel.
  rewrite retried_write_healthy by done.
  cbn [sem delete_channel_stmt fst snd]. split_and!; try done.
  - rewrite get_channels_healthy by (by apply healthy_after).
    cbn [fst db after]. unfold channels_view. cbn [channels].
    by rewrite filter_fmap, filter_order_by.
  - intros Habsent. cbn [db after channels]. apply filter_all, Forall_forall.
    intros c Hc Heq. apply Habsent. rewrite <- Heq.
    by apply list_elem_of_fmap_2.
Qed.

(** * Reading a category in two ways *)

Lemma NoDup_fmap_elem_eq {A B} (f : A → B) (l : list A) (x y : A) :
  NoDup (f <$> l) → x ∈ l → y ∈ l → f x = f y → x = y.
Proof.
  induction l as [|z l IH]; intros Hnd Hx Hy Heq; [by apply elem_of_nil in Hx|].
  rewrite fmap_cons in Hnd. apply NoDup_cons in Hnd as [Hz Hnd].
  apply elem_of_cons in Hx as [->|Hx], Hy as [->|Hy]; try done.
  - exfalso. apply Hz. rewrite Heq. by apply list_elem_of_fmap_2.
  - exfalso. apply Hz. rewrite <- Heq. by apply list_elem_of_fmap_2.
  - by apply IH.
Qed.

Lemma category_view_entry (s : Store) (cat : CategoryRow) :
  NoDup (cat_id <$> categories s) →
  cat ∈ categories s →
  category_view s (cat_id cat) = Some (category_entry s cat).2.
Proof.
  intros Hnd Hcat. unfold category_view, category_entry.
  destruct (filter (λ c, cat_id c = cat_id cat) (categories s))
    as [|c l] eqn:Hf.
  - assert (cat ∈ filter (λ c, cat_id c = cat_id cat) (categories s)) as Hin
      by by apply list_elem_of_filter.
    rewrite Hf in Hin. by apply elem_of_nil in Hin.
  - assert (c ∈ filter (λ c, cat_id c = cat_id cat) (categories s)) as Hin
      by (rewrite Hf; by left).
    apply list_elem_of_filter in Hin as [Hid Hc].
    assert (c = cat) as -> by by eapply (NoDup_fmap_elem_eq cat_id).
    done.
Qed.

(** X9 — on a healthy backend with unique category ids the two
    ways of reading agree: where [get_category] returns a category,
    [get_categories] lists under its id a category with the same name,
    creator and time of creation and with the same files, up to their
    order; where [get_category] returns [None], the id is not listed. *)
Theorem get_category_agrees_with_get_categories (w : World) (cid : string) :
  healthy w →
  NoDup (cat_id <$> categories (db w)) →
  ∃ listing,
    (run DatabaseManager.get_categories w).1 = Ok listing
    ∧ match (run (DatabaseManager.get_category cid) w).1 with
      | Ok (Some single) =>
          ∃ listed,
            (cid, listed) ∈ listing
            ∧ c_name listed = c_name single
            ∧ c_created_by listed = c_created_by single
            ∧ c_created_at listed = c_created_at single
            ∧ c_files listed ≡ₚ c_files single
      | Ok None => cid ∉ listing.*1
      | Raise _ => False
      end.
Proof.
  intros Hw Hnd.
  rewrite get_categories_healthy, get_category_healthy by done.
  cbn [fst]. unfold categories_view. eexists. split; [done|].
  destruct (category_view (db w) cid) as [single|] eqn:Hview.
  - exists single. split_and!; try done.
    unfold category_view in Hview.
    destruct (filter (λ c, cat_id c = cid) (categories (db w)))
      as [|cat l] eqn:Hf; [done|].
    injection Hview as <-.
    assert (cat ∈ filter (λ c, cat_id c = cid) (categories (db w))) as Hin
      by (rewrite Hf; by left).
    apply list_elem_of_filter in Hin as [<- Hcat].
    apply list_elem_of_fmap. exists cat. split; [done|].
    by apply elem_of_order_by.
  - intros Hin. apply list_elem_of_fmap in Hin as ([cid' listed] & -> & Hin).
    apply list_elem_of_fmap in Hin as (cat & Heq & Hcat).
    apply elem_of_order_by in Hcat. injection Heq as -> ->.
    cbn [fst] in Hview. by rewrite category_view_entry in Hview.
Qed.

(** * Media messages *)

Lemma or_default_nonempty (x : option string) (d : string) :
  d ≠ "" → or_default x d ≠ "".
Proof. intros Hd. unfold or_default. destruct x as [s|]; by try case_decide. Qed.

(** X10 — [extract_file_info] returns [None] exactly when the message
    carries none of the five kinds of media; what it returns has one of
    the five known types, a file name that is not empty and the caption
    of the message (the empty string when there is none); a document
    wins over every other attachment, and of the sizes of a photo the
    last one is taken. *)
Theorem extract_file_info_supported (m : Message) :
  (extract_file_info m = None
   ↔ document m = None ∧ photo m = [] ∧ video m = None
     ∧ audio m = None ∧ voice m = None)
  ∧ (∀ f, extract_file_info m = Some f →
       is_Some (kind_of_type (file_type f))
       ∧ file_name f ≠ ""
       ∧ caption f = or_default (msg_caption m) "")
  ∧ (∀ d, document m = Some d →
       ∃ f, extract_file_info m = Some f
            ∧ file_type f = "document" ∧ file_id f = att_file_id d)
  ∧ (∀ p, document m = None → last (photo m) = Some p →
       ∃ f, extract_file_info m = Some f
            ∧ file_type f = "photo" ∧ file_id f = att_file_id p).
Proof.
  unfold extract_file_info. split_and!.
  - destruct (document m), (last (photo m)) eqn:Hlast, (video m), (audio m),
      (voice m); split; try done; try (by intros (? & ? & ? & ? & ?)).
    all: try (intros (_ & Hp & _); by rewrite Hp in Hlast).
    all: intros _; split_and!; try done.
    all: by apply last_None in Hlast.
  - intros f Hf.
    destruct (document m), (last (photo m)), (video m), (audio m), (voice m);
      simplify_eq; cbn; split_and!; try done; try (by eexists);
      by apply or_default_nonempty.
  - intros d ->. by eexists.
  - intros p -> ->. by eexists.
Qed.

(** * Delivery *)

Lemma delivery_logs_each_failure (se : string → option exn) (chat_id : Z)
    (files : list FileInfo) :
  length (filter (λ e, e = EvLog Error "Error sending file")
            (delivery_events se chat_id files))
  = length (filter (λ f, send_fails se f = true) files).
Proof.
  induction files as [|f files IH]; [done|].
  cbn [delivery_events mbind list_bind]. rewrite filter_app, length_app.
  fold (delivery_events se chat_id files). rewrite IH, filter_cons.
  destruct (kind_of_type (file_type f)) as [k|] eqn:Hk;
    [destruct (se (file_id f)) as [e|] eqn:He|];
    repeat (rewrite filter_cons || rewrite filter_nil);
    repeat case_decide; simplify_eq; cbn [length Nat.add];
    unfold send_fails in *; rewrite ?Hk, ?He in *; done.
Qed.

(** X11 — the sending loop of [send_category_files], whatever Telegram
    answers to the sends: it never raises and does not touch the store;
    every file of a known type gets exactly one [send_*] call, in the
    order of the list, to the chat of the update with the kind, token and
    caption of the file, also after a send that failed; and each failed
    send is logged once. *)
Theorem send_loop_survives_failures (w : World) (u : Update)
    (files : list FileInfo) :
  let out := run (for_each_file (send_one (PyUpdate u)) files) w in
  out.1 = Ok ()
  ∧ db out.2 = db w
  ∧ ∃ evs,
      trace out.2 = trace w ++ evs
      ∧ (∀ kinds,
           Forall2 (λ f k, kind_of_type (file_type f) = Some k) files kinds →
           filter (λ e, is_send e = true) evs
           = zip_with
               (λ f k, EvSend k (effective_chat u) (file_id f) (caption f))
               files kinds)
      ∧ length (filter (λ e, e = EvLog Error "Error sending file") evs)
        = length (filter (λ f, send_fails (send_error w) f = true) files).
Proof.
  intros out. subst out. rewrite send_loop_run. split_and!; [done..|].
  eexists. split; [done|]. split.
  - intros kinds Hkinds. by apply delivery_sends_each_file.
  - apply delivery_logs_each_failure.
Qed.

(** * Upload sessions: the edges *)

(** X12 — [handle_media]: without an open upload of the user the message
    is ignored (no answer, no change); a message without media in an open
    upload is answered and changes nothing; no call touches the store or
    the upload of another user; and the upload of the user keeps its
    category and only grows at the end. *)
Theorem handle_media_edges (w : World) (u : Update) :
  let out := run (handle_media u) w in
  (pending_uploads w !! effective_user u = None → out = (Ok (), w))
  ∧ (∀ m, message u = Some m → extract_file_info m = None →
       is_Some (pending_uploads w !! effective_user u) →
       out = (Ok (),
              add_trace [EvReplyText (msg_chat_id m) TxtUnsupportedMedia []] w))
  ∧ db out.2 = db w
  ∧ (∀ other, other ≠ effective_user u →
       pending_uploads out.2 !! other = pending_uploads w !! other)
  ∧ (∀ p, pending_uploads out.2 !! effective_user u = Some p →
       ∃ p0, pending_uploads w !! effective_user u = Some p0
             ∧ pu_category_id p = pu_category_id p0
             ∧ pu_files p0 `prefix_of` pu_files p).
Proof.
  intros out. subst out. unfold handle_media, reply_text.
  rewrite run_bind, run_get_world.
  destruct (pending_uploads w !! effective_user u) as [p0|] eqn:Hp.
  - destruct (message u) as [m|] eqn:Hm.
    + destruct (extract_file_info m) as [f|] eqn:Hf.
      * rewrite run_bind, run_modify, run_emit.
        cbn [snd db pending_uploads add_trace set_pending_uploads].
        split_and!.
        -- done.
        -- intros m' [= <-] Hnone. by rewrite Hnone in Hf.
        -- done.
        -- intros other Hother. by rewrite lookup_insert_ne.
        -- intros p. rewrite lookup_insert_eq. intros [= <-].
           exists p0. split_and!; [done..|]. by apply prefix_app_r.
      * rewrite run_emit. cbn [snd db pending_uploads add_trace].
        split_and!.
        -- done.
        -- by intros m' [= <-].
        -- done.
        -- done.
        -- intros p. rewrite Hp. intros [= <-]. by exists p0.
    + rewrite run_raise. cbn [snd]. split_and!; try done.
      intros p. rewrite Hp. intros [= <-]. by exists p0.
  - rewrite run_ret. cbn [snd]. split_and!; try done.
    intros p Hp'. by rewrite Hp in Hp'.
Qed.

Lemma reply_text_run (u : Update) (t : text) (markup : list (list button))
    (w : World) :
  run (reply_text (PyUpdate u) t markup) w
  = match message u with
    | Some m => (Ok (), add_trace [EvReplyText (msg_chat_id m) t markup] w)
    | None => (Raise AttributeError, w)
    end.
Proof. unfold reply_text. by destruct (message u). Qed.

(** X13 — [finish_upload], whatever the backend does and whatever it
    returns or raises, removes the upload of the user and of nobody else
    and leaves [pending_channel_data] alone; with no upload open, or an
    upload without files, it executes no statement and the store is
    unchanged. *)
Theorem finish_upload_clears_session (BOT_USERNAME : string) (w : World)
    (u : Update) :
  let out := run (finish_upload BOT_USERNAME u) w in
  pending_uploads out.2 = delete (effective_user u) (pending_uploads w)
  ∧ pending_channel_data out.2 = pending_channel_data w
  ∧ (default [] (pu_files <$> pending_uploads w !! effective_user u) = [] →
     db out.2 = db w
     ∧ ∃ evs, trace out.2 = trace w ++ evs
              ∧ filter (λ e, is_execute e = true) evs = []).
Proof.
  intros out. subst out. unfold finish_upload.
  rewrite run_bind, run_get_world.
  destruct (pending_uploads w !! effective_user u) as [p|] eqn:Hp.
  - rewrite run_bind, run_modify.
    set (w1 := set_pending_uploads _ w).
    destruct (pu_files p) as [|f fs] eqn:Hfs.
    + rewrite run_bind, reply_text_run.
      destruct (message u) as [m|]; rewrite ?run_ret;
        cbn [snd db pending_uploads pending_channel_data add_trace trace];
        (split_and!; [done|done|]); intros _; (split; [done|]).
      * by exists [EvReplyText (msg_chat_id m) TxtNothingUploaded []].
      * exists []. by rewrite app_nil_r.
    + rewrite run_bind. subst w1.
      destruct (session_writes_keep_sessions
                  (set_pending_uploads
                     (delete (effective_user u) (pending_uploads w)) w)
                  (pu_category_id p) "" "" "" (f :: fs)) as [[Hpu Hpc] _].
      destruct (run (DatabaseManager.add_files_to_category _ _) _)
        as [[success|e] w2];
        cbn [snd pending_uploads pending_channel_data set_pending_uploads]
          in Hpu, Hpc.
      * rewrite run_bind.
        assert (∀ t, pending_uploads
                       (run (reply_text (PyUpdate u) t []) w2).2
                     = pending_uploads w2
                     ∧ pending_channel_data
                         (run (reply_text (PyUpdate u) t []) w2).2
                       = pending_channel_data w2) as Hreply.
        { intros t. rewrite reply_text_run. by destruct (message u). }
        destruct success.
        -- destruct (Hreply (TxtFilesAdded (length (f :: fs))
                      (generate_category_link BOT_USERNAME (pu_category_id p))))
             as [H1 H2].
           destruct (run (reply_text _ _ _) w2) as [[?|?] w3];
             cbn [snd] in *; rewrite ?run_ret; cbn [snd];
             (split_and!; [congruence|congruence|];
              intros Hnil; cbn in Hnil; congruence).
        -- destruct (Hreply TxtSaveFailed) as [H1 H2].
           destruct (run (reply_text _ _ _) w2) as [[?|?] w3];
             cbn [snd] in *; rewrite ?run_ret; cbn [snd];
             (split_and!; [congruence|congruence|];
              intros Hnil; cbn in Hnil; congruence).
      * cbn [snd]. split_and!; [done|done|].
        intros Hnil; cbn in Hnil; congruence.
  - rewrite run_bind, reply_text_run. rewrite delete_id by done.
    destruct (message u) as [m|]; rewrite ?run_ret;
      cbn [snd db pending_uploads pending_channel_data add_trace trace];
      (split_and!; [done|done|]); intros _; (split; [done|]).
    + by exists [EvReplyText (msg_chat_id m) TxtNoUploadPending []].
    + exists []. by rewrite app_nil_r.
Qed.

Lemma batch_insert_all_stored (now : Z) (s : Store) (cid : string)
    (batch : list FileInfo) :
  Forall (λ f, file_id f ∈ row_file_id <$> files s) batch →
  batch_insert now s cid batch = inr s.
Proof.
  induction 1 as [|f rest Hf _ IH]; [done|].
  cbn [batch_insert sem insert_file_do_nothing]. unfold file_id_stored.
  by rewrite bool_decide_true.
Qed.

(** X14 — [finish_upload] reports the number of files of the upload, not
    the number of rows stored: when every file of the batch is already
    stored the store is unchanged, and the answer still names the whole
    batch as added, with the link of the category. *)
Theorem finish_upload_counts_the_batch (BOT_USERNAME : string) (w : World)
    (user_id : Z) (m : Message) (p : PendingUpload) :
  healthy w →
  pending_uploads w !! user_id = Some p →
  pu_files p ≠ [] →
  Forall (λ f, file_id f ∈ row_file_id <$> files (db w)) (pu_files p) →
  let out := run (finish_upload BOT_USERNAME (message_update user_id m)) w in
  out.1 = Ok (Some END)
  ∧ db out.2 = db w
  ∧ last (trace out.2)
    = Some (EvReplyText (msg_chat_id m)
              (TxtFilesAdded (length (pu_files p))
                 (generate_category_link BOT_USERNAME (pu_category_id p))) []).
Proof.
  intros Hw Hp Hne Hall out. subst out.
  rewrite (finish_upload_healthy BOT_USERNAME user_id m p (db w))
    by (done || by apply batch_insert_all_stored).
  cbn [fst snd db after trace]. split_and!; [done..|].
  by rewrite last_app.
Qed.

(** X15 — [upload_command] opens no upload (it returns [None]) for a user
    who is not an administrator, for an administrator who gives no
    category id, and on a healthy backend for a category id that does not
    exist; each time the user gets the matching notice, and only the last
    case reads the store. *)
Theorem upload_command_edges (ADMIN_IDS : list Z) (w : World) (user_id : Z)
    (m : Message) (cid : string) (args : list string) :
  let u := message_update user_id m in
  (user_id ∉ ADMIN_IDS →
   run (upload_command ADMIN_IDS u (cid :: args)) w
   = (Ok None, add_trace [EvReplyText (msg_chat_id m) TxtNotAllowed []] w))
  ∧ (user_id ∈ ADMIN_IDS →
     run (upload_command ADMIN_IDS u []) w
     = (Ok None, add_trace [EvReplyText (msg_chat_id m) TxtUploadUsage []] w))
  ∧ (user_id ∈ ADMIN_IDS → healthy w →
     cid ∉ cat_id <$> categories (db w) →
     run (upload_command ADMIN_IDS u (cid :: args)) w
     = (Ok None,
        after (db w)
          [EvExecute (sql (select_category cid)) [cid]; EvCommit;
           EvReplyText (msg_chat_id m) TxtCategoryNotFound []] w)).
Proof.
  intros u. subst u. unfold upload_command, is_admin.
  cbn [effective_user message_update]. split_and!.
  - intros Hna. rewrite bool_decide_false by done. cbn [negb].
    rewrite run_bind, reply_text_run. cbn [message message_update].
    by rewrite run_ret.
  - intros Ha. rewrite bool_decide_true by done. cbn [negb].
    rewrite run_bind, reply_text_run. cbn [message message_update].
    by rewrite run_ret.
  - intros Ha Hw Hcat. rewrite bool_decide_true by done. cbn [negb].
    rewrite run_bind, get_category_healthy by done.
    unfold category_view, get_category_events.
    rewrite (filter_none (λ c, cat_id c = cid)).
    + cbn [head fmap option_fmap option_map].
      rewrite run_bind, reply_text_run. cbn [message message_update].
      by rewrite run_ret, add_trace_after.
    + apply Forall_forall. intros c Hc Heq. apply Hcat. rewrite <- Heq.
      by apply list_elem_of_fmap_2.
Qed.

(** X16 — [start_adding_files] does not look the category up: for an
    id that is not stored the upload is opened and files are accepted, and
    only [finish_upload] fails, with the store unchanged, the upload
    removed and the notice that saving failed. *)
Theorem adding_to_a_missing_category_fails_at_finish (BOT_USERNAME : string)
    (w : World) (user_id : Z) (query : CallbackQuery) (cid : string)
    (m_y m_finish : Message) (fY : FileInfo) :
  healthy w →
  cid ∉ cat_id <$> categories (db w) →
  extract_file_info m_y = Some fY →
  file_id fY ∉ row_file_id <$> files (db w) →
  let out :=
    run (start_adding_files query cid user_id;;
         handle_media (message_update user_id m_y);;
         finish_upload BOT_USERNAME (message_update user_id m_finish)) w in
  out.1 = Ok (Some END)
  ∧ db out.2 = db w
  ∧ pending_uploads out.2 !! user_id = None
  ∧ last (trace out.2) = Some (EvReplyText (msg_chat_id m_finish) TxtSaveFailed []).
Proof.
  intros Hw Hcat HY Hfresh out. subst out.
  rewrite run_bind, start_adding_files_run.
  set (w1 := add_trace _ (set_pending_uploads _ w)).
  rewrite run_bind, (handle_media_run user_id m_y (fresh_upload cid) fY w1)
    by (done || apply lookup_insert_eq).
  set (w2 := add_trace _ (set_pending_uploads _ w1)).
  unfold finish_upload. cbn [effective_user message_update].
  rewrite run_bind, run_get_world.
  assert (pending_uploads w2 !! user_id
          = Some {| pu_category_id := cid; pu_files := [fY] |}) as ->
    by apply lookup_insert_eq.
  rewrite run_bind, run_modify. cbn [pu_files pu_category_id].
  rewrite run_bind, add_files_to_category_healthy by (by destruct Hw).
  cbn [batch_insert sem insert_file_do_nothing].
  unfold file_id_stored, category_exists.
  change (db (set_pending_uploads _ w2)) with (db w).
  rewrite (bool_decide_false _ Hfresh), (bool_decide_false _ Hcat).
  rewrite run_bind, reply_text_run. cbn [message message_update].
  rewrite run_ret. cbn [fst snd db after add_trace pending_uploads
                         set_pending_uploads trace].
  split_and!; [done|done|apply lookup_delete_eq|].
  by rewrite last_app.
Qed.

(** X17 — after [upload_command] and a received file, [cancel] drops
    the upload: a later [finish_upload] stores nothing and answers that
    no upload is pending. *)
Theorem cancel_discards_the_upload (BOT_USERNAME : string) (ADMIN_IDS : list Z)
    (w : World) (user_id : Z) (A : string)
    (m_start m_x m_cancel m_finish : Message) (fX : FileInfo) :
  healthy w →
  user_id ∈ ADMIN_IDS →
  category_exists (db w) A = true →
  extract_file_info m_x = Some fX →
  let out :=
    run (upload_command ADMIN_IDS (message_update user_id m_start) [A];;
         handle_media (message_update user_id m_x);;
         cancel (message_update user_id m_cancel);;
         finish_upload BOT_USERNAME (message_update user_id m_finish)) w in
  out.1 = Ok (Some END)
  ∧ db out.2 = db w
  ∧ pending_uploads out.2 !! user_id = None
  ∧ last (trace out.2)
    = Some (EvReplyText (msg_chat_id m_finish) TxtNoUploadPending []).
Proof.
  intros Hw Hadmin HA HX out. subst out.
  destruct (upload_command_healthy ADMIN_IDS user_id m_start A [] w)
    as [e1 H1]; [done..|].
  rewrite run_bind, H1. clear H1.
  set (w1 := set_pending_uploads _ (after (db w) e1 w)).
  rewrite run_bind, (handle_media_run user_id m_x (fresh_upload A) fX w1)
    by (done || apply lookup_insert_eq).
  set (w2 := add_trace _ (set_pending_uploads _ w1)).
  unfold cancel. cbn [effective_user message_update].
  rewrite run_bind, run_bind, run_modify, run_bind, run_modify.
  rewrite run_bind, reply_text_run. cbn [message message_update].
  rewrite run_ret.
  unfold finish_upload. cbn [effective_user message_update].
  rewrite run_bind, run_get_world.
  cbn [pending_uploads add_trace set_pending_channel_data set_pending_uploads].
  rewrite lookup_delete_eq.
  rewrite run_bind, reply_text_run. cbn [message message_update].
  rewrite run_ret.
  cbn [fst snd db add_trace set_pending_channel_data set_pending_uploads
       pending_uploads trace].
  split_and!; [done|done|apply lookup_delete_eq|by rewrite last_app].
Qed.

(** * Inline buttons *)

Lemma startswith_append (p s : string) : startswith p (p +:+ s) = true.
Proof.
  unfold startswith. induction p as [|c p IH]; simpl; [by destruct s|].
  by destruct (Ascii.ascii_dec c c).
Qed.

Lemma digit_of_pretty_N_char (x : N) :
  (x < 10)%N → digit_of (pretty_N_char x) = Some (Z.of_N x).
Proof.
  intros Hx.
  assert (x = 0 ∨ x = 1 ∨ x = 2 ∨ x = 3 ∨ x = 4 ∨ x = 5 ∨ x = 6 ∨ x = 7
          ∨ x = 8 ∨ x = 9)%N as Hcases by lia.
  repeat (destruct Hcases as [->|Hcases]; [done|]). by subst.
Qed.

Lemma parse_digits_pretty_N_go (x : N) :
  ∀ s, parse_digits 0 (pretty_N_go x s) = parse_digits (Z.of_N x) s.
Proof.
  induction (N.lt_wf_0 x) as [x _ IH]. intros s.
  destruct (decide (x = 0)%N) as [->|Hx]; [done|].
  rewrite pretty_N_go_step by lia.
  rewrite IH by (apply N.div_lt; lia).
  cbn [parse_digits].
  rewrite digit_of_pretty_N_char by (apply N.mod_lt; lia).
  f_equal. rewrite (N.div_mod x 10) at 3 by lia. lia.
Qed.

(** [int] reads back what the f-string wrote. *)
Lemma parse_int_pretty (i : nat) : parse_int (pretty i) = Some (Z.of_nat i).
Proof.
  unfold pretty, pretty_nat, pretty, pretty_N.
  case_decide as Hi; [by replace i with 0%nat by lia|].
  pose proof (parse_digits_pretty_N_go (N.of_nat i) "") as Hparse.
  cbn [parse_digits] in Hparse.
  destruct (pretty_N_go (N.of_nat i) "") as [|c s] eqn:Hs.
  - cbn in Hparse. injection Hparse as Hparse. lia.
  - unfold parse_int. rewrite Hparse, nat_N_Z.
    cbn [parse_digits] in Hparse.
    destruct (decide (c = "-"%char)) as [->|]; [done|].
    destruct (decide (c = "+"%char)) as [->|]; [done|].
    done.
Qed.

Lemma string_drop_append (p s : string) :
  string_drop (String.length p) (p +:+ s) = s.
Proof. induction p as [|c p IH]; [done|]. simpl. apply IH. Qed.

Lemma split_once_underscore (a b : string) :
  no_underscore a = true → split_once (a +:+ "_" +:+ b) = (a, Some b).
Proof.
  induction a as [|c a IH]; simpl; [done|].
  case_decide; [done|]. intros Ha. by rewrite IH.
Qed.

(** X18 — a button pressed by a user who is not an administrator, other
    than the membership re-check, is answered and refused: nothing is
    read, written or sent. *)
Theorem button_handler_rejects_visitors (ADMIN_IDS : list Z) (w : World)
    (update : Update) (query : CallbackQuery) :
  callback_query update = Some query →
  from_user query ∉ ADMIN_IDS →
  startswith "check_membership_" (data query) = false →
  run (button_handler ADMIN_IDS update) w
  = (Ok (), add_trace [EvAnswer; EvEditMessageText TxtNotAllowed []] w).
Proof.
  intros Hq Hna Hdata. unfold button_handler, is_admin, edit_message_text.
  rewrite Hq, run_bind, run_emit, Hdata, bool_decide_false by done.
  by rewrite run_emit, add_trace_add_trace.
Qed.

Lemma del_file_button_dispatch (ADMIN_IDS : list Z) (w : World)
    (update : Update) (query : CallbackQuery) (cid : string) (i : nat) :
  callback_query update = Some query →
  from_user query ∈ ADMIN_IDS →
  no_underscore cid = true →
  data query = "del_file_" +:+ cid +:+ "_" +:+ pretty i →
  run (button_handler ADMIN_IDS update) w
  = run (delete_file_from_category query cid (Z.of_nat i))
      (add_trace [EvAnswer] w).
Proof.
  intros Hq Ha Hcid Hd. unfold button_handler, is_admin.
  rewrite Hq, run_bind, run_emit, bool_decide_true, Hd by done.
  change (startswith "check_membership_" _) with false.
  change (startswith "view_" _) with false.
  change (startswith "add_" _) with false.
  change (startswith "delete_file_" _) with false.
  change (startswith "delete_cat_" _) with false.
  change (startswith "confirm_del_cat_" _) with false.
  rewrite startswith_append.
  change (string_drop 9 ("del_file_" +:+ cid +:+ "_" +:+ pretty i))
    with (cid +:+ "_" +:+ pretty i).
  by rewrite split_once_underscore, parse_int_pretty.
Qed.

(** X19 — for an administrator, [button_handler] answers the query and
    hands the category id that follows the prefix of the callback data to
    the handler of that prefix: [view_], [add_], [delete_file_],
    [delete_cat_], [confirm_del_cat_], and [del_file_<id>_<index>] with
    the index read back as a number, for a category id without
    underscore. *)
Theorem admin_buttons_reach_their_category (ADMIN_IDS : list Z) (w : World)
    (update : Update) (query : CallbackQuery) (cid : string) :
  callback_query update = Some query →
  from_user query ∈ ADMIN_IDS →
  let pressed := run (button_handler ADMIN_IDS update) w in
  let answered := add_trace [EvAnswer] w in
  (data query = "view_" +:+ cid →
   pressed = run (view_category_files query cid) answered)
  ∧ (data query = "add_" +:+ cid →
     pressed = run (start_adding_files query cid (from_user query)) answered)
  ∧ (data query = "delete_file_" +:+ cid →
     pressed = run (show_files_for_deletion query cid) answered)
  ∧ (data query = "delete_cat_" +:+ cid →
     pressed = run (confirm_category_deletion query cid) answered)
  ∧ (data query = "confirm_del_cat_" +:+ cid →
     pressed = run (delete_category query cid) answered)
  ∧ (∀ i : nat,
       no_underscore cid = true →
       data query = "del_file_" +:+ cid +:+ "_" +:+ pretty i →
       pressed
       = run (delete_file_from_category query cid (Z.of_nat i)) answered).
Proof.
  intros Hq Ha pressed answered.
  assert (∀ d, data query = d →
               pressed = run (button_handler ADMIN_IDS update) w) as Hp
    by done.
  split_and!;
    [intros Hd; subst pressed answered; unfold button_handler, is_admin;
     rewrite Hq, run_bind, run_emit, bool_decide_true, Hd by done;
     by destruct cid..|].
  - intros i Hcid Hdata. subst pressed answered.
    by apply del_file_button_dispatch.
Qed.

Lemma show_files_for_deletion_healthy (query : CallbackQuery) (cid : string)
    (w : World) :
  healthy w →
  run (show_files_for_deletion query cid) w
  = (Ok (),
     after (db w)
       (get_category_events (db w) cid
        ++ [match c_files <$> category_view (db w) cid with
            | None | Some [] => EvEditMessageText TxtCategoryEmpty []
            | Some files =>
                EvEditMessageText TxtChooseFileToDelete
                  (imap (λ i file_info,
                           [CallbackButton (file_name file_info)
                              ("del_file_" +:+ cid +:+ "_" +:+ pretty i)])
                     files)
            end]) w).
Proof.
  intros Hw. unfold show_files_for_deletion, edit_message_text.
  rewrite run_bind, get_category_healthy by done.
  destruct (c_files <$> category_view (db w) cid) as [[|f fs]|];
    by rewrite run_emit, add_trace_after.
Qed.

(** X20 — the keyboard of [show_files_for_deletion] and
    [button_handler] agree where the upload dates settle the order: on a
    healthy backend, for a category id without underscore whose files
    have pairwise distinct upload dates, the button shown for the file at
    position [i] carries the callback data on which [button_handler]
    deletes exactly the stored row of that file, leaving the others of
    the category in their order. *)
Theorem deletion_button_removes_its_file (ADMIN_IDS : list Z) (w : World)
    (update : Update) (query : CallbackQuery) (cid : string)
    (category : Category) (i : nat) (f : FileInfo) :
  healthy w →
  NoDup (row_serial <$> files (db w)) →
  NoDup (row_upload_date
           <$> filter (λ r, row_category_id r = cid) (files (db w))) →
  no_underscore cid = true →
  category_view (db w) cid = Some category →
  c_files category !! i = Some f →
  callback_query update = Some query →
  from_user query ∈ ADMIN_IDS →
  let button := "del_file_" +:+ cid +:+ "_" +:+ pretty i in
  (∃ keyboard,
     last (trace (run (show_files_for_deletion query cid) w).2)
     = Some (EvEditMessageText TxtChooseFileToDelete keyboard)
     ∧ keyboard !! i = Some [CallbackButton (file_name f) button])
  ∧ (data query = button →
     let out := run (button_handler ADMIN_IDS update) w in
     out.1 = Ok ()
     ∧ last (trace out.2) = Some (EvEditMessageText TxtFileDeleted [])
     ∧ (∃ r, r ∈ files (db w)
             ∧ row_category_id r = cid
             ∧ file_dict r = f
             ∧ files (db out.2)
               = filter (λ x, row_serial x ≠ row_serial r) (files (db w)))
     ∧ category_view (db out.2) cid
       = Some {| c_name := c_name category;
                 c_files := delete i (c_files category);
                 c_created_by := c_created_by category;
                 c_created_at := c_created_at category |}).
Proof.
  intros Hw Hnd Hdates Hcid Hview Hi Hq Ha button. subst button. split.
  - rewrite show_files_for_deletion_healthy, Hview by done.
    cbn [fmap option_fmap option_map].
    destruct (c_files category) as [|f0 fs] eqn:Hfs; [done|].
    eexists. cbn [snd trace after]. rewrite app_assoc, last_snoc.
    split; [done|]. by rewrite list_lookup_imap, Hi.
  - intros Hdata out. subst out.
    rewrite (del_file_button_dispatch ADMIN_IDS w update query cid i)
      by done.
    unfold category_view in Hview.
    destruct (head (filter (λ c, cat_id c = cid) (categories (db w))))
      as [cat|] eqn:Hcat; [|done].
    injection Hview as <-. cbn [c_files DatabaseManager.category_of] in Hi.
    rewrite list_lookup_fmap in Hi.
    destruct (files_of_category (db w) cid !! i) as [r|] eqn:Hr; [|done].
    injection Hi as Hf.
    assert (r ∈ filter (λ r, row_category_id r = cid) (files (db w))) as Hin.
    { eapply elem_of_order_by, list_elem_of_lookup_2. exact Hr. }
    unfold delete_file_from_category, edit_message_text.
    rewrite run_bind, delete_file_healthy
      by (lia || by apply healthy_add_trace).
    rewrite Nat2Z.id. cbn [db add_trace ties].
    rewrite (row_at_offset_untied _ _ _ r Hr).
    2:{ intros x Hx Hdate. unfold files_of_category in Hx.
        apply elem_of_order_by in Hx.
        by apply (NoDup_fmap_elem_eq row_upload_date
                    (filter (λ r, row_category_id r = cid) (files (db w)))). }
    rewrite run_emit. cbn [fst snd trace add_trace after db].
    split_and!; [done|by rewrite !last_app| |].
    + exists r. apply list_elem_of_filter in Hin as [Hcat' Hin].
      by split_and!.
    + unfold category_view. cbn [categories without_file set_files].
      rewrite Hcat. cbn [fmap option_fmap option_map]. f_equal.
      unfold DatabaseManager.category_of.
      cbn [c_name c_files c_created_by c_created_at]. f_equal.
      rewrite <- list_fmap_delete. f_equal.
      by apply files_of_category_without_same.
Qed.

(** * Deep links *)

(** X21 — the link made by [generate_category_link] is a [start] link
    whose payload [start] hands to [handle_category_access] with the same
    category id; a payload that does not begin with [cat_] is treated as
    no payload, which greets administrators and other users with their
    own text. *)
Theorem start_routes_deep_links (BOT_USERNAME : string) (ADMIN_IDS : list Z)
    (w : World) (u : Update) (m : Message) (cid arg : string)
    (rest : list string) :
  message u = Some m →
  (∃ payload,
     generate_category_link BOT_USERNAME cid
     = "https://t.me/" +:+ BOT_USERNAME +:+ "?start=" +:+ payload
     ∧ run (start ADMIN_IDS u (payload :: rest)) w
       = run (handle_category_access ADMIN_IDS (PyUpdate u) cid) w)
  ∧ (startswith "cat_" arg = false →
     run (start ADMIN_IDS u (arg :: rest)) w = run (start ADMIN_IDS u []) w)
  ∧ run (start ADMIN_IDS u []) w
    = (Ok (),
       add_trace
         [EvReplyText (msg_chat_id m)
            (if bool_decide (effective_user u ∈ ADMIN_IDS)
             then TxtGreetAdmin else TxtGreetUser) []] w).
Proof.
  intros Hm. split_and!.
  - exists ("cat_" +:+ cid). split.
    + unfold generate_category_link.
      by induction BOT_USERNAME as [|c b IH]; [|simpl; f_equal].
    + unfold start. rewrite startswith_append.
      by change (string_drop 4 ("cat_" +:+ cid)) with cid.
  - intros Harg. unfold start. by rewrite Harg.
  - unfold start, is_admin. case_bool_decide; by rewrite reply_text_run, Hm.
Qed.

(** * The gate when the channels cannot be read *)

(** On a connection that stays closed the execution fails with an error
    that is not retried and the rollback fails too: [get_category]
    answers [None]. *)
Lemma get_category_on_closed_connection (w : World) (cid : string)
    (e e' : exn) (rest : list (option exn)) :
  e ≠ OperationalError →
  faults w = Some e :: Some e' :: rest →
  (run (DatabaseManager.get_category cid) w).1 = Ok None.
Proof.
  intros He Hf. destruct w as [d wk nw fs cm se pu pc tr ti].
  simpl in Hf. subst fs. by destruct e.
Qed.

Lemma send_loop_not_gate (update : pyobj) (files : list FileInfo) :
  emits_only not_gate_event (for_each_file (send_one update) files).
Proof.
  induction files as [|f rest IH]; [apply emits_only_ret|].
  cbn [for_each_file]. apply emits_only_bind; [|intros _; apply IH].
  apply emits_only_try_except; [|intros e; unfold log; emits_step].
  unfold send_one, send_media, effective_chat_id, sleep.
  apply emits_only_bind; [|intros _; emits_step].
  repeat case_decide; try apply emits_only_ret;
    (apply emits_only_bind;
     [destruct update; emits_step|];
     intros chat; apply emits_only_bind; [emits_step|]; intros _;
     apply emits_only_bind; [apply emits_only_get_world|]; intros w0;
     destruct (send_error w0 (file_id f)); emits_step).
Qed.

Lemma send_category_files_not_gate (update : pyobj) (cid : string) :
  emits_only not_gate_event (send_category_files update cid).
Proof.
  unfold send_category_files.
  apply emits_only_bind; [apply get_category_not_gate|].
  intros [category|]; [|apply reply_text_not_gate].
  destruct (c_files category) as [|f fs]; [apply reply_text_not_gate|].
  apply emits_only_bind; [apply reply_text_not_gate|]. intros _.
  apply send_loop_not_gate.
Qed.

(** X22 — when the connection is lost for the three executions of
    the channel query, [get_channels] returns the empty list and
    [handle_category_access] continues, for a user who is not an
    administrator, as [send_category_files]: no membership is asked and
    the channels are not read again; if the connection then stays
    closed, so that the next execution fails with an error that is not
    retried and the rollback fails too, the user is sent the message
    that the category was not found. *)
Theorem gate_opens_when_channels_cannot_be_read (ADMIN_IDS : list Z)
    (w : World) (u : Update) (m : Message) (cid : string)
    (c1 c2 : option exn) (rest : list (option exn)) :
  message u = Some m →
  effective_user u ∉ ADMIN_IDS →
  faults w = Some OperationalError :: c1 :: Some OperationalError
               :: c2 :: Some OperationalError :: rest →
  let out := run (handle_category_access ADMIN_IDS (PyUpdate u) cid) w in
  let tried := retry_events select_channels 2
               ++ [EvExecute (sql select_channels) [];
                   EvLog Error "Error retrieving channels"] in
  ∃ w1 evs,
    out = run (send_category_files (PyUpdate u) cid) w1
    ∧ trace w1 = trace w ++ tried
    ∧ db w1 = db w
    ∧ faults w1 = rest
    ∧ trace out.2 = trace w1 ++ evs
    ∧ Forall (λ e, is_gate_event e = false) evs
    ∧ (∀ e e' rest',
         e ≠ OperationalError →
         rest = Some e :: Some e' :: rest' →
         last (trace out.2)
         = Some (EvReplyText (msg_chat_id m) TxtCategoryNotFound [])).
Proof.
  intros Hm Hna Hf out tried. subst out tried.
  destruct (three_lost_connections select_channels w c1 c2 rest Hf)
    as (seen & Hrun & Hseen).
  set (w1 := add_trace [EvLog Error "Error retrieving channels"]
               (set_faults rest
                  (set_work seen
                     (add_trace
                        (retry_events select_channels 2
                         ++ [EvExecute (sql select_channels) []]) w)))).
  assert (run (handle_category_access ADMIN_IDS (PyUpdate u) cid) w
          = run (send_category_files (PyUpdate u) cid) w1) as Hout.
  { unfold handle_category_access, effective_user_id, effective_chat_id,
      is_admin.
    rewrite run_bind, run_ret, run_bind, run_ret.
    rewrite bool_decide_false by done.
    unfold DatabaseManager.get_channels at 1.
    rewrite run_bind, run_try_except, run_bind, Hrun.
    by rewrite run_bind, run_log, run_ret. }
  destruct (send_category_files_not_gate (PyUpdate u) cid w1)
    as (evs & Htr & Hall).
  exists w1, evs. rewrite Hout. split_and!.
  - done.
  - subst w1. cbn [trace add_trace set_faults set_work].
    by rewrite <- !app_assoc.
  - done.
  - done.
  - done.
  - eapply Forall_impl; [exact Hall|]. intros e He.
    unfold not_gate_event in He. by apply negb_true_iff in He.
  - intros e e' rest' He Hrest.
    assert (faults w1 = Some e :: Some e' :: rest') as Hf1 by done.
    pose proof (get_category_on_closed_connection w1 cid e e' rest' He Hf1)
      as Hnone.
    unfold send_category_files. rewrite run_bind.
    destruct (run (DatabaseManager.get_category cid) w1) as [r w2].
    cbn [fst] in Hnone. subst r. rewrite reply_text_run, Hm.
    cbn [fst snd trace add_trace]. by rewrite last_snoc.
Qed.

(** * Deleting a category from its button *)

(** X23 — the confirmed deletion of a category from its button: on a
    healthy backend a category that does not exist is answered with the
    notice that it was not found and nothing is written; an existing one
    is deleted with all its files, the channels stay, and the answer
    names the category. *)
Theorem delete_category_button (w : World) (query : CallbackQuery)
    (cid : string) :
  healthy w →
  let out := run (delete_category query cid) w in
  (cid ∉ cat_id <$> categories (db w) →
   out = (Ok (),
          after (db w)
            [EvExecute (sql (select_category cid)) [cid]; EvCommit;
             EvEditMessageText TxtCategoryNotFound []] w))
  ∧ (∀ category, category_view (db w) cid = Some category →
       out.1 = Ok ()
       ∧ last (trace out.2)
         = Some (EvEditMessageText (TxtCategoryDeleted (c_name category)) [])
       ∧ categories (db out.2)
         = filter (λ c, cat_id c ≠ cid) (categories (db w))
       ∧ files (db out.2)
         = filter (λ r, row_category_id r ≠ cid) (files (db w))
       ∧ channels (db out.2) = channels (db w)).
Proof.
  intros Hw out. subst out. unfold delete_category, edit_message_text.
  rewrite run_bind, get_category_healthy by done. split.
  - intros Hcat. unfold category_view, get_category_events.
    rewrite (filter_none (λ c, cat_id c = cid)).
    + cbn [head fmap option_fmap option_map].
      by rewrite run_emit, add_trace_after.
    + apply Forall_forall. intros c Hc Heq. apply Hcat. rewrite <- Heq.
      by apply list_elem_of_fmap_2.
  - intros category ->. unfold DatabaseManager.delete_category.
    rewrite run_bind, retried_write_healthy
      by (done || by apply healthy_after).
    cbn [sem delete_category_stmt]. rewrite run_emit.
    cbn [fst snd db trace after add_trace].
    split_and!; [done|by rewrite last_app|done..].
Qed.

(** * Commands of the administrator *)

Lemma answer_run (u : Update) (m : Message) (n : notice) (w : World) :
  message u = Some m → run (answer u n) w = (Ok n, w).
Proof. intros Hm. unfold answer. by rewrite Hm. Qed.

(** X24 — [new_category]: a user who is not an administrator and an
    administrator who gives no name are answered without any access to
    the store; otherwise the name is the arguments joined by single
    spaces and the id the first eight characters of the UUID, and on a
    healthy backend with an intact store a new id and name give the
    answer with the name, the id and the link of [generate_category_link]
    and a category that [get_category] returns, while an id or a name
    that is taken gives the failure notice and an unchanged store. *)
Theorem new_category_cases (BOT_USERNAME : string) (ADMIN_IDS : list Z)
    (w : World) (u : Update) (m : Message) (arg : string)
    (args : list string) (uuid4 : string) :
  message u = Some m →
  let cid := String.substring 0 8 uuid4 in
  let name := String.concat " " (arg :: args) in
  let out := run (new_category BOT_USERNAME ADMIN_IDS u (arg :: args) uuid4) w in
  (effective_user u ∉ ADMIN_IDS → out = (Ok NoticeNotAllowed, w))
  ∧ (effective_user u ∈ ADMIN_IDS →
     run (new_category BOT_USERNAME ADMIN_IDS u [] uuid4) w
     = (Ok NoticeCategoryUsage, w))
  ∧ (effective_user u ∈ ADMIN_IDS → healthy w → wf_store (db w) →
     (cid ∉ cat_id <$> categories (db w) →
      name ∉ cat_name <$> categories (db w) →
      out.1 = Ok (NoticeCategoryCreated name
                    (generate_category_link BOT_USERNAME cid) cid)
      ∧ (run (DatabaseManager.get_category cid) out.2).1
        = Ok (Some {| c_name := name; c_files := [];
                      c_created_by := effective_user u;
                      c_created_at := now w |}))
     ∧ (cid ∈ cat_id <$> categories (db w)
        ∨ name ∈ cat_name <$> categories (db w) →
        out.1 = Ok NoticeCategoryFailed ∧ db out.2 = db w)).
Proof.
  intros Hm cid name out. subst out. unfold new_category, is_admin.
  split_and!.
  - intros Hna. rewrite bool_decide_false by done.
    by apply answer_run with m.
  - intros Ha. rewrite bool_decide_true by done. by apply answer_run with m.
  - intros Ha Hw Hwf. rewrite bool_decide_true by done. cbn [negb].
    fold cid. fold name. rewrite run_bind.
    unfold DatabaseManager.add_category.
    rewrite retried_write_healthy;
      [|done|simpl; by destruct (_ || _)].
    cbn [sem insert_category]. split.
    + intros Hid Hname.
      rewrite (bool_decide_false _ Hid), (bool_decide_false _ Hname).
      cbn [orb]. rewrite (answer_run u m) by done. cbn [fst snd].
      split; [done|].
      rewrite get_category_healthy by (by apply healthy_after).
      cbn [fst db after]. f_equal. by apply category_view_new.
    + intros Hdup.
      assert (bool_decide (cid ∈ cat_id <$> categories (db w))
              || bool_decide (name ∈ cat_name <$> categories (db w)) = true)
        as ->.
      { apply orb_true_iff. rewrite !bool_decide_eq_true. tauto. }
      rewrite run_bind, run_log, run_ret.
      by rewrite (answer_run u m) by done.
Qed.

(** ** Registering a channel *)

Lemma handle_channel_info_run (u : Update) (m : Message) (text : string)
    (w : World) (d : ChannelData) :
  message u = Some m →
  pending_channel_data w !! effective_user u = Some d →
  run (handle_channel_info u text) w
  = if decide (channel_id d = "") then
      (Ok (Some NoticeChannelIdReceived, WAITING_FOR_CHANNEL_INFO),
       set_pending_channel_data
         (<[effective_user u :=
              {| channel_id := text; channel_name := channel_name d;
                 invite_link := invite_link d |}]> (pending_channel_data w))
         w)
    else if decide (channel_name d = "") then
      (Ok (Some NoticeChannelNameReceived, WAITING_FOR_CHANNEL_INFO),
       set_pending_channel_data
         (<[effective_user u :=
              {| channel_id := channel_id d; channel_name := text;
                 invite_link := invite_link d |}]> (pending_channel_data w))
         w)
    else if decide (invite_link d = "") then
      let stored :=
        run (DatabaseManager.add_channel (channel_id d) (channel_name d) text)
          (set_pending_channel_data
             (<[effective_user u :=
                  {| channel_id := channel_id d;
                     channel_name := channel_name d;
                     invite_link := text |}]> (pending_channel_data w)) w) in
      match stored.1 with
      | Ok success =>
          (Ok (Some (if success : bool then NoticeChannelAdded
                     else NoticeChannelFailed), END),
           set_pending_channel_data
             (delete (effective_user u) (pending_channel_data stored.2))
             stored.2)
      | Raise e => (Raise e, stored.2)
      end
    else (Ok (None, END), w).
Proof.
  intros Hm Hd. unfold handle_channel_info, store_channel_data.
  rewrite Hm, run_bind, run_get_world, Hd, run_bind, run_ret.
  repeat case_decide.
  - by rewrite run_bind, run_modify, run_ret.
  - by rewrite run_bind, run_modify, run_ret.
  - rewrite run_bind, run_modify, run_bind. cbn zeta.
    destruct (run (DatabaseManager.add_channel _ _ _) _) as [[b|e] w1];
      [|done].
    by rewrite run_bind, run_modify, run_ret.
  - by rewrite run_ret.
Qed.

Lemma handle_channel_info_first (u : Update) (m : Message) (text : string)
    (w : World) :
  message u = Some m →
  pending_channel_data w !! effective_user u = None →
  run (handle_channel_info u text) w
  = (Ok (Some NoticeChannelIdReceived, WAITING_FOR_CHANNEL_INFO),
     set_pending_channel_data
       (<[effective_user u :=
            {| channel_id := text; channel_name := ""; invite_link := "" |}]>
          (pending_channel_data w)) w).
Proof.
  intros Hm Hd. unfold handle_channel_info, store_channel_data.
  rewrite Hm, run_bind, run_get_world, Hd, run_bind, run_bind, run_modify,
    run_ret.
  rewrite decide_True by done. rewrite run_bind, run_modify, run_ret.
  f_equal. unfold set_pending_channel_data. cbn. f_equal.
  by rewrite insert_insert_eq.
Qed.

(** X25 — three messages to [handle_channel_info] from a user with
    no channel data pending, on a healthy backend: the first (not empty)
    is taken as the channel id, the second (not empty) as the name, the
    third as the invite link; for an id that is not registered the channel
    is appended with these three values, the handler returns
    [WAITING_FOR_CHANNEL_INFO] twice and then [END], and the session
    dictionaries are as before the first message. *)
Theorem channel_registration_stores_the_channel (w : World) (u : Update)
    (m : Message) (chid name link : string) :
  healthy w →
  message u = Some m →
  pending_channel_data w !! effective_user u = None →
  chid ≠ "" →
  name ≠ "" →
  chid ∉ chan_channel_id <$> channels (db w) →
  let out :=
    run (r1 ← handle_channel_info u chid;
         r2 ← handle_channel_info u name;
         r3 ← handle_channel_info u link;
         mret [r1; r2; r3]) w in
  out.1 = Ok [(Some NoticeChannelIdReceived, WAITING_FOR_CHANNEL_INFO);
              (Some NoticeChannelNameReceived, WAITING_FOR_CHANNEL_INFO);
              (Some NoticeChannelAdded, END)]
  ∧ pending_channel_data out.2 = pending_channel_data w
  ∧ pending_uploads out.2 = pending_uploads w
  ∧ channels (db out.2)
    = channels (db w)
      ++ [{| chan_serial := channels_seq (db w); chan_channel_id := chid;
             chan_channel_name := name; chan_invite_link := link;
             chan_created_at := now w |}]
  ∧ categories (db out.2) = categories (db w)
  ∧ files (db out.2) = files (db w).
Proof.
  intros Hw Hm Hnone Hchid Hname Hfresh out. subst out.
  rewrite run_bind, (handle_channel_info_first u m) by done.
  set (d1 := {| channel_id := chid; channel_name := ""; invite_link := "" |}).
  set (w1 := set_pending_channel_data _ w).
  rewrite run_bind.
  rewrite (handle_channel_info_run u m name w1 d1)
    by (done || by apply lookup_insert_eq).
  rewrite decide_False by done. rewrite decide_True by done.
  cbn [channel_id channel_name invite_link d1].
  set (d2 := {| channel_id := chid; channel_name := name; invite_link := "" |}).
  set (w2 := set_pending_channel_data _ w1).
  rewrite run_bind.
  rewrite (handle_channel_info_run u m link w2 d2)
    by (done || by apply lookup_insert_eq).
  rewrite decide_False by done. rewrite decide_False by done.
  rewrite decide_True by done.
  cbn [channel_id channel_name invite_link d2 fst snd]. cbn zeta.
  set (w3 := set_pending_channel_data _ w2).
  assert (healthy w3) as Hw3 by done.
  unfold DatabaseManager.add_channel.
  rewrite retried_write_healthy;
    [|done|cbn [sem insert_channel]; by case_bool_decide].
  cbn [sem insert_channel].
  change (db w3) with (db w). change (now w3) with (now w).
  rewrite (bool_decide_false _ Hfresh). cbn [fst snd]. rewrite run_ret.
  cbn [fst snd db after set_pending_channel_data pending_channel_data
       pending_uploads channels categories files].
  split_and!; try done.
  subst w3 w2 w1. cbn [pending_channel_data set_pending_channel_data].
  rewrite !insert_insert_eq. by apply delete_insert_id.
Qed.

(** The statement is executed before anything else shows in the trace. *)
Lemma attempt_round_starts_with_execute {A} (q : statement A) (attempt : Z)
    (w : World) :
  ∃ evs, trace (run (DatabaseManager.attempt_round q attempt) w).2
         = trace w ++ EvExecute (sql q) (params q) :: evs.
Proof.
  destruct w as [d wk nw fs cm se pu pc tr ti].
  unfold DatabaseManager.attempt_round, cursor_execute, commit, rollback,
    connect.
  unfold_monad. simpl.
  destruct fs as [|[e|] fs]; simpl.
  - destruct (sem q nw wk) as [e|[s r]]; simpl.
    + destruct e; simpl; try case_bool_decide; simpl;
        (eexists; rewrite <- ?app_assoc; reflexivity).
    + eexists; rewrite <- ?app_assoc; reflexivity.
  - destruct e; simpl; try case_bool_decide; simpl;
      destruct fs as [|[e|] fs]; simpl;
      (eexists; rewrite <- ?app_assoc; reflexivity).
  - destruct (sem q nw wk) as [e|[s r]]; simpl.
    + destruct e; simpl; try case_bool_decide; simpl;
        destruct fs as [|[e|] fs]; simpl;
        (eexists; rewrite <- ?app_assoc; reflexivity).
    + destruct fs as [|[e|] fs]; simpl;
        try (destruct e; simpl; try case_bool_decide; simpl;
             destruct fs as [|[e|] fs]; simpl);
        (eexists; rewrite <- ?app_assoc; reflexivity).
Qed.

Lemma execute_with_retry_starts_with_execute {A} (q : statement A)
    (w : World) :
  ∃ evs, trace (run (DatabaseManager._execute_with_retry q) w).2
         = trace w ++ EvExecute (sql q) (params q) :: evs.
Proof.
  unfold DatabaseManager._execute_with_retry.
  change (seqZ 0 DatabaseManager.max_retries) with [0; 1; 2].
  cbn [DatabaseManager.for_attempts]. rewrite run_bind.
  destruct (attempt_round_starts_with_execute q 0 w) as [evs1 Htr1].
  destruct (run (DatabaseManager.attempt_round q 0) w) as [[f|e] w1];
    cbn [snd] in Htr1; [|by exists evs1].
  destruct f as [|r]; [|rewrite run_ret; by exists evs1].
  destruct (for_attempts_executes q [1; 2] w1) as (evs2 & Htr2 & _).
  exists (evs1 ++ evs2).
  change (trace (run (DatabaseManager.for_attempts q [1; 2]) w1).2
          = trace w ++ EvExecute (sql q) (params q) :: evs1 ++ evs2).
  rewrite Htr2, Htr1. by rewrite <- app_assoc.
Qed.

Lemma add_channel_is_attempted (chid name link : string) (w : World) :
  ∃ evs, trace (run (DatabaseManager.add_channel chid name link) w).2
         = trace w
           ++ EvExecute (sql (insert_channel chid name link))
                [chid; name; link] :: evs.
Proof.
  unfold DatabaseManager.add_channel. rewrite run_try_except, run_bind.
  destruct (execute_with_retry_starts_with_execute
              (insert_channel chid name link) w) as [evs Htr].
  destruct (run (DatabaseManager._execute_with_retry _) w) as [[r|e] w1];
    cbn [snd] in Htr.
  - rewrite run_ret. by exists evs.
  - exists (evs ++ [EvLog (match e with IntegrityError => Warning
                          | _ => Error end)
                      (match e with
                       | IntegrityError => "Channel already exists"
                       | _ => "Error adding channel" end)]).
    destruct e; rewrite run_bind, run_log, run_ret;
      cbn [snd trace add_trace]; rewrite Htr; by rewrite <- app_assoc.
Qed.

(** X26 — the message that completes the channel data (id and name
    are set, the link is not), whatever the backend does: the INSERT of
    the channel with the three values is executed, the channel data of
    the user is removed whether or not it succeeded, [pending_uploads] is
    untouched, and what the handler returns, if it returns, is the answer
    of success or of failure with [END]. *)
Theorem channel_registration_clears_the_data (w : World) (u : Update)
    (m : Message) (d : ChannelData) (text : string) :
  message u = Some m →
  pending_channel_data w !! effective_user u = Some d →
  channel_id d ≠ "" →
  channel_name d ≠ "" →
  invite_link d = "" →
  let out := run (handle_channel_info u text) w in
  pending_channel_data out.2
  = delete (effective_user u) (pending_channel_data w)
  ∧ pending_uploads out.2 = pending_uploads w
  ∧ (∃ evs, trace out.2
            = trace w
              ++ EvExecute
                   (sql (insert_channel (channel_id d) (channel_name d) text))
                   [channel_id d; channel_name d; text] :: evs)
  ∧ (∀ answer, out.1 = Ok answer →
       answer = (Some NoticeChannelAdded, END)
       ∨ answer = (Some NoticeChannelFailed, END)).
Proof.
  intros Hm Hd Hid Hname Hlink out. subst out.
  rewrite (handle_channel_info_run u m text w d) by done.
  rewrite decide_False by done. rewrite decide_False by done.
  rewrite decide_True by done. cbn zeta.
  set (w1 := set_pending_channel_data _ w).
  destruct (session_writes_keep_sessions w1 "" (channel_id d)
              (channel_name d) text []) as [_ [Hpu Hpc]].
  destruct (add_channel_is_attempted (channel_id d) (channel_name d) text w1)
    as [evs Htr].
  destruct (retried_operations_return w1 "" (channel_name d) (channel_id d)
              text 0
              {| file_id := ""; file_name := ""; file_size := 0;
                 file_type := ""; caption := "" |})
    as (_ & _ & _ & _ & _ & (success & w2 & Hrun) & _).
  rewrite Hrun in Hpu, Hpc, Htr |- *.
  cbn [fst snd pending_channel_data pending_uploads
       set_pending_channel_data trace] in *.
  split_and!.
  - rewrite Hpc. subst w1.
    cbn [pending_channel_data set_pending_channel_data].
    by rewrite delete_insert_eq.
  - by rewrite Hpu.
  - by exists evs.
  - intros answer [= <-]. destruct success; by eauto.
Qed.

(** X27 — [cancel] between two messages to [handle_channel_info]
    discards the channel data: the message after it is taken as a channel
    id again, and nothing is stored. *)
Theorem cancel_discards_the_channel_data (w : World) (u : Update)
    (m : Message) (first second : string) :
  message u = Some m →
  pending_channel_data w !! effective_user u = None →
  let out :=
    run (handle_channel_info u first;;
         cancel u;;
         handle_channel_info u second) w in
  out.1 = Ok (Some NoticeChannelIdReceived, WAITING_FOR_CHANNEL_INFO)
  ∧ pending_channel_data out.2 !! effective_user u
    = Some {| channel_id := second; channel_name := ""; invite_link := "" |}
  ∧ db out.2 = db w.
Proof.
  intros Hm Hnone out. subst out.
  rewrite run_bind, (handle_channel_info_first u m) by done.
  unfold cancel. repeat (rewrite run_bind || rewrite run_modify).
  rewrite reply_text_run, Hm, run_ret.
  rewrite (handle_channel_info_first u m); [|done|].
  - cbn [fst snd db pending_channel_data set_pending_channel_data].
    split_and!; [done|by apply lookup_insert_eq|done].
  - cbn [pending_channel_data set_pending_channel_data add_trace
         set_pending_uploads].
    by apply lookup_delete_eq.
Qed.

(** ** Removing a channel and the two listings *)

(** X28 — [remove_channel]: a user who is not an administrator and an
    administrator who gives no id are answered without any access to the
    store; otherwise the first argument is deleted, and on a healthy
    backend the answer is the notice of success also for an id that is
    not registered, in which case the store is unchanged. *)
Theorem remove_channel_cases (ADMIN_IDS : list Z) (w : World) (u : Update)
    (m : Message) (chid : string) (args : list string) :
  message u = Some m →
  let out := run (remove_channel ADMIN_IDS u (chid :: args)) w in
  (effective_user u ∉ ADMIN_IDS → out = (Ok NoticeNotAllowed, w))
  ∧ (effective_user u ∈ ADMIN_IDS →
     run (remove_channel ADMIN_IDS u []) w = (Ok NoticeRemoveUsage, w))
  ∧ (effective_user u ∈ ADMIN_IDS → healthy w →
     out.1 = Ok NoticeChannelRemoved
     ∧ channels (db out.2)
       = filter (λ c, chan_channel_id c ≠ chid) (channels (db w))
     ∧ (chid ∉ chan_channel_id <$> channels (db w) → db out.2 = db w)).
Proof.
  intros Hm out. subst out. unfold remove_channel, is_admin. split_and!.
  - intros Hna. rewrite bool_decide_false by done.
    by apply answer_run with m.
  - intros Ha. rewrite bool_decide_true by done. by apply answer_run with m.
  - intros Ha Hw. rewrite bool_decide_true by done. cbn [negb].
    rewrite run_bind. unfold DatabaseManager.delete_channel.
    rewrite retried_write_healthy by done.
    cbn [sem delete_channel_stmt]. rewrite (answer_run u m) by done.
    cbn [fst snd db after channels]. split_and!; [done|done|].
    intros Habsent. rewrite filter_all; [by destruct (db w)|].
    apply Forall_forall. intros c Hc Heq. apply Habsent. rewrite <- Heq.
    by apply list_elem_of_fmap_2.
Qed.

(** X29 — [categories_list] and [list_channels] for an
    administrator: on a healthy backend they answer with one entry per
    category (name, number of files, link; newest first) and one numbered
    entry per channel (from 1, oldest first), or with the notice that there
    is none; when the connection is lost for three executions in a row
    they answer with that same notice of none. *)
Theorem listings_cannot_tell_failure_from_empty (BOT_USERNAME : string)
    (ADMIN_IDS : list Z) (w : World) (u : Update) (m : Message) :
  message u = Some m →
  effective_user u ∈ ADMIN_IDS →
  (healthy w → NoDup (cat_id <$> categories (db w)) →
   (run (categories_list BOT_USERNAME ADMIN_IDS u) w).1
   = Ok (match categories_view (db w) with
         | [] => NoticeNoCategories
         | listing =>
             NoticeCategories
               ((λ entry : string * Category,
                   (c_name entry.2, length (c_files entry.2),
                    generate_category_link BOT_USERNAME entry.1))
                  <$> listing)
         end)
   ∧ (run (list_channels ADMIN_IDS u) w).1
     = Ok (match channels_view (db w) with
           | [] => NoticeNoChannels
           | listing =>
               NoticeChannels (imap (λ i channel, (S i, channel)) listing)
           end))
  ∧ (∀ c1 c2 rest,
       faults w = Some OperationalError :: c1 :: Some OperationalError
                    :: c2 :: Some OperationalError :: rest →
       (run (categories_list BOT_USERNAME ADMIN_IDS u) w).1
       = Ok NoticeNoCategories
       ∧ (run (list_channels ADMIN_IDS u) w).1 = Ok NoticeNoChannels).
Proof.
  intros Hm Ha. unfold categories_list, list_channels, is_admin.
  rewrite !bool_decide_true by done. cbn [negb]. split.
  - intros Hw Hnd. rewrite !run_bind.
    rewrite get_categories_healthy, get_channels_healthy by done.
    split.
    + destruct (categories_view (db w)); by rewrite (answer_run u m).
    + destruct (channels_view (db w)); by rewrite (answer_run u m).
  - intros c1 c2 rest Hf. rewrite !run_bind.
    destruct (retried_operations_sentinel w "" "" "" "" 0
                {| file_id := ""; file_name := ""; file_size := 0;
                   file_type := ""; caption := "" |} c1 c2 rest Hf)
      as (_ & Hcats & _ & _ & _ & _ & Hchans & _).
    destruct (run DatabaseManager.get_categories w) as [r1 w1].
    destruct (run DatabaseManager.get_channels w) as [r2 w2].
    cbn [fst] in Hcats, Hchans. subst r1 r2.
    by rewrite !(answer_run u m).
Qed.

(** * The further properties on the small instance *)

Lemma wf_sample_store : wf_store sample_store.
Proof. split; compute_done. Qed.

Lemma admin_is_admin : 42 ∈ sample_admins.
Proof. by left. Qed.

Lemma visitor_is_no_admin : 7 ∉ sample_admins.
Proof. intros Hin. apply list_elem_of_singleton in Hin. discriminate Hin. Qed.

Lemma add_category_then_get_witness :
  (healthy sample_world ∧ wf_store (db sample_world)
   ∧ ("cat3" ∉ cat_id <$> categories (db sample_world))
   ∧ ("garden" ∉ cat_name <$> categories (db sample_world)))
  ∧ (run (DatabaseManager.get_category "cat3")
       (run (DatabaseManager.add_category "cat3" "garden" 42)
          sample_world).2).1
    = Ok (Some {| c_name := "garden"; c_files := []; c_created_by := 42;
                  c_created_at := 10 |}).
Proof.
  assert ("cat3" ∉ cat_id <$> categories (db sample_world)) as Hid
    by compute_done.
  assert ("garden" ∉ cat_name <$> categories (db sample_world)) as Hname
    by compute_done.
  split; [split_and!; [exact healthy_sample_world | exact wf_sample_store
                      | exact Hid | exact Hname]|].
  exact (proj2 (proj2 (proj2
           (proj1 (add_category_then_get sample_world "cat3" "garden" 42
                     healthy_sample_world wf_sample_store) Hid Hname)))).
Defined.

Lemma add_file_to_category_cases_witness :
  (healthy sample_world ∧ is_bigint (file_size huge_file) = false)
  ∧ run (DatabaseManager.add_file_to_category "cat1" huge_file) sample_world
    = (Ok false,
       after (db sample_world)
         [EvExecute (sql (insert_file "cat1" huge_file))
            (file_params "cat1" huge_file);
          EvRollback; EvLog Error "Error adding file"] sample_world).
Proof.
  split; [split; [exact healthy_sample_world | reflexivity]|].
  exact (proj1 (add_file_to_category_cases sample_world "cat1" huge_file
                  healthy_sample_world) eq_refl).
Defined.

Lemma delete_category_cascades_witness :
  healthy sample_world
  ∧ (run (DatabaseManager.delete_category "cat1") sample_world).1 = Ok true
  ∧ ("cat1" ∉ row_category_id
               <$> files (db (run (DatabaseManager.delete_category "cat1")
                                sample_world).2)).
Proof.
  split; [exact healthy_sample_world|].
  destruct (delete_category_cascades sample_world "cat1" healthy_sample_world)
    as (Hret & _ & Hfiles & _).
  by split.
Defined.

Lemma add_channel_then_list_witness :
  (healthy sample_world
   ∧ "-1001" ∈ chan_channel_id <$> channels (db sample_world))
  ∧ run (DatabaseManager.add_channel "-1001" "again" "https://t.me/again")
      sample_world
    = (Ok false,
       after (db sample_world)
         [EvExecute
            (sql (insert_channel "-1001" "again" "https://t.me/again"))
            ["-1001"; "again"; "https://t.me/again"];
          EvRollback; EvLog Warning "Channel already exists"] sample_world).
Proof.
  assert ("-1001" ∈ chan_channel_id <$> channels (db sample_world)) as Hin
    by (by left).
  split; [split; [exact healthy_sample_world | exact Hin]|].
  exact (proj1 (add_channel_then_list sample_world "-1001" "again"
                  "https://t.me/again" healthy_sample_world) Hin).
Defined.

Lemma delete_channel_then_list_witness :
  healthy sample_world
  ∧ (run DatabaseManager.get_channels
       (run (DatabaseManager.delete_channel "-1001") sample_world).2).1
    = Ok (filter (λ c, channel_id c ≠ "-1001")
            (channels_view (db sample_world))).
Proof.
  split; [exact healthy_sample_world|].
  exact (proj1 (proj2 (delete_channel_then_list sample_world "-1001"
                         healthy_sample_world))).
Defined.

Lemma get_category_agrees_with_get_categories_witness :
  (healthy sample_world ∧ NoDup (cat_id <$> categories (db sample_world)))
  ∧ ∃ listing,
      (run DatabaseManager.get_categories sample_world).1 = Ok listing
      ∧ match (run (DatabaseManager.get_category "cat1") sample_world).1 with
        | Ok (Some single) =>
            ∃ listed,
              ("cat1", listed) ∈ listing
              ∧ c_name listed = c_name single
              ∧ c_created_by listed = c_created_by single
              ∧ c_created_at listed = c_created_at single
              ∧ c_files listed ≡ₚ c_files single
        | Ok None => "cat1" ∉ listing.*1
        | Raise _ => False
        end.
Proof.
  split; [split; [exact healthy_sample_world | exact NoDup_sample_categories]|].
  exact (get_category_agrees_with_get_categories sample_world "cat1"
           healthy_sample_world NoDup_sample_categories).
Defined.

Lemma extract_file_info_supported_witness :
  ∃ f, extract_file_info (document_message "X") = Some f
       ∧ file_type f = "document"
       ∧ file_id f = "X".
Proof.
  exact (proj1 (proj2 (proj2 (extract_file_info_supported
                                (document_message "X"))))
           {| att_file_id := "X"; att_file_name := Some "x.pdf";
              att_file_size := 100 |} eq_refl).
Defined.

Lemma send_loop_survives_failures_witness :
  (run (for_each_file (send_one (PyUpdate (message_update 7 visitor_message)))
          (c_files holiday_category)) sample_world).1
  = Ok ().
Proof.
  exact (proj1 (send_loop_survives_failures sample_world
                  (message_update 7 visitor_message)
                  (c_files holiday_category))).
Defined.

Lemma handle_media_edges_witness :
  pending_uploads sample_world !! 42 = None
  ∧ run (handle_media (message_update 42 (document_message "X"))) sample_world
    = (Ok (), sample_world).
Proof.
  assert (pending_uploads sample_world !! 42 = None) as Hnone by reflexivity.
  split; [exact Hnone|].
  exact (proj1 (handle_media_edges sample_world
                  (message_update 42 (document_message "X"))) Hnone).
Defined.

Lemma finish_upload_clears_session_witness :
  default [] (pu_files <$> pending_uploads sample_world !! 42) = []
  ∧ db (run (finish_upload "bot" (message_update 42 text_message))
          sample_world).2
    = db sample_world.
Proof.
  assert (default [] (pu_files <$> pending_uploads sample_world !! 42) = [])
    as Hnil by reflexivity.
  split; [exact Hnil|].
  exact (proj1 (proj2 (proj2 (finish_upload_clears_session "bot" sample_world
                                (message_update 42 text_message))) Hnil)).
Defined.

Lemma finish_upload_counts_the_batch_witness :
  (healthy pending_world
   ∧ pending_uploads pending_world !! 42 = Some stored_upload
   ∧ pu_files stored_upload ≠ []
   ∧ Forall (λ f, file_id f ∈ row_file_id <$> files (db pending_world))
       (pu_files stored_upload))
  ∧ db (run (finish_upload "bot" (message_update 42 text_message))
          pending_world).2
    = db pending_world
  ∧ last (trace (run (finish_upload "bot" (message_update 42 text_message))
                   pending_world).2)
    = Some (EvReplyText 42
              (TxtFilesAdded 1 (generate_category_link "bot" "cat1")) []).
Proof.
  assert (healthy pending_world) as Hw by (by split).
  assert (pending_uploads pending_world !! 42 = Some stored_upload) as Hp
    by reflexivity.
  assert (pu_files stored_upload ≠ []) as Hne by discriminate.
  assert (Forall (λ f, file_id f ∈ row_file_id <$> files (db pending_world))
            (pu_files stored_upload)) as Hall.
  { repeat constructor. }
  split; [by split_and!|].
  exact (proj2 (finish_upload_counts_the_batch "bot" pending_world 42
                  text_message stored_upload Hw Hp Hne Hall)).
Defined.

Lemma upload_command_edges_witness :
  (7 ∉ sample_admins)
  ∧ run (upload_command sample_admins (message_update 7 visitor_message)
           ["cat1"]) sample_world
    = (Ok None,
       add_trace [EvReplyText 7 TxtNotAllowed []] sample_world).
Proof.
  split; [exact visitor_is_no_admin|].
  exact (proj1 (upload_command_edges sample_admins sample_world 7
                  visitor_message "cat1" []) visitor_is_no_admin).
Defined.

Lemma adding_to_a_missing_category_fails_at_finish_witness :
  (healthy sample_world
   ∧ ("gone" ∉ cat_id <$> categories (db sample_world))
   ∧ extract_file_info (document_message "Y") = Some (document_info "Y")
   ∧ (file_id (document_info "Y")
      ∉ row_file_id <$> files (db sample_world)))
  ∧ (run (start_adding_files view_query "gone" 42;;
          handle_media (message_update 42 (document_message "Y"));;
          finish_upload "bot" (message_update 42 text_message))
       sample_world).1
    = Ok (Some END).
Proof.
  assert ("gone" ∉ cat_id <$> categories (db sample_world)) as Hgone
    by compute_done.
  assert (file_id (document_info "Y")
          ∉ row_file_id <$> files (db sample_world)) as Hfresh
    by compute_done.
  split; [split_and!; [exact healthy_sample_world | exact Hgone | reflexivity
                      | exact Hfresh]|].
  exact (proj1 (adding_to_a_missing_category_fails_at_finish "bot"
                  sample_world 42 view_query "gone" (document_message "Y")
                  text_message (document_info "Y") healthy_sample_world Hgone
                  eq_refl Hfresh)).
Defined.

Lemma cancel_discards_the_upload_witness :
  (healthy sample_world
   ∧ 42 ∈ sample_admins
   ∧ category_exists (db sample_world) "cat1" = true
   ∧ extract_file_info (document_message "X") = Some (document_info "X"))
  ∧ db (run (upload_command sample_admins (message_update 42 text_message)
               ["cat1"];;
             handle_media (message_update 42 (document_message "X"));;
             cancel (message_update 42 text_message);;
             finish_upload "bot" (message_update 42 text_message))
          sample_world).2
    = db sample_world.
Proof.
  split; [split_and!; [exact healthy_sample_world | exact admin_is_admin
                      | reflexivity | reflexivity]|].
  exact (proj1 (proj2
           (cancel_discards_the_upload "bot" sample_admins sample_world 42
              "cat1" text_message (document_message "X") text_message
              text_message (document_info "X") healthy_sample_world
              admin_is_admin eq_refl eq_refl))).
Defined.

Lemma button_handler_rejects_visitors_witness :
  (callback_query (button_update visitor_query) = Some visitor_query
   ∧ (from_user visitor_query ∉ sample_admins)
   ∧ startswith "check_membership_" (data visitor_query) = false)
  ∧ run (button_handler sample_admins (button_update visitor_query))
      sample_world
    = (Ok (),
       add_trace [EvAnswer; EvEditMessageText TxtNotAllowed []] sample_world).
Proof.
  split; [split_and!; [reflexivity | exact visitor_is_no_admin | reflexivity]|].
  exact (button_handler_rejects_visitors sample_admins sample_world
           (button_update visitor_query) visitor_query eq_refl
           visitor_is_no_admin eq_refl).
Defined.

Lemma admin_buttons_reach_their_category_witness :
  (callback_query (button_update view_query) = Some view_query
   ∧ from_user view_query ∈ sample_admins
   ∧ data view_query = "view_" +:+ "cat1")
  ∧ run (button_handler sample_admins (button_update view_query)) sample_world
    = run (view_category_files view_query "cat1")
        (add_trace [EvAnswer] sample_world).
Proof.
  split; [split_and!; [reflexivity | exact admin_is_admin | reflexivity]|].
  exact (proj1 (admin_buttons_reach_their_category sample_admins sample_world
                  (button_update view_query) view_query "cat1" eq_refl
                  admin_is_admin) eq_refl).
Defined.

Lemma first_file_of_holiday : ∃ f, c_files holiday_category !! 0%nat = Some f.
Proof. by eexists. Qed.

Lemma deletion_button_removes_its_file_witness :
  (healthy sample_world
   ∧ NoDup (row_serial <$> files (db sample_world))
   ∧ NoDup (row_upload_date
              <$> filter (λ r, row_category_id r = "cat1")
                    (files (db sample_world)))
   ∧ no_underscore "cat1" = true
   ∧ category_view (db sample_world) "cat1" = Some holiday_category
   ∧ callback_query (button_update del_file_query) = Some del_file_query
   ∧ from_user del_file_query ∈ sample_admins
   ∧ data del_file_query = "del_file_" +:+ "cat1" +:+ "_" +:+ pretty 0%nat)
  ∧ category_view
      (db (run (button_handler sample_admins (button_update del_file_query))
             sample_world).2) "cat1"
    = Some {| c_name := "holiday";
              c_files := delete 0%nat (c_files holiday_category);
              c_created_by := 42; c_created_at := 5 |}.
Proof.
  assert (data del_file_query
          = "del_file_" +:+ "cat1" +:+ "_" +:+ pretty 0%nat) as Hdata
    by reflexivity.
  assert (NoDup (row_upload_date
                   <$> filter (λ r, row_category_id r = "cat1")
                         (files (db sample_world)))) as Hdates
    by compute_done.
  split; [split_and!; [exact healthy_sample_world | exact NoDup_sample_serials
                      | exact Hdates
                      | reflexivity | reflexivity | reflexivity
                      | exact admin_is_admin | exact Hdata]|].
  exact (proj2 (proj2 (proj2
           (proj2 (deletion_button_removes_its_file sample_admins sample_world
                     (button_update del_file_query) del_file_query "cat1"
                     holiday_category 0
                     {| file_id := "f1"; file_name := "video.mp4";
                        file_size := 10; file_type := "video";
                        caption := "" |}
                     healthy_sample_world NoDup_sample_serials Hdates eq_refl
                     eq_refl eq_refl eq_refl admin_is_admin) Hdata)))).
Defined.

Lemma start_routes_deep_links_witness :
  message (message_update 7 visitor_message) = Some visitor_message
  ∧ run (start sample_admins (message_update 7 visitor_message) []) sample_world
    = (Ok (), add_trace [EvReplyText 7 TxtGreetUser []] sample_world).
Proof.
  split; [reflexivity|].
  exact (proj2 (proj2 (start_routes_deep_links "bot" sample_admins sample_world
                         (message_update 7 visitor_message) visitor_message
                         "cat1" "hello" [] eq_refl))).
Defined.

Lemma gate_opens_when_channels_cannot_be_read_witness :
  (message (message_update 7 visitor_message) = Some visitor_message
   ∧ (7 ∉ sample_admins)
   ∧ faults closed_world
     = [Some OperationalError; None; Some OperationalError; None;
        Some OperationalError; Some InterfaceError; Some InterfaceError])
  ∧ (∃ w1,
       run (handle_category_access sample_admins
              (PyUpdate (message_update 7 visitor_message)) "cat1")
         closed_world
       = run (send_category_files
                (PyUpdate (message_update 7 visitor_message)) "cat1") w1
       ∧ db w1 = db closed_world
       ∧ faults w1 = [Some InterfaceError; Some InterfaceError])
  ∧ last (trace (run (handle_category_access sample_admins
                        (PyUpdate (message_update 7 visitor_message)) "cat1")
                   closed_world).2)
    = Some (EvReplyText (msg_chat_id visitor_message) TxtCategoryNotFound []).
Proof.
  split; [split_and!; [reflexivity | exact visitor_is_no_admin | reflexivity]|].
  destruct (gate_opens_when_channels_cannot_be_read sample_admins closed_world
              (message_update 7 visitor_message) visitor_message "cat1"
              None None [Some InterfaceError; Some InterfaceError]
              eq_refl visitor_is_no_admin eq_refl)
    as (w1 & evs & Hout & _ & Hdb & Hfaults & _ & _ & Hlast).
  split; [exists w1; by split_and!|].
  by apply (Hlast InterfaceError InterfaceError []).
Defined.

Lemma delete_category_button_witness :
  (healthy sample_world
   ∧ category_view (db sample_world) "cat1" = Some holiday_category)
  ∧ files (db (run (delete_category view_query "cat1") sample_world).2)
    = filter (λ r, row_category_id r ≠ "cat1") (files (db sample_world)).
Proof.
  split; [split; [exact healthy_sample_world | reflexivity]|].
  exact (proj1 (proj2 (proj2 (proj2
           (proj2 (delete_category_button sample_world view_query "cat1"
                     healthy_sample_world) holiday_category eq_refl))))).
Defined.

Lemma new_category_cases_witness :
  (message (message_update 42 text_message) = Some text_message
   ∧ 42 ∈ sample_admins
   ∧ healthy sample_world
   ∧ wf_store (db sample_world)
   ∧ ("1b4e28ba" ∉ cat_id <$> categories (db sample_world))
   ∧ ("garden party" ∉ cat_name <$> categories (db sample_world)))
  ∧ (run (new_category "bot" sample_admins (message_update 42 text_message)
            ["garden"; "party"] "1b4e28ba-2fa1-11d2-883f-0016d3cca427")
       sample_world).1
    = Ok (NoticeCategoryCreated "garden party"
            "https://t.me/bot?start=cat_1b4e28ba" "1b4e28ba").
Proof.
  assert ("1b4e28ba" ∉ cat_id <$> categories (db sample_world)) as Hid
    by compute_done.
  assert ("garden party" ∉ cat_name <$> categories (db sample_world))
    as Hname by compute_done.
  split; [split_and!; [reflexivity | exact admin_is_admin
                      | exact healthy_sample_world | exact wf_sample_store
                      | exact Hid | exact Hname]|].
  exact (proj1 (proj1 (proj2 (proj2
           (new_category_cases "bot" sample_admins sample_world
              (message_update 42 text_message) text_message "garden"
              ["party"] "1b4e28ba-2fa1-11d2-883f-0016d3cca427" eq_refl))
           admin_is_admin healthy_sample_world wf_sample_store) Hid Hname)).
Defined.

Lemma channel_registration_stores_the_channel_witness :
  (healthy sample_world
   ∧ message (message_update 42 text_message) = Some text_message
   ∧ pending_channel_data sample_world !! 42 = None
   ∧ "-1003" ≠ ""
   ∧ "films" ≠ ""
   ∧ ("-1003" ∉ chan_channel_id <$> channels (db sample_world)))
  ∧ (run (r1 ← handle_channel_info (message_update 42 text_message) "-1003";
          r2 ← handle_channel_info (message_update 42 text_message) "films";
          r3 ← handle_channel_info (message_update 42 text_message)
                 "https://t.me/films";
          mret [r1; r2; r3]) sample_world).1
    = Ok [(Some NoticeChannelIdReceived, WAITING_FOR_CHANNEL_INFO);
          (Some NoticeChannelNameReceived, WAITING_FOR_CHANNEL_INFO);
          (Some NoticeChannelAdded, END)].
Proof.
  assert ("-1003" ≠ "") as Hid by discriminate.
  assert ("films" ≠ "") as Hname by discriminate.
  assert ("-1003" ∉ chan_channel_id <$> channels (db sample_world)) as Hfresh
    by compute_done.
  split; [split_and!; [exact healthy_sample_world | reflexivity | reflexivity
                      | exact Hid | exact Hname | exact Hfresh]|].
  exact (proj1 (channel_registration_stores_the_channel sample_world
                  (message_update 42 text_message) text_message "-1003"
                  "films" "https://t.me/films" healthy_sample_world eq_refl
                  eq_refl Hid Hname Hfresh)).
Defined.

Lemma channel_registration_clears_the_data_witness :
  (message (message_update 42 text_message) = Some text_message
   ∧ pending_channel_data registering_world !! 42 = Some half_registered
   ∧ channel_id half_registered ≠ ""
   ∧ channel_name half_registered ≠ ""
   ∧ invite_link half_registered = "")
  ∧ pending_channel_data
      (run (handle_channel_info (message_update 42 text_message)
              "https://t.me/films") registering_world).2
    = delete 42 (pending_channel_data registering_world).
Proof.
  assert (channel_id half_registered ≠ "") as Hid by discriminate.
  assert (channel_name half_registered ≠ "") as Hname by discriminate.
  split; [split_and!; [reflexivity | reflexivity | exact Hid | exact Hname
                      | reflexivity]|].
  exact (proj1
           (channel_registration_clears_the_data registering_world
              (message_update 42 text_message) text_message half_registered
              "https://t.me/films" eq_refl eq_refl Hid Hname eq_refl)).
Defined.

Lemma cancel_discards_the_channel_data_witness :
  (message (message_update 42 text_message) = Some text_message
   ∧ pending_channel_data sample_world !! 42 = None)
  ∧ pending_channel_data
      (run (handle_channel_info (message_update 42 text_message) "-1003";;
            cancel (message_update 42 text_message);;
            handle_channel_info (message_update 42 text_message) "-1004")
         sample_world).2 !! 42
    = Some {| channel_id := "-1004"; channel_name := ""; invite_link := "" |}.
Proof.
  split; [split; reflexivity|].
  exact (proj1 (proj2
           (cancel_discards_the_channel_data sample_world
              (message_update 42 text_message) text_message "-1003" "-1004"
              eq_refl eq_refl))).
Defined.

Lemma remove_channel_cases_witness :
  (message (message_update 42 text_message) = Some text_message
   ∧ 42 ∈ sample_admins
   ∧ healthy sample_world
   ∧ ("-1009" ∉ chan_channel_id <$> channels (db sample_world)))
  ∧ (run (remove_channel sample_admins (message_update 42 text_message)
            ["-1009"]) sample_world).1
    = Ok NoticeChannelRemoved
  ∧ db (run (remove_channel sample_admins (message_update 42 text_message)
               ["-1009"]) sample_world).2
    = db sample_world.
Proof.
  assert ("-1009" ∉ chan_channel_id <$> channels (db sample_world))
    as Habsent by compute_done.
  split; [split_and!; [reflexivity | exact admin_is_admin
                      | exact healthy_sample_world | exact Habsent]|].
  destruct (proj2 (proj2
              (remove_channel_cases sample_admins sample_world
                 (message_update 42 text_message) text_message "-1009" []
                 eq_refl)) admin_is_admin healthy_sample_world)
    as (Hret & _ & Hdb).
  split; [exact Hret | exact (Hdb Habsent)].
Defined.

Lemma listings_cannot_tell_failure_from_empty_witness :
  (message (message_update 42 text_message) = Some text_message
   ∧ 42 ∈ sample_admins
   ∧ faults lost_world
     = [Some OperationalError; None; Some OperationalError; None;
        Some OperationalError])
  ∧ (run (categories_list "bot" sample_admins
            (message_update 42 text_message)) lost_world).1
    = Ok NoticeNoCategories
  ∧ (run (list_channels sample_admins (message_update 42 text_message))
       lost_world).1
    = Ok NoticeNoChannels.
Proof.
  split; [split_and!; [reflexivity | exact admin_is_admin | reflexivity]|].
  exact (proj2 (listings_cannot_tell_failure_from_empty "bot" sample_admins
                  lost_world (message_update 42 text_message) text_message
                  eq_refl admin_is_admin) None None [] eq_refl).
Defined.
